(** * Serie AI multi-sport bot: estimators, data-source adapters, persistence

    A shallow embedding of the match estimators ([analyze_match] of
    football_manager.py / bot.py, tennis_manager.py, basketball_manager.py),
    of the API record mapping of the three data managers, and of the user
    and statistics operations of database.py.

    Modelling conventions.
    - Python [float] arithmetic is idealised as exact rational arithmetic
      ([Q]); [int] is [Z].  True division [a / b] raises
      [ZeroDivisionError] on a zero divisor and is therefore fallible.
    - [round(x, n)] is rounding to [n] decimals with ties to even;
      [round(x)] is rounding to the nearest integer with ties to even.
    - A name is a Rocq [string] of ASCII characters; [str.lower] maps
      'A'..'Z' to 'a'..'z' and leaves every other character alone.
    - Every draw from [random] is an explicit argument of the function
      that draws it.
    - Python exceptions are the [Raise] alternative of [result]. *)

From Stdlib Require Import ZArith QArith Qround Qabs Qminmax Qpower Lia Lqa
  Bool List String Ascii DecimalString Sorting.Permutation Sorting.Sorted.
Import ListNotations.

#[local] Set Warnings "-register-all".

Local Open Scope Z_scope.
Local Open Scope Q_scope.

(** ** Exceptions and the error monad *)

Inductive exn : Set :=
| ZeroDivisionError
| AttributeError
| ValueError
| TypeError.

Inductive result (A : Type) : Type :=
| Ok (a : A)
| Raise (e : exn).

Arguments Ok {A} a.
Arguments Raise {A} e.

Definition bind {A B : Type} (m : result A) (k : A -> result B) : result B :=
  match m with
  | Ok a => k a
  | Raise e => Raise e
  end.

Notation "x <- m ;; k" := (bind m (fun x => k))
  (at level 61, m at next level, right associativity).
Notation "' pat <- m ;; k" := (bind m (fun x => match x with pat => k end))
  (at level 61, pat pattern, m at next level, right associativity).

(** ** Python arithmetic *)

(** [a / b] on numbers. *)
Definition pydiv (a b : Q) : result Q :=
  if Qeq_bool b 0 then Raise ZeroDivisionError else Ok (a / b).

Definition Qgt_bool (a b : Q) : bool := negb (Qle_bool a b).

(** [max(a, b)]: the first argument is kept unless the second is
    strictly greater. *)
Definition py_max (a b : Q) : Q := if Qgt_bool b a then b else a.

(** [max(a, b, c)]. *)
Definition py_max3 (a b c : Q) : Q := py_max (py_max a b) c.

(** Nearest integer, ties to even. *)
Definition round_half_even (q : Q) : Z :=
  let f := Qfloor q in
  match Qcompare (q - inject_Z f) (1 # 2) with
  | Lt => f
  | Gt => (f + 1)%Z
  | Eq => if Z.even f then f else (f + 1)%Z
  end.

(** What rounding to the nearest integer with ties to even means: [r]
    is strictly within one half of [q], or exactly one half away and
    even. *)
Definition nearest_even (q : Q) (r : Z) : Prop :=
  (q - (1 # 2) < inject_Z r /\ inject_Z r < q + (1 # 2))
  \/ ((inject_Z r == q - (1 # 2) \/ inject_Z r == q + (1 # 2))
      /\ Z.even r = true).

(** [round(q, n)] where [scale = 10 ^ n]. *)
Definition round_to (scale : positive) (q : Q) : Q :=
  round_half_even (q * (Zpos scale # 1)) # scale.

Definition round1 : Q -> Q := round_to 10.
Definition round2 : Q -> Q := round_to 100.

(** [str(n)] for an integer. *)
Definition str_of_int (n : Z) : string := NilZero.string_of_int (Z.to_int n).

(** [random.choice(l)], where [i] is the index drawn; [d] is never
    reached when [i < len(l)]. *)
Definition choice {A : Type} (l : list A) (i : nat) (d : A) : A := nth i l d.

(** ** Names and raw scores *)

Definition ord (c : ascii) : Z := Z.of_N (N_of_ascii c).

Definition lower_char (c : ascii) : ascii :=
  let n := N_of_ascii c in
  if (65 <=? n)%N && (n <=? 90)%N then ascii_of_N (n + 32) else c.

Fixpoint lower (s : string) : string :=
  match s with
  | EmptyString => EmptyString
  | String c s' => String (lower_char c) (lower s')
  end.

(** [sum(ord(c) for c in s)]. *)
Fixpoint sum_ord (s : string) : Z :=
  match s with
  | EmptyString => 0%Z
  | String c s' => (ord c + sum_ord s')%Z
  end.

(** [sum(ord(c) for c in name.lower()) % 100]. *)
Definition name_score (name : string) : Z := (sum_ord (lower name) mod 100)%Z.

(** ** Decoded API payloads *)

(** A decoded JSON value.  Numbers are rationals (JSON integers and
    floats alike); an object is its key/value list, looked up by first
    match. *)
Inductive json : Type :=
| JNull
| JBool (b : bool)
| JNum (q : Q)
| JStr (s : string)
| JList (l : list json)
| JDict (kv : list (string * json)).

Fixpoint lookup (kv : list (string * json)) (k : string) : option json :=
  match kv with
  | [] => None
  | (k', v) :: kv' => if String.eqb k k' then Some v else lookup kv' k
  end.

(** [x.get(k, d)]: only a dict has the method; on anything else the
    attribute access raises. *)
Definition get (x : json) (k : string) (d : json) : result json :=
  match x with
  | JDict kv =>
      Ok (match lookup kv k with
          | Some v => v
          | None => d
          end)
  | _ => Raise AttributeError
  end.

(** [{}], the default of the nested [.get] chains. *)
Definition empty_dict : json := JDict [].

(** [n == x] for an integer constant [n] and a decoded value [x]. *)
Definition int_eq_json (n : Z) (x : json) : bool :=
  match x with
  | JNum q => Qeq_bool (inject_Z n) q
  | JBool b => Qeq_bool (inject_Z n) (if b then 1 else 0)
  | _ => false
  end.

(** Truth value of a string (of the API key). *)
Definition truthy (s : string) : bool :=
  match s with
  | EmptyString => false
  | String _ _ => true
  end.

Definition upper_char (c : ascii) : ascii :=
  let n := N_of_ascii c in
  if (97 <=? n)%N && (n <=? 122)%N then ascii_of_N (n - 32) else c.

Fixpoint upper (s : string) : string :=
  match s with
  | EmptyString => EmptyString
  | String c s' => String (upper_char c) (upper s')
  end.

(** *** [datetime.fromisoformat(...).strftime("%H:%M")]

    The library parser is modelled on the complete form
    [YYYY-MM-DD?HH:MM:SS+HH:MM] (any separator character, either offset
    sign), which is what the fixtures endpoint sends; every other string
    is a [ValueError] in this model. *)

Definition is_digit (c : ascii) : bool :=
  let n := N_of_ascii c in (48 <=? n)%N && (n <=? 57)%N.

Fixpoint read_digits (k : nat) (s : string) (acc : Z) : result (Z * string) :=
  match k with
  | O => Ok (acc, s)
  | S k' =>
      match s with
      | String c s' =>
          if is_digit c then read_digits k' s' (acc * 10 + (ord c - 48))%Z
          else Raise ValueError
      | EmptyString => Raise ValueError
      end
  end.

Definition expect (c : ascii) (s : string) : result string :=
  match s with
  | String c' s' => if Ascii.eqb c c' then Ok s' else Raise ValueError
  | EmptyString => Raise ValueError
  end.

Definition any_char (s : string) : result string :=
  match s with
  | String _ s' => Ok s'
  | EmptyString => Raise ValueError
  end.

Definition sign_char (s : string) : result string :=
  match s with
  | String c s' =>
      if Ascii.eqb c "+" || Ascii.eqb c "-" then Ok s' else Raise ValueError
  | EmptyString => Raise ValueError
  end.

Definition is_leap (y : Z) : bool :=
  ((y mod 4 =? 0) && (negb (y mod 100 =? 0) || (y mod 400 =? 0)))%Z.

Definition days_in_month (y m : Z) : Z :=
  if (m =? 2)%Z then (if is_leap y then 29 else 28)%Z
  else if ((m =? 4) || (m =? 6) || (m =? 9) || (m =? 11))%Z then 30%Z
  else 31%Z.

Record datetime : Type := {
  year : Z; month : Z; day : Z;
  hour : Z; minute : Z; second : Z
}.

Definition fromisoformat (s : string) : result datetime :=
  ' (y, s) <- read_digits 4 s 0%Z ;;
  s <- expect "-" s ;;
  ' (mo, s) <- read_digits 2 s 0%Z ;;
  s <- expect "-" s ;;
  ' (d, s) <- read_digits 2 s 0%Z ;;
  s <- any_char s ;;
  ' (h, s) <- read_digits 2 s 0%Z ;;
  s <- expect ":" s ;;
  ' (mi, s) <- read_digits 2 s 0%Z ;;
  s <- expect ":" s ;;
  ' (sec, s) <- read_digits 2 s 0%Z ;;
  s <- sign_char s ;;
  ' (oh, s) <- read_digits 2 s 0%Z ;;
  s <- expect ":" s ;;
  ' (om, s) <- read_digits 2 s 0%Z ;;
  match s with
  | EmptyString =>
      if ((1 <=? y) && (1 <=? mo) && (mo <=? 12)
          && (1 <=? d) && (d <=? days_in_month y mo)
          && (h <? 24) && (mi <? 60) && (sec <? 60)
          && (oh <? 24) && (om <? 60))%Z
      then Ok {| year := y; month := mo; day := d;
                 hour := h; minute := mi; second := sec |}
      else Raise ValueError
  | String _ _ => Raise ValueError
  end.

Definition two_digits (n : Z) : string :=
  ((if (n <? 10)%Z then "0" else "") ++ str_of_int n)%string.

(** [dt.strftime("%H:%M")]. *)
Definition strftime_HM (dt : datetime) : string :=
  (two_digits (hour dt) ++ ":" ++ two_digits (minute dt))%string.

(** [s.replace('Z', '+00:00')]. *)
Fixpoint replace_Z (s : string) : string :=
  match s with
  | EmptyString => EmptyString
  | String c s' =>
      if Ascii.eqb c "Z" then ("+00:00" ++ replace_Z s')%string
      else String c (replace_Z s')
  end.

(** [x.replace('Z', '+00:00')] on a decoded value: only a string has
    the method. *)
Definition json_replace_Z (x : json) : result string :=
  match x with
  | JStr s => Ok (replace_Z s)
  | _ => Raise AttributeError
  end.

(** ** Football (football_manager.py; the estimator is mirrored in bot.py) *)

Module Football.

Inductive outcome : Set := Home1 | DrawX | Away2.

(** The literal labels "1", "X", "2". *)
Definition label (o : outcome) : string :=
  match o with
  | Home1 => "1"
  | DrawX => "X"
  | Away2 => "2"
  end%string.

(** The local variables of [analyze_match] when the [return] statement
    is reached. *)
Record locals : Type := {
  home_score : Z;
  away_score : Z;
  home_prob : Q;
  draw_prob : Q;
  away_prob : Q;
  prediction : outcome;
  confidence : Q
}.

(** Lines 96-97: 50/50 when the raw scores add up to zero. *)
Definition substitute (hs0 as0 : Z) : Z * Z :=
  if (hs0 + as0 =? 0)%Z then (50%Z, 50%Z) else (hs0, as0).

(** Lines 99-107, from the two scores on. *)
Definition estimate (hs as_ : Z) : result locals :=
  h <- pydiv (inject_Z hs) (inject_Z (hs + as_)) ;;
  let home_prob0 := h * 100 in
  a <- pydiv (inject_Z as_) (inject_Z (hs + as_)) ;;
  let away_prob0 := a * 100 in
  let draw := py_max 20 (100 - home_prob0 - away_prob0) in
  let hp := home_prob0 - draw / 3 in
  let ap := away_prob0 - draw / 3 in
  let pred :=
    if Qgt_bool hp ap && Qgt_bool hp draw then Home1
    else if Qgt_bool draw hp && Qgt_bool draw ap then DrawX
    else Away2 in
  Ok {| home_score := hs; away_score := as_;
        home_prob := hp; draw_prob := draw; away_prob := ap;
        prediction := pred; confidence := py_max3 hp draw ap |}.

(** Lines 96-107, from the two raw scores on. *)
Definition analyze_scores (hs0 as0 : Z) : result locals :=
  let '(hs, as_) := substitute hs0 as0 in estimate hs as_.

Record probabilities : Type := {
  home : Q;
  draw : Q;
  away : Q
}.

Record goals_t : Type := {
  goals_home : Z;
  goals_away : Z
}.

Record value_bet_t : Type := {
  market : string;
  selection : string;
  odds : Q;
  edge : Q
}.

(** The dictionary returned by [analyze_match]. *)
Record analysis : Type := {
  probs : probabilities;
  predicted : string;
  reported_confidence : Q;
  goals : goals_t;
  value_bet : value_bet_t
}.

(** The probability the prediction label selects,
    [{'1': home_prob, 'X': draw_prob, '2': away_prob}[prediction]]. *)
Definition selected_prob (l : locals) : Q :=
  match prediction l with
  | Home1 => home_prob l
  | DrawX => draw_prob l
  | Away2 => away_prob l
  end.

(** The [return] statement, lines 109-127; [u] is the draw of
    [random.uniform(3, 8)]. *)
Definition report (l : locals) (u : Q) : result analysis :=
  o <- pydiv 1 (selected_prob l / 100) ;;
  Ok {| probs := {| home := round1 (home_prob l);
                    draw := round1 (draw_prob l);
                    away := round1 (away_prob l) |};
        predicted := label (prediction l);
        reported_confidence := round1 (confidence l);
        goals := {| goals_home :=
                      Z.max 0 (round_half_even (inject_Z (home_score l) / 100 * 3));
                    goals_away :=
                      Z.max 0 (round_half_even (inject_Z (away_score l) / 100 * 2)) |};
        value_bet := {| market := "Match Result";
                        selection := label (prediction l);
                        odds := round2 o;
                        edge := round1 u |} |}.

(** Lines 93-107. *)
Definition analyze_locals (home_name away_name : string) : result locals :=
  analyze_scores (name_score home_name) (name_score away_name).

Definition analyze_match (home_name away_name : string) (u : Q)
  : result analysis :=
  l <- analyze_locals home_name away_name ;;
  report l u.

(** *** Today's fixtures *)

(** [self.leagues], in insertion order: code, API id, display name
    (written here without the flag emoji of the source). *)
Definition leagues : list (string * (Z * string)) :=
  [ ("SA", (135%Z, "Serie A"));
    ("PL", (39%Z, "Premier League"));
    ("PD", (140%Z, "La Liga"));
    ("BL1", (78%Z, "Bundesliga")) ]%string.

(** One entry of the list [get_todays_matches] returns. *)
Record match_t : Type := {
  match_home : json;
  match_away : json;
  match_league : string;
  match_time : string
}.

(** [next((k for k, v in self.leagues.items() if v['id'] == league_id), None)]. *)
Definition league_code_of (league_id : json) : option (string * (Z * string)) :=
  find (fun kv => int_eq_json (fst (snd kv)) league_id) leagues.

(** The body of the [for fix in fixtures] loop: [Ok None] when the
    fixture is of no supported league, [Ok (Some m)] when [m] is
    appended, [Raise] when an expression of the body raises. *)
Definition map_fixture (fix_ : json) : result (option match_t) :=
  lg <- get fix_ "league" empty_dict ;;
  league_id <- get lg "id" JNull ;;
  match league_code_of league_id with
  | None => Ok None
  | Some (code, (_, league_name)) =>
      if truthy code then
        t <- get fix_ "teams" empty_dict ;;
        h <- get t "home" empty_dict ;;
        hn <- get h "name" JNull ;;
        t' <- get fix_ "teams" empty_dict ;;
        a <- get t' "away" empty_dict ;;
        an <- get a "name" JNull ;;
        fx <- get fix_ "fixture" empty_dict ;;
        d <- get fx "date" JNull ;;
        ds <- json_replace_Z d ;;
        dt <- fromisoformat ds ;;
        Ok (Some {| match_home := hn; match_away := an;
                    match_league := league_name;
                    match_time := strftime_HM dt |})
      else Ok None
  end.

(** The loop of lines 35-46 with its accumulator [matches]. *)
Fixpoint map_fixtures (fixtures : list json) (matches : list match_t)
  : result (list match_t) :=
  match fixtures with
  | [] => Ok matches
  | fix_ :: rest =>
      o <- map_fixture fix_ ;;
      map_fixtures rest
        (match o with
         | Some m => matches ++ [m]
         | None => matches
         end)
  end.

Definition _get_simulated_matches : list match_t :=
  [ {| match_league := "Serie A"; match_home := JStr "Inter";
       match_away := JStr "Milan"; match_time := "20:45" |};
    {| match_league := "Premier League"; match_home := JStr "Man City";
       match_away := JStr "Liverpool"; match_time := "12:30" |};
    {| match_league := "La Liga"; match_home := JStr "Barcelona";
       match_away := JStr "Real Madrid"; match_time := "21:00" |};
    {| match_league := "Serie A"; match_home := JStr "Juventus";
       match_away := JStr "Napoli"; match_time := "18:00" |};
    {| match_league := "Bundesliga"; match_home := JStr "Bayern";
       match_away := JStr "Dortmund"; match_time := "17:30" |} ]%string.

(** The [try] block of [get_todays_matches]; [fixtures] is what
    [get_football_fixtures()] returned ([None] after a failed
    request). *)
Definition try_todays_matches (fixtures : option (list json))
  : result (list match_t) :=
  match fixtures with
  | None | Some [] => Ok _get_simulated_matches
  | Some fs =>
      matches <- map_fixtures fs [] ;;
      Ok (match matches with
          | [] => _get_simulated_matches
          | _ :: _ => matches
          end)
  end.

Definition get_todays_matches (api_key : string)
    (fixtures : option (list json)) : list match_t :=
  if negb (truthy api_key) then _get_simulated_matches
  else
    match try_todays_matches fixtures with
    | Ok r => r
    | Raise _ => _get_simulated_matches
    end.

End Football.

(** ** Tennis estimator (tennis_manager.py) *)

Module Tennis.

Definition surfaces : list string := ["Hard"; "Clay"; "Grass"; "Carpet"]%string.

(** The draws [analyze_match] takes from [random], in program order. *)
Record draws : Type := {
  adjustment : Q;            (* random.uniform(-5, 5) *)
  sets_pick : nat;           (* random.choice over two set scores *)
  surface_pick : nat;        (* random.choice(self.surfaces) *)
  specialist_pick : nat;     (* random.choice([player1, player2]) *)
  aces_pick : nat;           (* random.choice([player1, player2]) *)
  break_won : Z;             (* random.randint(3, 8) *)
  break_total : Z;           (* random.randint(10, 15) *)
  first_serve_pct : Z        (* random.randint(60, 75) *)
}.

(** The local variables once the winner is determined (line 128). *)
Record locals : Type := {
  p1_score : Z;
  p2_score : Z;
  player1_prob : Q;
  player2_prob : Q;
  predicted_winner : string;
  confidence : Q
}.

(** Lines 109-110: 50/50 when the raw scores add up to zero. *)
Definition substitute (s1 s2 : Z) : Z * Z :=
  if (s1 + s2 =? 0)%Z then (50%Z, 50%Z) else (s1, s2).

(** Lines 112-128, from the two scores and the perturbation on. *)
Definition estimate (player1 player2 : string) (s1 s2 : Z) (adj : Q)
  : result locals :=
  let total := (s1 + s2)%Z in
  a <- pydiv (inject_Z s1) (inject_Z total) ;;
  let p1 := a * 100 in
  b <- pydiv (inject_Z s2) (inject_Z total) ;;
  let p2 := b * 100 in
  let p1 := p1 + adj in
  let p2 := p2 - adj in
  let total_prob := p1 + p2 in
  a' <- pydiv p1 total_prob ;;
  let p1 := a' * 100 in
  b' <- pydiv p2 total_prob ;;
  let p2 := b' * 100 in
  Ok {| p1_score := s1; p2_score := s2;
        player1_prob := p1; player2_prob := p2;
        predicted_winner := if Qgt_bool p1 p2 then player1 else player2;
        confidence := py_max p1 p2 |}.

(** Lines 109-128, from the two raw scores on. *)
Definition analyze_scores (player1 player2 : string) (s1 s2 : Z) (adj : Q)
  : result locals :=
  let '(s1, s2) := substitute s1 s2 in estimate player1 player2 s1 s2 adj.

Record probabilities : Type := {
  player1 : Q;
  player2 : Q
}.

Record key_stats_t : Type := {
  aces_advantage : string;
  break_points : string;
  first_serve : string
}.

(** The dictionary returned by [analyze_match]. *)
Record analysis : Type := {
  name1 : string;
  name2 : string;
  probs : probabilities;
  winner : string;
  reported_confidence : Q;
  predicted_score : string;
  surface : string;
  surface_specialist : string;
  key_stats : key_stats_t
}.

(** Lines 130-157. *)
Definition report (player1 player2 : string) (l : locals) (r : draws)
  : analysis :=
  let sets :=
    if Qgt_bool (player1_prob l) (player2_prob l)
    then choice ["2-0"; "2-1"]%string (sets_pick r) ""%string
    else choice ["0-2"; "1-2"]%string (sets_pick r) ""%string in
  {| name1 := player1;
     name2 := player2;
     probs := {| player1 := round1 (player1_prob l);
                 player2 := round1 (player2_prob l) |};
     winner := predicted_winner l;
     reported_confidence := round1 (confidence l);
     predicted_score := sets;
     surface := choice surfaces (surface_pick r) ""%string;
     surface_specialist :=
       choice [player1; player2] (specialist_pick r) ""%string;
     key_stats :=
       {| aces_advantage := choice [player1; player2] (aces_pick r) ""%string;
          break_points :=
            (str_of_int (break_won r) ++ "/" ++ str_of_int (break_total r))%string;
          first_serve := (str_of_int (first_serve_pct r) ++ "%")%string |} |}.

Definition analyze_locals (player1 player2 : string) (adj : Q)
  : result locals :=
  analyze_scores player1 player2 (name_score player1) (name_score player2) adj.

Definition analyze_match (player1 player2 : string) (r : draws)
  : result analysis :=
  l <- analyze_locals player1 player2 (adjustment r) ;;
  Ok (report player1 player2 l r).

(** *** Today's matches and rankings *)

(** One entry of the list [get_todays_matches] returns. *)
Record match_t : Type := {
  match_player1 : json;
  match_player2 : json;
  match_tournament : json;
  match_surface : json;
  match_time : json;
  match_round : json
}.

(** The dict display inside the [try] of [_format_api_matches]. *)
Definition format_match (m : json) : result match_t :=
  p1 <- get m "player1" empty_dict ;;
  n1 <- get p1 "name" (JStr "Player 1") ;;
  p2 <- get m "player2" empty_dict ;;
  n2 <- get p2 "name" (JStr "Player 2") ;;
  c <- get m "competition" empty_dict ;;
  t <- get c "name" (JStr "Tournament") ;;
  sf <- get m "surface" (JStr "Hard") ;;
  d <- get m "date" (JStr "TBD") ;;
  r <- get m "round" (JStr "R32") ;;
  Ok {| match_player1 := n1; match_player2 := n2; match_tournament := t;
        match_surface := sf; match_time := d; match_round := r |}.

(** The loop over [api_data[:10]] with its [try]/[except]/[continue]. *)
Definition _format_api_matches (api_data : list json) : list match_t :=
  fold_left
    (fun matches m =>
       match format_match m with
       | Ok d => matches ++ [d]
       | Raise _ => matches
       end)
    (firstn 10 api_data) [].

(** [matches_data] is what [get_tennis_matches_today()] returned;
    [simulated] is the list [_get_simulated_matches()] would draw. *)
Definition get_todays_matches (api_key : string)
    (matches_data : option (list json)) (simulated : list match_t)
  : list match_t :=
  if truthy api_key then
    match matches_data with
    | Some (m :: ms) => _format_api_matches (m :: ms)
    | _ => simulated
    end
  else simulated.

Record ranking_t : Type := {
  rank : json;
  player : json;
  points : json;
  country : json
}.

Record rankings_t : Type := {
  tour : string;
  rankings : list ranking_t
}.

Definition format_ranking (x : json) : result ranking_t :=
  rk <- get x "rank" (JNum 0) ;;
  p <- get x "player" empty_dict ;;
  n <- get p "name" (JStr "Unknown") ;;
  pts <- get x "points" (JNum 0) ;;
  p' <- get x "player" empty_dict ;;
  c <- get p' "country" (JStr "N/A") ;;
  Ok {| rank := rk; player := n; points := pts; country := c |}.

(** The loop over [api_data[:20]]. *)
Definition _format_api_rankings (api_data : list json) (tour_ : string)
  : rankings_t :=
  {| tour := upper tour_;
     rankings :=
       fold_left
         (fun acc x =>
            match format_ranking x with
            | Ok d => acc ++ [d]
            | Raise _ => acc
            end)
         (firstn 20 api_data) [] |}.

(** [simulated] is the table [_get_simulated_rankings(tour)] returns. *)
Definition get_rankings (api_key : string) (tour_ : string)
    (rankings_data : option (list json)) (simulated : rankings_t)
  : rankings_t :=
  if truthy api_key then
    match rankings_data with
    | Some (x :: xs) => _format_api_rankings (x :: xs) tour_
    | _ => simulated
    end
  else simulated.

End Tennis.

(** ** Basketball estimator (basketball_manager.py) *)

Module Basketball.

(** The draws [analyze_match] takes from [random]. *)
Record draws : Type := {
  spread_draw : Z;           (* random.randint(2, 12) *)
  total_points_draw : Z      (* random.randint(205, 235) *)
}.

(** The local variables once the winner is determined (line 101). *)
Record locals : Type := {
  h_score : Z;
  a_score : Z;
  home_prob : Q;
  away_prob : Q;
  predicted_winner : string;
  confidence : Q
}.

(** Lines 92-101, from the two raw scores on. *)
Definition analyze_scores (home_team away_team : string) (h0 a0 : Z)
  : result locals :=
  let h := (h0 + 10)%Z in
  let total := (h + a0)%Z in
  x <- pydiv (inject_Z h) (inject_Z total) ;;
  let hp := x * 100 in
  y <- pydiv (inject_Z a0) (inject_Z total) ;;
  let ap := y * 100 in
  Ok {| h_score := h; a_score := a0;
        home_prob := hp; away_prob := ap;
        predicted_winner := if Qgt_bool hp ap then home_team else away_team;
        confidence := py_max hp ap |}.

Record probabilities : Type := {
  home : Q;
  away : Q
}.

(** The dictionary returned by [analyze_match]. *)
Record analysis : Type := {
  home_name : string;
  away_name : string;
  probs : probabilities;
  winner : string;
  reported_confidence : Q;
  spread : string;
  total_points : Z;
  keys : list string
}.

(** Lines 103-123. *)
Definition report (home_team away_team : string) (l : locals) (r : draws)
  : analysis :=
  {| home_name := home_team;
     away_name := away_team;
     probs := {| home := round1 (home_prob l);
                 away := round1 (away_prob l) |};
     winner := predicted_winner l;
     reported_confidence := round1 (confidence l);
     spread :=
       ((if String.eqb (predicted_winner l) away_team then "+" else "-")
          ++ str_of_int (spread_draw r))%string;
     total_points := total_points_draw r;
     keys := ["Rebound Control"; "3-Point Percentage"; "Turnover Margin"]%string |}.

Definition analyze_locals (home_team away_team : string) : result locals :=
  analyze_scores home_team away_team
    (name_score home_team) (name_score away_team).

Definition analyze_match (home_team away_team : string) (r : draws)
  : result analysis :=
  l <- analyze_locals home_team away_team ;;
  Ok (report home_team away_team l r).

(** *** Today's games *)

Record game_t : Type := {
  game_home_team : json;
  game_away_team : json;
  game_league : json;
  game_time : json;
  game_date : json
}.

(** The dict display inside the [try] of [_format_api_games]. *)
Definition format_game (g : json) : result game_t :=
  t <- get g "teams" empty_dict ;;
  h <- get t "home" empty_dict ;;
  hn <- get h "name" (JStr "Home") ;;
  t' <- get g "teams" empty_dict ;;
  a <- get t' "away" empty_dict ;;
  an <- get a "name" (JStr "Away") ;;
  lg <- get g "league" empty_dict ;;
  ln <- get lg "name" (JStr "League") ;;
  tm <- get g "time" (JStr "TBD") ;;
  dt <- get g "date" (JStr "Today") ;;
  Ok {| game_home_team := hn; game_away_team := an; game_league := ln;
        game_time := tm; game_date := dt |}.

(** The loop over [api_data[:15]] with its [try]/[except]/[continue]. *)
Definition _format_api_games (api_data : list json) : list game_t :=
  fold_left
    (fun games g =>
       match format_game g with
       | Ok d => games ++ [d]
       | Raise _ => games
       end)
    (firstn 15 api_data) [].

(** [games_data] is what [get_basketball_games_today()] returned;
    [simulated] is the list [_get_simulated_games()] would draw. *)
Definition get_todays_matches (api_key : string)
    (games_data : option (list json)) (simulated : list game_t)
  : list game_t :=
  if truthy api_key then
    match games_data with
    | Some (g :: gs) => _format_api_games (g :: gs)
    | _ => simulated
    end
  else simulated.

End Basketball.

(** ** Persistence gateway (database.py over the tables of models.py)

    A store is the content of the tables together with the next value of
    the [users.id] sequence.  Instants are integers.  The operations are
    modelled on a store that answers every statement; the [rollback]
    paths of a failing connection are outside the model. *)

Module Database.

Record User : Type := {
  id : Z;
  telegram_id : Z;
  username : option string;
  first_name : option string;
  last_name : option string;
  is_active : bool;
  is_subscribed : bool;
  is_premium : bool;
  subscription_ends : option Z;
  created_at : Z;
  last_seen : Z
}.

Record Prediction : Type := {
  prediction_id : Z;
  user_id : Z;
  home_team : string;
  away_team : string;
  league : string;
  predicted_result : string;
  actual_result : option string;
  home_prob : Q;
  draw_prob : Q;
  away_prob : Q;
  confidence : Q;
  is_correct : option bool;
  prediction_created_at : Z
}.

Record TennisPrediction : Type := {
  tennis_id : Z;
  tennis_user_id : Z;
  player1 : string;
  player2 : string;
  tournament : string;
  surface : string;
  tennis_predicted_winner : string;
  tennis_actual_winner : option string;
  player1_prob : Q;
  player2_prob : Q;
  tennis_confidence : Q;
  tennis_is_correct : option bool;
  tennis_created_at : Z
}.

Record BasketballPrediction : Type := {
  basketball_id : Z;
  basketball_user_id : Z;
  basketball_home_team : string;
  basketball_away_team : string;
  basketball_league : string;
  basketball_predicted_winner : string;
  basketball_actual_winner : option string;
  basketball_home_prob : Q;
  basketball_away_prob : Q;
  basketball_confidence : Q;
  basketball_is_correct : option bool;
  basketball_created_at : Z
}.

(** The three columns the statistics queries read; the three
    prediction tables differ in nothing else the queries see. *)
Class PredictionRow (A : Type) : Type := {
  row_user_id : A -> Z;
  row_is_correct : A -> option bool;
  row_created_at : A -> Z
}.

#[export] Instance Prediction_row : PredictionRow Prediction :=
  {| row_user_id := user_id;
     row_is_correct := is_correct;
     row_created_at := prediction_created_at |}.

#[export] Instance TennisPrediction_row : PredictionRow TennisPrediction :=
  {| row_user_id := tennis_user_id;
     row_is_correct := tennis_is_correct;
     row_created_at := tennis_created_at |}.

#[export] Instance BasketballPrediction_row
  : PredictionRow BasketballPrediction :=
  {| row_user_id := basketball_user_id;
     row_is_correct := basketball_is_correct;
     row_created_at := basketball_created_at |}.

Record store : Type := {
  users : list User;
  next_user_id : Z;
  predictions : list Prediction;
  tennis_predictions : list TennisPrediction;
  basketball_predictions : list BasketballPrediction
}.

Definition set_users (s : store) (us : list User) (next : Z) : store :=
  {| users := us;
     next_user_id := next;
     predictions := predictions s;
     tennis_predictions := tennis_predictions s;
     basketball_predictions := basketball_predictions s |}.

(** [a or b] on optional strings: [a] when it is a non-empty string. *)
Definition py_or (a b : option string) : option string :=
  match a with
  | Some x => if truthy x then a else b
  | None => b
  end.

(** [query(User).filter(User.telegram_id == telegram_id).first()]. *)
Definition find_user (s : store) (tid : Z) : option User :=
  find (fun u => (telegram_id u =? tid)%Z) (users s).

(** The row written by the [else] branch of [get_or_create_user]. *)
Definition touch (u : User) (uname fname lname : option string) (now : Z)
  : User :=
  {| id := id u;
     telegram_id := telegram_id u;
     username := py_or uname (username u);
     first_name := py_or fname (first_name u);
     last_name := py_or lname (last_name u);
     is_active := is_active u;
     is_subscribed := is_subscribed u;
     is_premium := is_premium u;
     subscription_ends := subscription_ends u;
     created_at := created_at u;
     last_seen := now |}.

(** [commit] of a modified row: the row with that primary key is
    replaced in place. *)
Definition update_user (us : list User) (u' : User) : list User :=
  map (fun u => if (id u =? id u')%Z then u' else u) us.

(** [now] is the reading of [datetime.utcnow()]; the column defaults
    of a new row are filled in at the insert, at the same reading. *)
Definition get_or_create_user (s : store) (tid : Z)
    (uname fname lname : option string) (now : Z) : store * User :=
  match find_user s tid with
  | None =>
      let u := {| id := next_user_id s;
                  telegram_id := tid;
                  username := uname;
                  first_name := fname;
                  last_name := lname;
                  is_active := true;
                  is_subscribed := false;
                  is_premium := false;
                  subscription_ends := None;
                  created_at := now;
                  last_seen := now |} in
      (set_users s (users s ++ [u]) (next_user_id s + 1)%Z, u)
  | Some u =>
      let u' := touch u uname fname lname now in
      (set_users s (update_user (users s) u') (next_user_id s), u')
  end.

(** The constraints the schema puts on the [users] table: [id] is the
    primary key, [telegram_id] is unique, and the [id] sequence is ahead
    of every key in use. *)
Definition users_ok (s : store) : Prop :=
  NoDup (map id (users s))
  /\ NoDup (map telegram_id (users s))
  /\ Forall (fun u => (id u < next_user_id s)%Z) (users s).

(** The rows of [users] with a given platform id, in table order. *)
Definition rows_of (s : store) (tid : Z) : list User :=
  filter (fun u => (telegram_id u =? tid)%Z) (users s).

(** [order_by(desc(created_at))]: insertion into a list that is
    already in descending order. *)
Fixpoint insert_desc {A : Type} `{PredictionRow A} (x : A) (l : list A)
  : list A :=
  match l with
  | [] => [x]
  | y :: l' =>
      if (row_created_at y <? row_created_at x)%Z then x :: y :: l'
      else y :: insert_desc x l'
  end.

Fixpoint order_by_desc_created_at {A : Type} `{PredictionRow A}
    (l : list A) : list A :=
  match l with
  | [] => []
  | x :: l' => insert_desc x (order_by_desc_created_at l')
  end.

(** The dictionary the three statistics functions return. *)
Record stats (A : Type) : Type := {
  total_predictions : Z;
  correct_predictions : Z;
  accuracy : Q;
  recent_predictions : list A;
  user : option User
}.

Arguments total_predictions {A} _.
Arguments correct_predictions {A} _.
Arguments accuracy {A} _.
Arguments recent_predictions {A} _.
Arguments user {A} _.

Definition is_true (b : option bool) : bool :=
  match b with
  | Some true => true
  | _ => false
  end.

(** The three queries and the accuracy computation, over one
    prediction table; the division is the only expression of the
    [try] block that can raise in this model. *)
Definition query_stats {A : Type} `{PredictionRow A} (table : list A)
    (u : User) : result (stats A) :=
  let mine := filter (fun r => (row_user_id r =? id u)%Z) table in
  let total := Z.of_nat (List.length mine) in
  let correct :=
    Z.of_nat (List.length (filter (fun r => is_true (row_is_correct r)) mine)) in
  let recent := firstn 5 (order_by_desc_created_at mine) in
  acc <- (if (0 <? total)%Z then
            x <- pydiv (inject_Z correct) (inject_Z total) ;; Ok (x * 100)
          else Ok 0) ;;
  Ok {| total_predictions := total;
        correct_predictions := correct;
        accuracy := round1 acc;
        recent_predictions := recent;
        user := Some u |}.

(** The dictionary of the [except] branch. *)
Definition no_stats {A : Type} : stats A :=
  {| total_predictions := 0;
     correct_predictions := 0;
     accuracy := 0;
     recent_predictions := [];
     user := None |}.

Definition stats_or_default {A : Type} (r : result (stats A)) : stats A :=
  match r with
  | Ok st => st
  | Raise _ => no_stats
  end.

Definition get_user_stats (s : store) (tid : Z) (now : Z)
  : store * stats Prediction :=
  let '(s', u) := get_or_create_user s tid None None None now in
  (s', stats_or_default (query_stats (predictions s') u)).

Definition get_tennis_stats (s : store) (tid : Z) (now : Z)
  : store * stats TennisPrediction :=
  let '(s', u) := get_or_create_user s tid None None None now in
  (s', stats_or_default (query_stats (tennis_predictions s') u)).

Definition get_basketball_stats (s : store) (tid : Z) (now : Z)
  : store * stats BasketballPrediction :=
  let '(s', u) := get_or_create_user s tid None None None now in
  (s', stats_or_default (query_stats (basketball_predictions s') u)).

(** *** Sample stores *)

Definition empty_store : store :=
  {| users := []; next_user_id := 1;
     predictions := []; tennis_predictions := [];
     basketball_predictions := [] |}.

(** A football prediction row as [save_prediction] stores it and the
    settlement step later marks it. *)
Definition sample_prediction (pid uid : Z) (correct : option bool)
    (created : Z) : Prediction :=
  {| prediction_id := pid;
     user_id := uid;
     home_team := "Inter";
     away_team := "Milan";
     league := "Quick Prediction";
     predicted_result := "1";
     actual_result := None;
     home_prob := 547 # 10;
     draw_prob := 20;
     away_prob := 32;
     confidence := 547 # 10;
     is_correct := correct;
     prediction_created_at := created |}.

(** One known user with three settled predictions, one of them correct. *)
Definition sample_store : store :=
  {| users := [ {| id := 1; telegram_id := 77;
                   username := Some "tifoso"%string;
                   first_name := None; last_name := None;
                   is_active := true; is_subscribed := false;
                   is_premium := false; subscription_ends := None;
                   created_at := 100; last_seen := 100 |} ];
     next_user_id := 2;
     predictions := [ sample_prediction 1 1 (Some true) 110;
                      sample_prediction 2 1 (Some false) 120;
                      sample_prediction 3 1 (Some false) 130 ];
     tennis_predictions := [];
     basketball_predictions := [] |}.

End Database.

Import (hints) Database.

(** ** The documented statistics

    What the statistics of a user [u] over one prediction table are to
    be: the two conditional counts, the accuracy as [correct / total] in
    percent, zero when there is no prediction, here rounded to one
    decimal place, and as [recent] the first five rows of the user's
    predictions put newest first. *)

Definition stats_documented {A : Type} `{Database.PredictionRow A}
    (table : list A) (u : Database.User) (st : Database.stats A) : Prop :=
  let mine :=
    filter (fun r => (Database.row_user_id r =? Database.id u)%Z) table in
  let total := Z.of_nat (List.length mine) in
  let correct :=
    Z.of_nat
      (List.length
         (filter (fun r => Database.is_true (Database.row_is_correct r)) mine)) in
  Database.total_predictions st = total
  /\ Database.correct_predictions st = correct
  /\ Database.accuracy st
     = round1 (if (0 <? total)%Z
               then inject_Z correct / inject_Z total * 100 else 0)
  /\ (mine = [] ->
      Database.total_predictions st = 0%Z
      /\ Database.correct_predictions st = 0%Z
      /\ Database.accuracy st == 0
      /\ Database.recent_predictions st = [])
  /\ (exists sorted,
        Permutation sorted mine
        /\ StronglySorted
             (fun a b =>
                (Database.row_created_at b <= Database.row_created_at a)%Z)
             sorted
        /\ Database.recent_predictions st = firstn 5 sorted)
  /\ (List.length (Database.recent_predictions st) <= 5)%nat
  /\ Database.user st = Some u.

(** ** The documented three-way formula

    The football estimate as the specification words it, step by step,
    with total rational operations; compared below with what
    [Football.analyze_match] returns. *)

Module Formula.

(** Step 1: sum of the lowercased string's character codes, modulo 100. *)
Definition raw (name : string) : Z := (sum_ord (lower name) mod 100)%Z.

(** Step 2: 50/50 when both raw scores are zero. *)
Definition scores (a b : string) : Z * Z :=
  if ((raw a =? 0) && (raw b =? 0))%Z then (50%Z, 50%Z) else (raw a, raw b).

(** Step 3: the normalized pair. *)
Definition normA (a b : string) : Q :=
  let '(sa, sb) := scores a b in inject_Z sa / inject_Z (sa + sb) * 100.

Definition normB (a b : string) : Q :=
  let '(sa, sb) := scores a b in inject_Z sb / inject_Z (sa + sb) * 100.

(** Step 4: the draw probability and the adjusted pair. *)
Definition drawProb (a b : string) : Q := Qmax 20 (100 - normA a b - normB a b).

Definition probA (a b : string) : Q := normA a b - drawProb a b / 3.

Definition probB (a b : string) : Q := normB a b - drawProb a b / 3.

(** Step 5: home-win when [probA] is strictly greatest, else draw when
    the draw probability is strictly greatest, else away-win. *)
Definition outcome_label (a b : string) : string :=
  if Qgt_bool (probA a b) (probB a b) && Qgt_bool (probA a b) (drawProb a b)
  then "1"%string
  else if Qgt_bool (drawProb a b) (probA a b)
          && Qgt_bool (drawProb a b) (probB a b)
  then "X"%string
  else "2"%string.

(** Step 6: the maximum of the three probabilities. *)
Definition confidence (a b : string) : Q :=
  Qmax (Qmax (probA a b) (drawProb a b)) (probB a b).

End Formula.

(** ** Sample API records

    Two records of the shape the fixtures endpoint sends, used as
    concrete inputs below: a Serie A fixture, and the same fixture
    without its kick-off date. *)

Definition sample_fixture : json :=
  JDict [ ("fixture", JDict [("date", JStr "2024-05-05T18:45:00+00:00")]);
          ("league", JDict [("id", JNum 135)]);
          ("teams", JDict [ ("home", JDict [("name", JStr "Roma")]);
                            ("away", JDict [("name", JStr "Lazio")]) ]) ]%string.

Definition undated_fixture : json :=
  JDict [ ("fixture", JDict []);
          ("league", JDict [("id", JNum 135)]);
          ("teams", JDict [ ("home", JDict [("name", JStr "Napoli")]);
                            ("away", JDict [("name", JStr "Torino")]) ]) ]%string.

Definition sample_match : Football.match_t :=
  {| Football.match_home := JStr "Roma";
     Football.match_away := JStr "Lazio";
     Football.match_league := "Serie A";
     Football.match_time := "18:45" |}.

(** ** Persistence gateway, continued: writes and value bets

    The primary key of a new prediction row comes from the table's
    sequence and is an argument here ([pid]); its [created_at] default
    is filled in at the reading [now] of the clock. *)

Module DatabaseWrites.

Import Database.

Definition set_predictions (s : store) (ps : list Prediction) : store :=
  {| users := users s;
     next_user_id := next_user_id s;
     predictions := ps;
     tennis_predictions := tennis_predictions s;
     basketball_predictions := basketball_predictions s |}.

Definition set_tennis_predictions (s : store) (ps : list TennisPrediction)
  : store :=
  {| users := users s;
     next_user_id := next_user_id s;
     predictions := predictions s;
     tennis_predictions := ps;
     basketball_predictions := basketball_predictions s |}.

Definition set_basketball_predictions (s : store)
    (ps : list BasketballPrediction) : store :=
  {| users := users s;
     next_user_id := next_user_id s;
     predictions := predictions s;
     tennis_predictions := tennis_predictions s;
     basketball_predictions := ps |}.

(** [save_prediction], lines 52-78. *)
Definition save_prediction (s : store) (tid : Z)
    (home_team_ away_team_ league_ predicted_result_ : string)
    (home_prob_ draw_prob_ away_prob_ confidence_ : Q) (now pid : Z)
  : store * Prediction :=
  let '(s1, u) := get_or_create_user s tid None None None now in
  let p := {| prediction_id := pid;
              user_id := id u;
              home_team := home_team_;
              away_team := away_team_;
              league := league_;
              predicted_result := predicted_result_;
              actual_result := None;
              home_prob := home_prob_;
              draw_prob := draw_prob_;
              away_prob := away_prob_;
              confidence := confidence_;
              is_correct := None;
              prediction_created_at := now |} in
  (set_predictions s1 (predictions s1 ++ [p]), p).

(** [save_tennis_prediction], lines 141-168. *)
Definition save_tennis_prediction (s : store) (tid : Z)
    (player1_ player2_ tournament_ surface_ predicted_winner_ : string)
    (player1_prob_ player2_prob_ confidence_ : Q) (now pid : Z)
  : store * TennisPrediction :=
  let '(s1, u) := get_or_create_user s tid None None None now in
  let p := {| tennis_id := pid;
              tennis_user_id := id u;
              player1 := player1_;
              player2 := player2_;
              tournament := tournament_;
              surface := surface_;
              tennis_predicted_winner := predicted_winner_;
              tennis_actual_winner := None;
              player1_prob := player1_prob_;
              player2_prob := player2_prob_;
              tennis_confidence := confidence_;
              tennis_is_correct := None;
              tennis_created_at := now |} in
  (set_tennis_predictions s1 (tennis_predictions s1 ++ [p]), p).

(** [save_basketball_prediction], lines 214-240. *)
Definition save_basketball_prediction (s : store) (tid : Z)
    (home_team_ away_team_ league_ predicted_winner_ : string)
    (home_prob_ away_prob_ confidence_ : Q) (now pid : Z)
  : store * BasketballPrediction :=
  let '(s1, u) := get_or_create_user s tid None None None now in
  let p := {| basketball_id := pid;
              basketball_user_id := id u;
              basketball_home_team := home_team_;
              basketball_away_team := away_team_;
              basketball_league := league_;
              basketball_predicted_winner := predicted_winner_;
              basketball_actual_winner := None;
              basketball_home_prob := home_prob_;
              basketball_away_prob := away_prob_;
              basketball_confidence := confidence_;
              basketball_is_correct := None;
              basketball_created_at := now |} in
  (set_basketball_predictions s1 (basketball_predictions s1 ++ [p]), p).

(** The foreign key of a prediction table: every row belongs to a row of
    [users]. *)
Definition fk_ok {A : Type} `{PredictionRow A} (us : list User)
    (table : list A) : Prop :=
  Forall (fun r => In (row_user_id r) (map id us)) table.

(** The constraints of the schema on the whole store. *)
Definition store_ok (s : store) : Prop :=
  users_ok s
  /\ fk_ok (users s) (predictions s)
  /\ fk_ok (users s) (tennis_predictions s)
  /\ fk_ok (users s) (basketball_predictions s).

(** *** Value bets (models.py, lines 83-99) *)

Record ValueBet : Type := {
  bet_id : Z;
  bet_match : string;
  bet_league : string;
  bet_type : string;
  bet_selection : string;
  bet_odds : Q;
  bet_probability : Q;
  bet_edge : Q;
  bet_confidence : Q;
  recommended_stake : string;
  bet_is_active : option bool;
  bet_created_at : Z;
  expires_at : option Z
}.

(** [timedelta(days=1)], instants being counted in microseconds. *)
Definition one_day : Z := 86400000000.

(** The [filter] of [get_todays_value_bets]; a NULL never satisfies a
    comparison. *)
Definition bet_is_current (today : Z) (b : ValueBet) : bool :=
  is_true (bet_is_active b)
  && match expires_at b with
     | Some e => (today <? e)%Z && (e <? today + one_day)%Z
     | None => false
     end.

Fixpoint insert_by_edge (b : ValueBet) (l : list ValueBet) : list ValueBet :=
  match l with
  | [] => [b]
  | c :: l' =>
      if Qgt_bool (bet_edge b) (bet_edge c) then b :: c :: l'
      else c :: insert_by_edge b l'
  end.

(** [order_by(desc(ValueBet.edge))].  The [edge] column is taken as
    filled in, as init_database.py does for every row it inserts; the
    order among rows of equal edge is the database's, and nothing
    proved below depends on it. *)
Fixpoint order_by_desc_edge (l : list ValueBet) : list ValueBet :=
  match l with
  | [] => []
  | b :: l' => insert_by_edge b (order_by_desc_edge l')
  end.

(** [get_todays_value_bets], lines 121-137, over the [value_bets] table;
    [today] is the reading of [datetime.utcnow()]. *)
Definition get_todays_value_bets (table : list ValueBet) (today : Z)
  : list ValueBet :=
  firstn 10 (order_by_desc_edge (filter (bet_is_current today) table)).

End DatabaseWrites.

(** ** The bot (bot.py): user storage, access gate, simulated standings *)

Module Bot.

(** *** [SimpleUserStorage], lines 185-206

    The Python sets are lists read through membership only. *)

Record SimpleUserStorage : Type := {
  allowed_users : list Z;
  subscribers : list Z
}.

(** [x in s]. *)
Definition mem (x : Z) (s : list Z) : bool := existsb (Z.eqb x) s.

(** [s.add(x)]. *)
Definition set_add (x : Z) (s : list Z) : list Z :=
  if mem x s then s else x :: s.

(** [is_user_allowed]; [invite_only] is the module constant
    [INVITE_ONLY]. *)
Definition is_user_allowed (invite_only : bool) (st : SimpleUserStorage)
    (user_id : Z) : bool :=
  if negb invite_only then true else mem user_id (allowed_users st).

(** [add_user]: the new storage and the value returned. *)
Definition add_user (st : SimpleUserStorage) (user_id : Z)
  : SimpleUserStorage * bool :=
  if negb (mem user_id (allowed_users st))
  then ({| allowed_users := set_add user_id (allowed_users st);
           subscribers := subscribers st |}, true)
  else (st, false).

(** *** [access_control], lines 211-243 *)

(** Whitespace for [str.split()], on ASCII. *)
Definition is_space (c : ascii) : bool :=
  let n := N_of_ascii c in
  ((9 <=? n)%N && (n <=? 13)%N) || ((28 <=? n)%N && (n <=? 32)%N).

(** [s.split()] with the word being read in [cur]. *)
Fixpoint split_ws (s : string) (cur : string) : list string :=
  match s with
  | EmptyString => if truthy cur then [cur] else []
  | String c s' =>
      if is_space c
      then (if truthy cur then cur :: split_ws s' "" else split_ws s' "")
      else split_ws s' (cur ++ String c "")
  end.

Definition split (s : string) : list string := split_ws s "".

(** The part of an update the gate reads: the sender, and the message
    with its text, either of which may be [None]. *)
Record update_t : Type := {
  effective_user_id : Z;
  message : option (option string)
}.

Inductive gate_result : Set :=
| InvitationAccepted    (* the welcome reply is sent, the handler is not run *)
| AccessRestricted      (* the refusal reply is sent, the handler is not run *)
| HandlerCalled.        (* [func(update, context)] is awaited *)

(** Lines 215-221: whether the update redeems the invite code. *)
Definition redeems_invite (u : update_t) : bool :=
  match message u with
  | Some (Some text) =>
      truthy text
      && String.prefix "/start" text
      && match split text with
         | _ :: code :: _ => String.eqb code "invite123"
         | _ => false
         end
  | _ => false
  end.

(** The wrapper of [access_control]. *)
Definition access_control (invite_only : bool) (st : SimpleUserStorage)
    (u : update_t) : result (SimpleUserStorage * gate_result) :=
  let user_id := effective_user_id u in
  if negb (is_user_allowed invite_only st user_id) then
    if redeems_invite u then
      Ok (fst (add_user st user_id), InvitationAccepted)
    else
      match message u with
      | Some _ => Ok (st, AccessRestricted)
      | None => Raise AttributeError
      end
  else Ok (st, HandlerCalled).

(** *** [DataManager.get_standings], lines 93-139 *)

(** [self.leagues] (names without the flag emoji of the source). *)
Definition leagues : list (string * string) :=
  [ ("SA", "Serie A"); ("PL", "Premier League");
    ("PD", "La Liga"); ("BL1", "Bundesliga") ]%string.

Definition teams_map : list (string * list string) :=
  [ ("SA", ["Inter"; "Milan"; "Juventus"; "Napoli"; "Roma"; "Lazio";
            "Atalanta"; "Fiorentina"]);
    ("PL", ["Man City"; "Liverpool"; "Arsenal"; "Chelsea"; "Man Utd";
            "Tottenham"; "Newcastle"; "Aston Villa"]);
    ("PD", ["Barcelona"; "Real Madrid"; "Atletico"; "Sevilla"; "Valencia";
            "Betis"; "Villarreal"; "Athletic"]);
    ("BL1", ["Bayern"; "Dortmund"; "Leipzig"; "Leverkusen"; "Frankfurt";
             "Wolfsburg"; "Gladbach"; "Hoffenheim"]) ]%string.

Fixpoint assoc {V : Type} (k : string) (l : list (string * V)) : option V :=
  match l with
  | [] => None
  | (k', v) :: l' => if String.eqb k k' then Some v else assoc k l'
  end.

(** [random.randint(a, b)], where [v] is the number drawn: an empty
    range is a [ValueError]. *)
Definition randint (a b v : Z) : result Z :=
  if (a <=? b)%Z then Ok v else Raise ValueError.

(** The five numbers drawn for one team, in program order. *)
Record team_draws : Type := {
  draw_played : Z;
  draw_won : Z;
  draw_draw : Z;
  draw_gf : Z;
  draw_ga : Z
}.

Record standing : Type := {
  position : Z;
  team : string;
  played : Z;
  won : Z;
  draw : Z;
  lost : Z;
  gf : Z;
  ga : Z;
  gd : Z;
  points : Z
}.

(** The body of the loop over the teams. *)
Definition standing_row (i : Z) (team_ : string) (d : team_draws)
  : result standing :=
  played_ <- randint 20 30 (draw_played d) ;;
  won_ <- randint (played_ / 2) (played_ - 5) (draw_won d) ;;
  draw_ <- randint 3 (played_ - won_ - 3) (draw_draw d) ;;
  let lost_ := (played_ - won_ - draw_)%Z in
  gf_ <- randint 30 70 (draw_gf d) ;;
  ga_ <- randint 15 50 (draw_ga d) ;;
  Ok {| position := i; team := team_; played := played_; won := won_;
        draw := draw_; lost := lost_; gf := gf_; ga := ga_;
        gd := (gf_ - ga_)%Z; points := (won_ * 3 + draw_)%Z |}.

(** [for i, team in enumerate(teams, 1)], the draws of the [k]-th
    iteration being [draws k]. *)
Fixpoint standing_rows (teams : list string) (k : nat)
    (draws : nat -> team_draws) : result (list standing) :=
  match teams with
  | [] => Ok []
  | t :: rest =>
      r <- standing_row (Z.of_nat (S k)) t (draws k) ;;
      rs <- standing_rows rest (S k) draws ;;
      Ok (r :: rs)
  end.

Fixpoint insert_by_points (x : standing) (l : list standing) : list standing :=
  match l with
  | [] => [x]
  | y :: l' =>
      if (points y <=? points x)%Z then x :: y :: l'
      else y :: insert_by_points x l'
  end.

(** [standings.sort(key=lambda x: x['points'], reverse=True)]: stable,
    rows of equal points keep their order. *)
Fixpoint sort_by_points (l : list standing) : list standing :=
  match l with
  | [] => []
  | x :: l' => insert_by_points x (sort_by_points l')
  end.

Record standings_t : Type := {
  league_name : string;
  standings : list standing
}.

Definition get_standings (league_code : string) (draws : nat -> team_draws)
  : result standings_t :=
  match assoc league_code leagues with
  | None => Ok {| league_name := "Unknown"; standings := [] |}
  | Some name =>
      let teams :=
        match assoc league_code teams_map with
        | Some ts => ts
        | None => []
        end in
      rows <- standing_rows teams 0 draws ;;
      Ok {| league_name := name; standings := sort_by_points rows |}
  end.

(** The draws [random.randint] can return for one team: each within
    the range asked for. *)
Definition draws_in_range (d : team_draws) : Prop :=
  (20 <= draw_played d <= 30)%Z
  /\ (draw_played d / 2 <= draw_won d <= draw_played d - 5)%Z
  /\ (draw_played d - draw_won d - 3 < 3
      \/ 3 <= draw_draw d <= draw_played d - draw_won d - 3)%Z
  /\ (30 <= draw_gf d <= 70)%Z
  /\ (15 <= draw_ga d <= 50)%Z.

(** What the columns of one row have to do with each other. *)
Definition row_consistent (r : standing) : Prop :=
  (played r = won r + draw r + lost r)%Z
  /\ (20 <= played r <= 30)%Z
  /\ (played r / 2 <= won r)%Z
  /\ (3 <= draw r)%Z
  /\ (3 <= lost r)%Z
  /\ (points r = 3 * won r + draw r)%Z
  /\ (gd r = gf r - ga r)%Z.

End Bot.

(** ** The API client (sports_api_client.py, lines 34-49) *)

Module ApiClient.

(** What [requests.get] does: it raises a [RequestException] (no
    connection, time-out), or answers with a status and a body, taken
    here as already decoded. *)
Inductive http_outcome : Type :=
| RequestFailed
| Response (status : Z) (body : json).

(** Truth value of a decoded value. *)
Definition json_truthy (x : json) : bool :=
  match x with
  | JNull => false
  | JBool b => b
  | JNum q => negb (Qeq_bool q 0)
  | JStr s => truthy s
  | JList l => match l with [] => false | _ :: _ => true end
  | JDict kv => match kv with [] => false | _ :: _ => true end
  end.

(** [_make_request]: [Ok None] is the returned [None]; only a
    [RequestException] is caught, so an [AttributeError] of [data.get]
    leaves the function. *)
Definition _make_request (o : http_outcome) : result (option json) :=
  match o with
  | RequestFailed => Ok None
  | Response status data =>
      if ((400 <=? status) && (status <? 600))%Z then Ok None
      else
        errors <- get data "errors" JNull ;;
        if json_truthy errors then Ok None
        else
          r <- get data "response" (JList []) ;;
          Ok (Some r)
  end.

End ApiClient.

(** ** The managers on top of the API client

    [get_todays_matches] and [get_rankings] of the three managers with
    the request they make: [o] is what [requests.get] does for it. *)

Module Fetch.

Import ApiClient.

(** The items a [for] loop takes from a string: its characters. *)
Definition chars (s : string) : list json :=
  map (fun c => JStr (String c EmptyString)) (list_ascii_of_string s).

(** [if data: return fmt(data)] followed by the simulation, where [fmt]
    loops over a slice [data[:n]].  A list is sliced and looped over; so
    is a string, character by character; a number or a boolean is not
    subscriptable and a dict cannot be sliced ([TypeError]; a [KeyError]
    from Python 3.12 on). *)
Definition respond {B : Type} (fmt : list json -> B) (sim : B)
    (data : option json) : result B :=
  match data with
  | None => Ok sim
  | Some x =>
      if json_truthy x then
        match x with
        | JList l => Ok (fmt l)
        | JStr s => Ok (fmt (chars s))
        | _ => Raise TypeError
        end
      else Ok sim
  end.

(** [TennisDataManager.get_todays_matches], lines 33-42. *)
Definition tennis_todays_matches (api_key : string) (o : http_outcome)
    (simulated : list Tennis.match_t) : result (list Tennis.match_t) :=
  if truthy api_key then
    data <- _make_request o ;;
    respond Tennis._format_api_matches simulated data
  else Ok simulated.

(** [TennisDataManager.get_rankings], lines 159-168. *)
Definition tennis_rankings (api_key tour_ : string) (o : http_outcome)
    (simulated : Tennis.rankings_t) : result Tennis.rankings_t :=
  if truthy api_key then
    data <- _make_request o ;;
    respond (fun l => Tennis._format_api_rankings l tour_) simulated data
  else Ok simulated.

(** [BasketballDataManager.get_todays_matches], lines 26-35. *)
Definition basketball_todays_matches (api_key : string) (o : http_outcome)
    (simulated : list Basketball.game_t) : result (list Basketball.game_t) :=
  if truthy api_key then
    data <- _make_request o ;;
    respond Basketball._format_api_games simulated data
  else Ok simulated.

(** [FootballDataManager.get_todays_matches], lines 25-51.  Everything
    after the key test is inside the [try]: an exception of the request
    is caught, and so is the one raised by looping over a response that
    is not a list (a number or a boolean cannot be looped over; the
    items of a string or of a dict are strings, which have no [get]). *)
Definition football_todays_matches (api_key : string) (o : http_outcome)
  : list Football.match_t :=
  if negb (truthy api_key) then Football._get_simulated_matches
  else
    match _make_request o with
    | Ok (Some (JList fixtures)) =>
        Football.get_todays_matches api_key (Some fixtures)
    | _ => Football._get_simulated_matches
    end.

(** The outcomes of a request that carry no data: the request failed,
    the status is an error status, the payload reports errors, or it
    has no usable [response]. *)
Definition no_data (o : http_outcome) : Prop :=
  match o with
  | RequestFailed => True
  | Response status body =>
      (400 <= status < 600)%Z
      \/ exists kv,
           body = JDict kv
           /\ (json_truthy
                 (match lookup kv "errors" with Some e => e | None => JNull end)
               = true
               \/ json_truthy
                    (match lookup kv "response" with
                     | Some r => r
                     | None => JList []
                     end)
                  = false)
  end.

End Fetch.

(** ** Football standings (football_manager.py, lines 53-88 and 139-149) *)

Module FootballStandings.

Import ApiClient.

Record row_t : Type := {
  position : json;
  team : json;
  played : json;
  won : json;
  draw : json;
  lost : json;
  gf : json;
  ga : json;
  gd : json;
  points : json
}.

Record table_t : Type := {
  league_name : string;
  standings : list row_t
}.

Definition placeholder_row (i : Z) (team_ : string) : row_t :=
  {| position := JNum (inject_Z i); team := JStr team_;
     played := JNum 20; won := JNum 10; draw := JNum 5; lost := JNum 5;
     gf := JNum 30; ga := JNum 20; gd := JNum 10; points := JNum 35 |}.

(** [_get_simulated_standings]. *)
Definition _get_simulated_standings (league_code : string) : table_t :=
  {| league_name :=
       match Bot.assoc league_code Football.leagues with
       | Some (_, name) => name
       | None => "Unknown League"
       end;
     standings :=
       [ placeholder_row 1 "Team A"; placeholder_row 2 "Team B";
         placeholder_row 3 "Team C"; placeholder_row 4 "Team D";
         placeholder_row 5 "Team E" ] |}.

(** Inside the [try] every exception has the same effect, so an
    expression that can raise is an [option] there, [None] standing for
    the exception. *)
Definition caught {A : Type} (r : result A) : option A :=
  match r with
  | Ok a => Some a
  | Raise _ => None
  end.

Definition and_then {A B : Type} (x : option A) (k : A -> option B)
  : option B :=
  match x with
  | Some a => k a
  | None => None
  end.

(** [x[0]]: the first element of a non-empty list, the first character
    of a non-empty string; an [IndexError], a [KeyError] (a dict has
    string keys) or a [TypeError] otherwise. *)
Definition first_item (x : json) : option json :=
  match x with
  | JList (h :: _) => Some h
  | JStr (String c _) => Some (JStr (String c EmptyString))
  | _ => None
  end.

(** [x[k]] for a string key: only a dict that has the key answers. *)
Definition item (x : json) (k : string) : option json :=
  match x with
  | JDict kv => lookup kv k
  | _ => None
  end.

(** The items [for rank in x] visits: the elements of a list, the
    characters of a string, the keys of a dict; a [TypeError]
    otherwise. *)
Definition items (x : json) : option (list json) :=
  match x with
  | JList l => Some l
  | JStr s => Some (Fetch.chars s)
  | JDict kv => Some (map (fun p => JStr (fst p)) kv)
  | _ => None
  end.

(** The dict display of the loop body, lines 69-80. *)
Definition map_rank (rank : json) : result row_t :=
  rk <- get rank "rank" JNull ;;
  t <- get rank "team" empty_dict ;;
  tn <- get t "name" JNull ;;
  a1 <- get rank "all" empty_dict ;;
  pl <- get a1 "played" JNull ;;
  a2 <- get rank "all" empty_dict ;;
  wn <- get a2 "win" JNull ;;
  a3 <- get rank "all" empty_dict ;;
  dr <- get a3 "draw" JNull ;;
  a4 <- get rank "all" empty_dict ;;
  ls <- get a4 "lose" JNull ;;
  a5 <- get rank "all" empty_dict ;;
  g5 <- get a5 "goals" empty_dict ;;
  gf_ <- get g5 "for" JNull ;;
  a6 <- get rank "all" empty_dict ;;
  g6 <- get a6 "goals" empty_dict ;;
  ga_ <- get g6 "against" JNull ;;
  gd_ <- get rank "goalsDiff" JNull ;;
  pts <- get rank "points" JNull ;;
  Ok {| position := rk; team := tn; played := pl; won := wn; draw := dr;
        lost := ls; gf := gf_; ga := ga_; gd := gd_; points := pts |}.

(** The loop of lines 68-80. *)
Fixpoint map_ranks (l : list json) : option (list row_t) :=
  match l with
  | [] => Some []
  | rank :: rest =>
      and_then (caught (map_rank rank)) (fun row =>
      and_then (map_ranks rest) (fun rows => Some (row :: rows)))
  end.

(** The [try] block, lines 59-85: [None] when it ends in the early
    [return] of the simulation or in an exception, which returns the
    simulation too. *)
Definition api_table (name : string) (o : http_outcome) : option table_t :=
  and_then (caught (_make_request o)) (fun data =>
  match data with
  | None => None
  | Some d =>
      if json_truthy d then
        and_then (first_item d) (fun h =>
        and_then (caught (get h "league" empty_dict)) (fun lg =>
        and_then (caught (get lg "standings" JNull)) (fun st =>
        if json_truthy st then
          and_then (first_item d) (fun h' =>
          and_then (item h' "league") (fun lg' =>
          and_then (item lg' "standings") (fun st' =>
          and_then (first_item st') (fun api_standings =>
          and_then (items api_standings) (fun ranks =>
          and_then (map_ranks ranks) (fun rows =>
          Some {| league_name := name; standings := rows |}))))))
        else None)))
      else None
  end).

(** [get_standings]; [o] is what the request for the standings does. *)
Definition get_standings (league_code api_key : string) (o : http_outcome)
  : table_t :=
  match Bot.assoc league_code Football.leagues with
  | None => _get_simulated_standings league_code
  | Some (_, name) =>
      if negb (truthy api_key) then _get_simulated_standings league_code
      else
        match api_table name o with
        | Some t => t
        | None => _get_simulated_standings league_code
        end
  end.

(** A 200 answer carrying one standings table with the given rows. *)
Definition standings_payload (ranks : list json) : http_outcome :=
  Response 200
    (JDict [("response",
             JList [JDict [("league",
                            JDict [("standings",
                                    JList [JList ranks])])]])]%string).

(** A row as the standings endpoint sends it. *)
Definition sample_rank : json :=
  JDict [ ("rank", JNum 1);
          ("team", JDict [("name", JStr "Inter")]);
          ("points", JNum 86);
          ("goalsDiff", JNum 61);
          ("all", JDict [ ("played", JNum 34); ("win", JNum 27);
                          ("draw", JNum 5); ("lose", JNum 2);
                          ("goals", JDict [("for", JNum 81);
                                           ("against", JNum 20)]) ]) ]%string.

End FootballStandings.

(** ** The simulated fixtures of tennis and basketball
    (tennis_manager.py, lines 62-101; basketball_manager.py,
    lines 54-84) *)

Module Sampling.

Fixpoint remove_at {A : Type} (i : nat) (l : list A) : list A :=
  match l, i with
  | [], _ => []
  | _ :: t, O => t
  | h :: t, S i' => h :: remove_at i' t
  end.

(** [random.sample(population, 2)]: two different positions of the
    population, in the order drawn.  The first draw [i] picks one of the
    [n] positions, the second draw [j] one of the [n - 1] left; every
    ordered pair of different positions is reached.  A population of
    fewer than two is a [ValueError]. *)
Definition sample2 {A : Type} (population : list A) (i j : nat)
  : result (A * A) :=
  let n := List.length population in
  match nth_error population (i mod n),
        nth_error (remove_at (i mod n) population) (j mod (n - 1)) with
  | Some a, Some b => Ok (a, b)
  | _, _ => Raise ValueError
  end.

(** A [set] of names. *)
Definition in_set (x : string) (s : list string) : bool :=
  existsb (String.eqb x) s.

Definition set_add (x : string) (s : list string) : list string :=
  if in_set x s then s else x :: s.

(** [[p for p in names if p not in used]]. *)
Definition unused (names used : list string) : list string :=
  filter (fun p => negb (in_set p used)) names.

Section Pairing.

Context {D G : Type}.
Variable names : list string.
Variable picks : D -> nat * nat.
Variable build : string -> string -> D -> G.

(** The loop the two generators share: one pass per element of [ds],
    the draws of that pass; [used] is the set of names given out. *)
Fixpoint pair_up (used : list string) (ds : list D) : result (list G) :=
  match ds with
  | [] => Ok []
  | d :: rest =>
      let available := unused names used in
      let short := (List.length available <? 2)%nat in
      let used1 := if short then [] else used in
      let available1 := if short then names else available in
      ' (a, b) <- sample2 available1 (fst (picks d)) (snd (picks d)) ;;
      let used2 := set_add b (set_add a used1) in
      rest' <- pair_up used2 rest ;;
      Ok (build a b d :: rest')
  end.

End Pairing.

(** One pass of the loop told by its outcome, the two names given out
    and the draws, and the entry it appends. *)
Definition built {D G : Type} (build : string -> string -> D -> G)
    (t : string * string * D) : G :=
  build (fst (fst t)) (snd (fst t)) (snd t).

Definition pair_names {D : Type} (t : string * string * D) : list string :=
  [fst (fst t); snd (fst t)].

End Sampling.

Module TennisSimulation.

Import Sampling.

Definition players : list string :=
  [ "Novak Djokovic"; "Carlos Alcaraz"; "Daniil Medvedev"; "Jannik Sinner";
    "Alexander Zverev"; "Andrey Rublev"; "Stefanos Tsitsipas"; "Holger Rune";
    "Taylor Fritz"; "Casper Ruud"; "Grigor Dimitrov"; "Tommy Paul";
    "Iga Swiatek"; "Aryna Sabalenka"; "Coco Gauff"; "Elena Rybakina";
    "Jessica Pegula"; "Ons Jabeur"; "Qinwen Zheng"; "Karolina Muchova"
  ]%string.

Definition tournaments_list : list string :=
  [ "Australian Open"; "Miami Open"; "Indian Wells"; "Madrid Open";
    "Rome Masters"; "Dubai Championships"; "ATP Finals" ]%string.

(** The draws of one pass of the loop, in program order. *)
Record match_draws : Type := {
  player1_pick : nat;        (* random.sample(available, 2), first *)
  player2_pick : nat;        (* random.sample(available, 2), second *)
  tournament_pick : nat;     (* random.choice(tournaments_list) *)
  surface_pick : nat;        (* random.choice(self.surfaces) *)
  hour_draw : Z;             (* random.randint(10, 20) *)
  minute_pick : nat;         (* random.choice(['00', '30']) *)
  round_pick : nat           (* random.choice(['R64', ..., 'F']) *)
}.

Definition build_match (player1 player2 : string) (d : match_draws)
  : Tennis.match_t :=
  {| Tennis.match_player1 := JStr player1;
     Tennis.match_player2 := JStr player2;
     Tennis.match_tournament :=
       JStr (choice tournaments_list (tournament_pick d) EmptyString);
     Tennis.match_surface :=
       JStr (choice Tennis.surfaces (surface_pick d) EmptyString);
     Tennis.match_time :=
       JStr (str_of_int (hour_draw d) ++ ":"
             ++ choice ["00"; "30"] (minute_pick d) EmptyString)%string;
     Tennis.match_round :=
       JStr (choice ["R64"; "R32"; "R16"; "QF"; "SF"; "F"]%string
               (round_pick d) EmptyString) |}.

(** [_get_simulated_matches]: [num_matches] is the number
    [random.randint(4, 8)] draws, [ds k] the draws of pass [k]. *)
Definition _get_simulated_matches (num_matches : Z) (ds : nat -> match_draws)
  : result (list Tennis.match_t) :=
  pair_up players (fun d => (player1_pick d, player2_pick d)) build_match
    [] (map ds (seq 0 (Z.to_nat num_matches))).

End TennisSimulation.

Module BasketballSimulation.

Import Sampling.

Definition nba_teams : list string :=
  [ "LA Lakers"; "GS Warriors"; "Boston Celtics"; "Denver Nuggets";
    "Miami Heat"; "Milwaukee Bucks"; "Phoenix Suns"; "Dallas Mavericks";
    "NY Knicks"; "Philadelphia 76ers"; "LA Clippers"; "Chicago Bulls"
  ]%string.

(** The draws of one pass of the loop, in program order. *)
Record game_draws : Type := {
  home_pick : nat;           (* random.sample(available, 2), first *)
  away_pick : nat;           (* random.sample(available, 2), second *)
  hour_draw : Z              (* random.randint(7, 10) *)
}.

Definition build_game (home away : string) (d : game_draws)
  : Basketball.game_t :=
  {| Basketball.game_home_team := JStr home;
     Basketball.game_away_team := JStr away;
     Basketball.game_league := JStr "NBA";
     Basketball.game_time := JStr (str_of_int (hour_draw d) ++ ":30 PM");
     Basketball.game_date := JStr "Tonight" |}.

(** [_get_simulated_games]: [num_games] is the number
    [random.randint(5, 10)] draws, [ds k] the draws of pass [k]. *)
Definition _get_simulated_games (num_games : Z) (ds : nat -> game_draws)
  : result (list Basketball.game_t) :=
  pair_up nba_teams (fun d => (home_pick d, away_pick d)) build_game
    [] (map ds (seq 0 (Z.to_nat num_games))).

End BasketballSimulation.

(** * Double precision

    The estimators and the accuracy of the statistics compute with
    Python [float]s, which are IEEE 754 binary64 numbers.  A finite
    double is a rational, and every operation returns the exact result
    rounded to the nearest double, ties to the even significand.  The
    modules below are the same functions as above with every float
    operation rounded in this way; where the exact reading above and
    the doubles differ (a value that lands on the other side of a
    rounding tie), these are what the code returns. *)

Module Double.

Definition two_to (k : Z) : Q := 2 ^ k.

(** [floor (log2 |x|)] for [x <> 0]: the estimate from the sizes of
    numerator and denominator is right or one too large. *)
Definition exponent (x : Q) : Z :=
  let e := (Z.log2 (Z.abs (Qnum x)) - Z.log2 (Zpos (Qden x)))%Z in
  if Qle_bool (two_to e) (Qabs x) then e else (e - 1)%Z.

(** The exponent of the last place of the doubles around [x]: 53
    significant bits, and never below the smallest subnormal. *)
Definition ulp_exponent (x : Q) : Z := Z.max (exponent x - 52) (-1074).

(** The double nearest to [x], ties to even.  No operation of the
    functions modelled here comes near [2 ^ 1024], where a double
    overflows. *)
Definition rnd (x : Q) : Q :=
  if Qeq_bool x 0 then 0
  else
    let u := two_to (ulp_exponent x) in
    inject_Z (round_half_even (x / u)) * u.

Definition add (a b : Q) : Q := rnd (a + b).
Definition sub (a b : Q) : Q := rnd (a - b).
Definition mul (a b : Q) : Q := rnd (a * b).

(** [a / b] for a divisor that is not zero. *)
Definition quot (a b : Q) : Q := rnd (a / b).

(** [a / b]: both [int / int] and the float division are the exact
    quotient rounded once, and raise on a zero divisor. *)
Definition div (a b : Q) : result Q :=
  if Qeq_bool b 0 then Raise ZeroDivisionError else Ok (quot a b).

(** [round(x, n)] where [scale = 10 ^ n]: the exact value of [x] is
    rounded to [n] decimals, ties to even, and the decimal result is
    converted to the nearest double. *)
Definition round_to (scale : positive) (x : Q) : Q :=
  rnd (round_half_even (x * (Zpos scale # 1)) # scale).

Definition round1 : Q -> Q := round_to 10.
Definition round2 : Q -> Q := round_to 100.

(** The double that is written [n / 10], and the one written [n / 100]. *)
Definition tenths (n : Z) : Q := rnd (n # 10).
Definition hundredths (n : Z) : Q := rnd (n # 100).

End Double.

(** ** Football estimator in double precision *)

Module FootballDouble.

Import Football.

(** Lines 99-107, from the two scores on. *)
Definition estimate (hs as_ : Z) : result locals :=
  h <- Double.div (inject_Z hs) (inject_Z (hs + as_)) ;;
  let home_prob0 := Double.mul h 100 in
  a <- Double.div (inject_Z as_) (inject_Z (hs + as_)) ;;
  let away_prob0 := Double.mul a 100 in
  let draw := py_max 20 (Double.sub (Double.sub 100 home_prob0) away_prob0) in
  let hp := Double.sub home_prob0 (Double.quot draw 3) in
  let ap := Double.sub away_prob0 (Double.quot draw 3) in
  let pred :=
    if Qgt_bool hp ap && Qgt_bool hp draw then Home1
    else if Qgt_bool draw hp && Qgt_bool draw ap then DrawX
    else Away2 in
  Ok {| home_score := hs; away_score := as_;
        home_prob := hp; draw_prob := draw; away_prob := ap;
        prediction := pred; confidence := py_max3 hp draw ap |}.

(** Lines 96-107, from the two raw scores on. *)
Definition analyze_scores (hs0 as0 : Z) : result locals :=
  let '(hs, as_) := substitute hs0 as0 in estimate hs as_.

(** The [return] statement, lines 109-127; [u] is the draw of
    [random.uniform(3, 8)]. *)
Definition report (l : locals) (u : Q) : result analysis :=
  o <- Double.div 1 (Double.quot (selected_prob l) 100) ;;
  Ok {| probs := {| home := Double.round1 (home_prob l);
                    draw := Double.round1 (draw_prob l);
                    away := Double.round1 (away_prob l) |};
        predicted := label (prediction l);
        reported_confidence := Double.round1 (confidence l);
        goals :=
          {| goals_home :=
               Z.max 0 (round_half_even
                          (Double.mul (Double.quot (inject_Z (home_score l)) 100) 3));
             goals_away :=
               Z.max 0 (round_half_even
                          (Double.mul (Double.quot (inject_Z (away_score l)) 100) 2)) |};
        value_bet := {| market := "Match Result";
                        selection := label (prediction l);
                        odds := Double.round2 o;
                        edge := Double.round1 u |} |}.

(** Lines 93-107. *)
Definition analyze_locals (home_name away_name : string) : result locals :=
  analyze_scores (name_score home_name) (name_score away_name).

Definition analyze_match (home_name away_name : string) (u : Q)
  : result analysis :=
  l <- analyze_locals home_name away_name ;;
  report l u.

End FootballDouble.

(** ** The documented three-way formula in double precision

    The steps of the specification as in [Formula], from the two raw
    scores on, each operation rounded to a double. *)

Module FormulaDouble.

(** Step 2: 50/50 when both raw scores are zero. *)
Definition scores_of (ra rb : Z) : Z * Z :=
  if ((ra =? 0) && (rb =? 0))%Z then (50%Z, 50%Z) else (ra, rb).

(** Step 3: the normalized pair. *)
Definition normA_of (ra rb : Z) : Q :=
  let '(sa, sb) := scores_of ra rb in
  Double.mul (Double.quot (inject_Z sa) (inject_Z (sa + sb))) 100.

Definition normB_of (ra rb : Z) : Q :=
  let '(sa, sb) := scores_of ra rb in
  Double.mul (Double.quot (inject_Z sb) (inject_Z (sa + sb))) 100.

(** Step 4: the draw probability and the adjusted pair. *)
Definition drawProb_of (ra rb : Z) : Q :=
  Qmax 20 (Double.sub (Double.sub 100 (normA_of ra rb)) (normB_of ra rb)).

Definition probA_of (ra rb : Z) : Q :=
  Double.sub (normA_of ra rb) (Double.quot (drawProb_of ra rb) 3).

Definition probB_of (ra rb : Z) : Q :=
  Double.sub (normB_of ra rb) (Double.quot (drawProb_of ra rb) 3).

(** Step 5: home-win when [probA] is strictly greatest, else draw when
    the draw probability is strictly greatest, else away-win. *)
Definition outcome_label_of (ra rb : Z) : string :=
  if Qgt_bool (probA_of ra rb) (probB_of ra rb)
     && Qgt_bool (probA_of ra rb) (drawProb_of ra rb)
  then "1"%string
  else if Qgt_bool (drawProb_of ra rb) (probA_of ra rb)
          && Qgt_bool (drawProb_of ra rb) (probB_of ra rb)
  then "X"%string
  else "2"%string.

(** Step 6: the maximum of the three probabilities. *)
Definition confidence_of (ra rb : Z) : Q :=
  Qmax (Qmax (probA_of ra rb) (drawProb_of ra rb)) (probB_of ra rb).

(** Step 1 and the formula on two names. *)
Definition probA (a b : string) : Q := probA_of (Formula.raw a) (Formula.raw b).
Definition probB (a b : string) : Q := probB_of (Formula.raw a) (Formula.raw b).
Definition drawProb (a b : string) : Q :=
  drawProb_of (Formula.raw a) (Formula.raw b).
Definition outcome_label (a b : string) : string :=
  outcome_label_of (Formula.raw a) (Formula.raw b).
Definition confidence (a b : string) : Q :=
  confidence_of (Formula.raw a) (Formula.raw b).

End FormulaDouble.

(** ** Tennis estimator in double precision *)

Module TennisDouble.

Import Tennis.

(** Lines 112-128, from the two scores and the perturbation on. *)
Definition estimate (player1 player2 : string) (s1 s2 : Z) (adj : Q)
  : result locals :=
  let total := (s1 + s2)%Z in
  a <- Double.div (inject_Z s1) (inject_Z total) ;;
  let p1 := Double.mul a 100 in
  b <- Double.div (inject_Z s2) (inject_Z total) ;;
  let p2 := Double.mul b 100 in
  let p1 := Double.add p1 adj in
  let p2 := Double.sub p2 adj in
  let total_prob := Double.add p1 p2 in
  a' <- Double.div p1 total_prob ;;
  let p1 := Double.mul a' 100 in
  b' <- Double.div p2 total_prob ;;
  let p2 := Double.mul b' 100 in
  Ok {| p1_score := s1; p2_score := s2;
        player1_prob := p1; player2_prob := p2;
        predicted_winner := if Qgt_bool p1 p2 then player1 else player2;
        confidence := py_max p1 p2 |}.

(** Lines 109-128, from the two raw scores on. *)
Definition analyze_scores (player1 player2 : string) (s1 s2 : Z) (adj : Q)
  : result locals :=
  let '(s1, s2) := substitute s1 s2 in estimate player1 player2 s1 s2 adj.

(** Lines 130-157. *)
Definition report (player1 player2 : string) (l : locals) (r : draws)
  : analysis :=
  let sets :=
    if Qgt_bool (player1_prob l) (player2_prob l)
    then choice ["2-0"; "2-1"]%string (sets_pick r) EmptyString
    else choice ["0-2"; "1-2"]%string (sets_pick r) EmptyString in
  {| name1 := player1;
     name2 := player2;
     probs := {| player1 := Double.round1 (player1_prob l);
                 player2 := Double.round1 (player2_prob l) |};
     winner := predicted_winner l;
     reported_confidence := Double.round1 (confidence l);
     predicted_score := sets;
     surface := choice surfaces (surface_pick r) EmptyString;
     surface_specialist :=
       choice [player1; player2] (specialist_pick r) EmptyString;
     key_stats :=
       {| aces_advantage := choice [player1; player2] (aces_pick r) EmptyString;
          break_points :=
            (str_of_int (break_won r) ++ "/" ++ str_of_int (break_total r))%string;
          first_serve := (str_of_int (first_serve_pct r) ++ "%")%string |} |}.

Definition analyze_locals (player1 player2 : string) (adj : Q)
  : result locals :=
  analyze_scores player1 player2 (name_score player1) (name_score player2) adj.

Definition analyze_match (player1 player2 : string) (r : draws)
  : result analysis :=
  l <- analyze_locals player1 player2 (adjustment r) ;;
  Ok (report player1 player2 l r).

(** [abs(p1 + p2 - 100) <= 0.1] as Python evaluates it on two floats. *)
Definition within_tolerance (p1 p2 : Q) : bool :=
  Qle_bool (Qabs (Double.sub (Double.add p1 p2) 100)) (Double.tenths 1).

End TennisDouble.

(** ** Basketball estimator in double precision *)

Module BasketballDouble.

Import Basketball.

(** Lines 92-101, from the two raw scores on. *)
Definition analyze_scores (home_team away_team : string) (h0 a0 : Z)
  : result locals :=
  let h := (h0 + 10)%Z in
  let total := (h + a0)%Z in
  x <- Double.div (inject_Z h) (inject_Z total) ;;
  let hp := Double.mul x 100 in
  y <- Double.div (inject_Z a0) (inject_Z total) ;;
  let ap := Double.mul y 100 in
  Ok {| h_score := h; a_score := a0;
        home_prob := hp; away_prob := ap;
        predicted_winner := if Qgt_bool hp ap then home_team else away_team;
        confidence := py_max hp ap |}.

(** Lines 103-123. *)
Definition report (home_team away_team : string) (l : locals) (r : draws)
  : analysis :=
  {| home_name := home_team;
     away_name := away_team;
     probs := {| home := Double.round1 (home_prob l);
                 away := Double.round1 (away_prob l) |};
     winner := predicted_winner l;
     reported_confidence := Double.round1 (confidence l);
     spread :=
       ((if String.eqb (predicted_winner l) away_team then "+" else "-")
          ++ str_of_int (spread_draw r))%string;
     total_points := total_points_draw r;
     keys := ["Rebound Control"; "3-Point Percentage"; "Turnover Margin"]%string |}.

Definition analyze_locals (home_team away_team : string) : result locals :=
  analyze_scores home_team away_team
    (name_score home_team) (name_score away_team).

Definition analyze_match (home_team away_team : string) (r : draws)
  : result analysis :=
  l <- analyze_locals home_team away_team ;;
  Ok (report home_team away_team l r).

End BasketballDouble.

(** ** The persistence gateway with its failure paths

    [DatabaseManager] as database.py has it: every method runs its
    statements inside a [try].  What the backend does with the
    statements of one transaction is an input of the method
    ([db_outcome]); besides, an [Integer] column holds 32-bit numbers
    on PostgreSQL, which models.py is written for, and 64-bit numbers
    on SQLite, so that a platform id outside the range can be neither
    looked up as a row nor inserted.  The clock is read once for the
    [last_seen] the code passes and once more for the column default
    [created_at] of a new row. *)

Module DatabaseManager.

Import Database DatabaseWrites.

Inductive backend : Set := PostgreSQL | SQLite.

(** The numbers an [Integer] column holds. *)
Definition integer_holds (b : backend) (n : Z) : bool :=
  match b with
  | PostgreSQL => ((- 2 ^ 31 <=? n) && (n <? 2 ^ 31))%Z
  | SQLite => ((- 2 ^ 63 <=? n) && (n <? 2 ^ 63))%Z
  end.

(** What the backend does with the statements of one transaction:
    [Fails] is any statement raising (a lost connection, a text longer
    than its column, a key the sequence cannot give). *)
Inductive db_outcome : Set := Executes | Fails.

(** What a method that re-raises hands to its caller. *)
Inductive answer (A : Type) : Type :=
| Returns (a : A)
| Raises.

Arguments Returns {A} a.
Arguments Raises {A}.

(** [get_or_create_user], lines 22-50: [seen] is the reading of
    [datetime.utcnow()] in the method, [created] the later reading
    that fills [created_at] when a row is inserted.  On an exception
    the transaction is rolled back, which leaves the store as it was,
    and the exception is raised again. *)
Definition get_or_create_user (b : backend) (db : db_outcome) (s : store)
    (tid : Z) (uname fname lname : option string) (seen created : Z)
  : store * answer User :=
  match db with
  | Fails => (s, Raises)
  | Executes =>
      if negb (integer_holds b tid) then (s, Raises)
      else
        match find_user s tid with
        | None =>
            let u := {| id := next_user_id s;
                        telegram_id := tid;
                        username := uname;
                        first_name := fname;
                        last_name := lname;
                        is_active := true;
                        is_subscribed := false;
                        is_premium := false;
                        subscription_ends := None;
                        created_at := created;
                        last_seen := seen |} in
            (set_users s (users s ++ [u]) (next_user_id s + 1)%Z, Returns u)
        | Some u =>
            let u' := touch u uname fname lname seen in
            (set_users s (update_user (users s) u') (next_user_id s),
             Returns u')
        end
  end.

(** [save_prediction], lines 52-78: [db_user] is the transaction of
    the user lookup, which is committed on its own, [db_insert] the
    one that inserts the prediction; [now] fills its [created_at] and
    [pid] is the key its sequence gives. *)
Definition save_prediction (b : backend) (db_user db_insert : db_outcome)
    (s : store) (tid : Z)
    (home_team_ away_team_ league_ predicted_result_ : string)
    (home_prob_ draw_prob_ away_prob_ confidence_ : Q)
    (seen created now pid : Z)
  : store * answer Prediction :=
  match get_or_create_user b db_user s tid None None None seen created with
  | (s1, Raises) => (s1, Raises)
  | (s1, Returns u) =>
      match db_insert with
      | Fails => (s1, Raises)
      | Executes =>
          let p := {| prediction_id := pid;
                      user_id := id u;
                      home_team := home_team_;
                      away_team := away_team_;
                      league := league_;
                      predicted_result := predicted_result_;
                      actual_result := None;
                      home_prob := home_prob_;
                      draw_prob := draw_prob_;
                      away_prob := away_prob_;
                      confidence := confidence_;
                      is_correct := None;
                      prediction_created_at := now |} in
          (set_predictions s1 (predictions s1 ++ [p]), Returns p)
      end
  end.

(** [save_tennis_prediction], lines 141-168. *)
Definition save_tennis_prediction (b : backend)
    (db_user db_insert : db_outcome) (s : store) (tid : Z)
    (player1_ player2_ tournament_ surface_ predicted_winner_ : string)
    (player1_prob_ player2_prob_ confidence_ : Q)
    (seen created now pid : Z)
  : store * answer TennisPrediction :=
  match get_or_create_user b db_user s tid None None None seen created with
  | (s1, Raises) => (s1, Raises)
  | (s1, Returns u) =>
      match db_insert with
      | Fails => (s1, Raises)
      | Executes =>
          let p := {| tennis_id := pid;
                      tennis_user_id := id u;
                      player1 := player1_;
                      player2 := player2_;
                      tournament := tournament_;
                      surface := surface_;
                      tennis_predicted_winner := predicted_winner_;
                      tennis_actual_winner := None;
                      player1_prob := player1_prob_;
                      player2_prob := player2_prob_;
                      tennis_confidence := confidence_;
                      tennis_is_correct := None;
                      tennis_created_at := now |} in
          (set_tennis_predictions s1 (tennis_predictions s1 ++ [p]),
           Returns p)
      end
  end.

(** [save_basketball_prediction], lines 214-240. *)
Definition save_basketball_prediction (b : backend)
    (db_user db_insert : db_outcome) (s : store) (tid : Z)
    (home_team_ away_team_ league_ predicted_winner_ : string)
    (home_prob_ away_prob_ confidence_ : Q)
    (seen created now pid : Z)
  : store * answer BasketballPrediction :=
  match get_or_create_user b db_user s tid None None None seen created with
  | (s1, Raises) => (s1, Raises)
  | (s1, Returns u) =>
      match db_insert with
      | Fails => (s1, Raises)
      | Executes =>
          let p := {| basketball_id := pid;
                      basketball_user_id := id u;
                      basketball_home_team := home_team_;
                      basketball_away_team := away_team_;
                      basketball_league := league_;
                      basketball_predicted_winner := predicted_winner_;
                      basketball_actual_winner := None;
                      basketball_home_prob := home_prob_;
                      basketball_away_prob := away_prob_;
                      basketball_confidence := confidence_;
                      basketball_is_correct := None;
                      basketball_created_at := now |} in
          (set_basketball_predictions s1 (basketball_predictions s1 ++ [p]),
           Returns p)
      end
  end.

(** The three queries and the accuracy computation over one
    prediction table, the accuracy in double precision. *)
Definition query_stats {A : Type} `{PredictionRow A} (table : list A)
    (u : User) : result (stats A) :=
  let mine := filter (fun r => (row_user_id r =? id u)%Z) table in
  let total := Z.of_nat (List.length mine) in
  let correct :=
    Z.of_nat (List.length (filter (fun r => is_true (row_is_correct r)) mine)) in
  let recent := firstn 5 (order_by_desc_created_at mine) in
  acc <- (if (0 <? total)%Z then
            x <- Double.div (inject_Z correct) (inject_Z total) ;;
            Ok (Double.mul x 100)
          else Ok 0) ;;
  Ok {| total_predictions := total;
        correct_predictions := correct;
        accuracy := Double.round1 acc;
        recent_predictions := recent;
        user := Some u |}.

(** The [try] of the three statistics methods after the user lookup:
    [db_query] is what the backend does with the three queries; any
    exception ends in the dictionary of the [except] branch. *)
Definition stats_of {A : Type} `{PredictionRow A} (db_query : db_outcome)
    (table : list A) (looked_up : answer User) : stats A :=
  match looked_up with
  | Raises => no_stats
  | Returns u =>
      match db_query with
      | Fails => no_stats
      | Executes => stats_or_default (query_stats table u)
      end
  end.

(** [get_user_stats], lines 80-119. *)
Definition get_user_stats (b : backend) (db_user db_query : db_outcome)
    (s : store) (tid : Z) (seen created : Z) : store * stats Prediction :=
  let '(s1, r) :=
    get_or_create_user b db_user s tid None None None seen created in
  (s1, stats_of db_query (predictions s1) r).

(** [get_tennis_stats], lines 170-210. *)
Definition get_tennis_stats (b : backend) (db_user db_query : db_outcome)
    (s : store) (tid : Z) (seen created : Z)
  : store * stats TennisPrediction :=
  let '(s1, r) :=
    get_or_create_user b db_user s tid None None None seen created in
  (s1, stats_of db_query (tennis_predictions s1) r).

(** [get_basketball_stats], lines 242-282. *)
Definition get_basketball_stats (b : backend)
    (db_user db_query : db_outcome) (s : store) (tid : Z) (seen created : Z)
  : store * stats BasketballPrediction :=
  let '(s1, r) :=
    get_or_create_user b db_user s tid None None None seen created in
  (s1, stats_of db_query (basketball_predictions s1) r).

End DatabaseManager.

(** ** The documented football filter

    A fixture as the fixtures endpoint sends it, and the league ids the
    football manager is documented to keep, with the names it shows. *)

Definition api_fixture (league_id : Z) (home_name away_name : json)
    (date : string) : json :=
  JDict [ ("fixture", JDict [("date", JStr date)]);
          ("league", JDict [("id", JNum (inject_Z league_id))]);
          ("teams", JDict [ ("home", JDict [("name", home_name)]);
                            ("away", JDict [("name", away_name)]) ]) ]%string.

Definition supported_league (league_id : Z) : option string :=
  if (league_id =? 135)%Z then Some "Serie A"%string
  else if (league_id =? 39)%Z then Some "Premier League"%string
  else if (league_id =? 140)%Z then Some "La Liga"%string
  else if (league_id =? 78)%Z then Some "Bundesliga"%string
  else None.

(** One row of a fixtures answer: league id, the two names, the date
    string and the instant it reads as. *)
Record fixture_row : Type := {
  row_league : Z;
  row_home : json;
  row_away : json;
  row_date : string;
  row_kickoff : datetime
}.

Definition fixture_of (r : fixture_row) : json :=
  api_fixture (row_league r) (row_home r) (row_away r) (row_date r).

(** The entry the row is documented to give: none for a league that is
    not supported. *)
Definition entry_of (r : fixture_row) : list Football.match_t :=
  match supported_league (row_league r) with
  | Some name =>
      [ {| Football.match_home := row_home r;
           Football.match_away := row_away r;
           Football.match_league := name;
           Football.match_time := strftime_HM (row_kickoff r) |} ]
  | None => []
  end.

(** * Properties *)

(** ** Arithmetic *)

(** Divisions by the literals of the source, turned into products so
    that linear arithmetic applies. *)
Ltac qconst :=
  change (20 / 3) with (20 # 3) in *;
  repeat match goal with
    | |- context [?a / 3] => change (a / 3) with (a * (1 # 3))
    | H : context [?a / 3] |- _ => change (a / 3) with (a * (1 # 3)) in H
    | |- context [?a / 100] => change (a / 100) with (a * (1 # 100))
    | H : context [?a / 100] |- _ => change (a / 100) with (a * (1 # 100)) in H
    end.

Lemma Qgt_bool_true (a b : Q) : Qgt_bool a b = true <-> b < a.
Proof.
  unfold Qgt_bool. rewrite negb_true_iff. split; intro H.
  - apply Qnot_le_lt. intro Hle. apply Qle_bool_iff in Hle. congruence.
  - destruct (Qle_bool a b) eqn:E; [|reflexivity].
    apply Qle_bool_iff in E. exfalso. apply (Qlt_not_le _ _ H E).
Qed.

Lemma Qgt_bool_false (a b : Q) : Qgt_bool a b = false <-> a <= b.
Proof.
  unfold Qgt_bool. rewrite negb_false_iff. apply Qle_bool_iff.
Qed.

Lemma py_max_l (a b : Q) : b <= a -> py_max a b = a.
Proof.
  intro H. unfold py_max. apply Qgt_bool_false in H. now rewrite H.
Qed.

Lemma py_max_r (a b : Q) : a < b -> py_max a b = b.
Proof.
  intro H. unfold py_max. apply Qgt_bool_true in H. now rewrite H.
Qed.

Lemma py_max_cases (a b : Q) :
  (b <= a /\ py_max a b = a) \/ (a < b /\ py_max a b = b).
Proof.
  destruct (Qlt_le_dec a b) as [H|H].
  - right. split; [exact H | now apply py_max_r].
  - left. split; [exact H | now apply py_max_l].
Qed.


Lemma pydiv_ok (a b : Q) : ~ b == 0 -> pydiv a b = Ok (a / b).
Proof.
  intro H. unfold pydiv. destruct (Qeq_bool b 0) eqn:E; [|reflexivity].
  apply Qeq_bool_iff in E. contradiction.
Qed.


(** ** Rounding *)

#[export] Instance round_half_even_comp : Proper (Qeq ==> eq) round_half_even.
Proof.
  intros x y Hxy. unfold round_half_even.
  rewrite (Qfloor_comp _ _ Hxy).
  assert (E : x - inject_Z (Qfloor y) == y - inject_Z (Qfloor y))
    by (rewrite Hxy; reflexivity).
  now rewrite (Qcompare_comp _ _ E (1 # 2) (1 # 2) (Qeq_refl _)).
Qed.

Lemma round_half_even_near (q : Q) :
  q - (1 # 2) <= inject_Z (round_half_even q)
  /\ inject_Z (round_half_even q) <= q + (1 # 2).
Proof.
  unfold round_half_even.
  pose proof (Qfloor_le q) as Hlo.
  pose proof (Qlt_floor q) as Hhi.
  rewrite inject_Z_plus in Hhi.
  change (inject_Z 1) with 1 in Hhi.
  destruct (Qcompare_spec (q - inject_Z (Qfloor q)) (1 # 2)) as [E|E|E].
  - destruct (Z.even (Qfloor q)).
    + split; lra.
    + rewrite inject_Z_plus. change (inject_Z 1) with 1. split; lra.
  - split; lra.
  - rewrite inject_Z_plus. change (inject_Z 1) with 1. split; lra.
Qed.

#[export] Instance round_to_comp (scale : positive) :
  Proper (Qeq ==> eq) (round_to scale).
Proof.
  intros x y Hxy. unfold round_to.
  assert (E : x * (Z.pos scale # 1) == y * (Z.pos scale # 1))
    by (rewrite Hxy; reflexivity).
  now rewrite (round_half_even_comp _ _ E).
Qed.

Lemma round1_near (x : Q) :
  x - (1 # 20) <= round1 x /\ round1 x <= x + (1 # 20).
Proof.
  unfold round1, round_to.
  destruct (round_half_even_near (x * (10 # 1))) as [Hlo Hhi].
  set (r := round_half_even (x * (10 # 1))) in *.
  assert (E : r # 10 == inject_Z r / 10) by apply Qmake_Qdiv.
  rewrite E. split.
  - apply Qle_shift_div_l; [reflexivity | lra].
  - apply Qle_shift_div_r; [reflexivity | lra].
Qed.

Lemma round1_eq (x y : Q) : x == y -> round1 x = round1 y.
Proof. intro H. unfold round1. now rewrite H. Qed.

(** Integer facts read off rational ones. *)
Ltac q2z :=
  rewrite ?Zlt_Qlt, ?Zle_Qle, ?inject_Z_plus, ?inject_Z_opp;
  change (inject_Z 1) with 1; change (inject_Z 2) with 2; lra.

Lemma round_half_even_sound (q : Q) : nearest_even q (round_half_even q).
Proof.
  unfold nearest_even, round_half_even.
  pose proof (Qfloor_le q) as Hlo.
  pose proof (Qlt_floor q) as Hhi.
  rewrite inject_Z_plus in Hhi. change (inject_Z 1) with 1 in Hhi.
  destruct (Qcompare_spec (q - inject_Z (Qfloor q)) (1 # 2)) as [E|E|E].
  - destruct (Z.even (Qfloor q)) eqn:Ev.
    + right. split; [left; lra | exact Ev].
    + right. split.
      * right. rewrite inject_Z_plus. change (inject_Z 1) with 1. lra.
      * rewrite Z.even_add, Ev. reflexivity.
  - left. split; lra.
  - left. rewrite inject_Z_plus. change (inject_Z 1) with 1. split; lra.
Qed.

Lemma round_half_even_unique (q : Q) (r : Z) :
  nearest_even q r -> round_half_even q = r.
Proof.
  unfold nearest_even, round_half_even.
  pose proof (Qfloor_le q) as Hlo.
  pose proof (Qlt_floor q) as Hhi.
  rewrite inject_Z_plus in Hhi. change (inject_Z 1) with 1 in Hhi.
  set (f := Qfloor q) in *. clearbody f.
  intros [[H1 H2]|[[H|H] Ev]];
    destruct (Qcompare_spec (q - inject_Z f) (1 # 2)) as [E|E|E].
  - exfalso. assert (f < r)%Z by q2z. assert (r < f + 1)%Z by q2z. lia.
  - assert (f < r + 1)%Z by q2z. assert (r < f + 1)%Z by q2z. lia.
  - assert (f < r)%Z by q2z. assert (r < f + 2)%Z by q2z. lia.
  - assert (r = f) as -> by (apply inject_Z_injective; lra). now rewrite Ev.
  - exfalso. assert (f < r + 1)%Z by q2z. assert (r < f)%Z by q2z. lia.
  - exfalso. assert (f < r)%Z by q2z. assert (r < f + 1)%Z by q2z. lia.
  - assert (r = f + 1)%Z as ->
      by (apply inject_Z_injective; rewrite inject_Z_plus;
          change (inject_Z 1) with 1; lra).
    rewrite Z.even_add in Ev. destruct (Z.even f); [discriminate Ev|reflexivity].
  - exfalso. assert (f < r)%Z by q2z. assert (r < f + 1)%Z by q2z. lia.
  - exfalso. assert (f + 1 < r)%Z by q2z. assert (r < f + 2)%Z by q2z. lia.
Qed.

Lemma round_half_even_reflect (c : Z) (q : Q) :
  Z.even c = true ->
  round_half_even (inject_Z c - q) = (c - round_half_even q)%Z.
Proof.
  intro Hc. apply round_half_even_unique.
  destruct (round_half_even_sound q) as [[H1 H2]|[[H|H] Ev]];
    unfold nearest_even; unfold Z.sub; rewrite inject_Z_plus, inject_Z_opp.
  - left. split; lra.
  - right. split; [right; lra|].
    rewrite Z.even_add, Z.even_opp, Hc, Ev. reflexivity.
  - right. split; [left; lra|].
    rewrite Z.even_add, Z.even_opp, Hc, Ev. reflexivity.
Qed.

Lemma round1_reflect (x y : Q) : x + y == 100 -> round1 x + round1 y == 100.
Proof.
  intro H. unfold round1, round_to.
  assert (E : y * (10 # 1) == inject_Z 1000 - x * (10 # 1)).
  { change (inject_Z 1000) with 1000. lra. }
  rewrite (round_half_even_comp _ _ E), round_half_even_reflect by reflexivity.
  set (r := round_half_even (x * (10 # 1))).
  rewrite !Qmake_Qdiv. unfold Z.sub. rewrite inject_Z_plus, inject_Z_opp.
  change (inject_Z 1000) with 1000. change (inject_Z (Z.pos 10)) with 10.
  field.
Qed.

(** ** Raw scores *)

Lemma name_score_range (name : string) :
  (0 <= name_score name < 100)%Z.
Proof. unfold name_score. apply Z.mod_pos_bound. lia. Qed.

(** ** Football estimator *)

Section FootballScores.

Variables hs as_ : Z.
Hypothesis Hhs : (0 <= hs)%Z.
Hypothesis Has : (0 <= as_)%Z.
Hypothesis Htotal : (0 < hs + as_)%Z.

Let x : Q := inject_Z hs / inject_Z (hs + as_).
Let y : Q := inject_Z as_ / inject_Z (hs + as_).

Lemma total_nonzero : ~ inject_Z (hs + as_) == 0.
Proof.
  intro E. unfold Qeq in E. simpl in E. lia.
Qed.

Lemma shares_sum : x + y == 1.
Proof.
  subst x y. pose proof total_nonzero as Hnz.
  rewrite inject_Z_plus in *. field. exact Hnz.
Qed.

Lemma share_home_nonneg : 0 <= x.
Proof.
  subst x. apply Qle_shift_div_l.
  - change 0 with (inject_Z 0). rewrite <- Zlt_Qlt. lia.
  - rewrite Qmult_0_l. change 0 with (inject_Z 0). rewrite <- Zle_Qle. lia.
Qed.

Lemma share_away_nonneg : 0 <= y.
Proof.
  subst y. apply Qle_shift_div_l.
  - change 0 with (inject_Z 0). rewrite <- Zlt_Qlt. lia.
  - rewrite Qmult_0_l. change 0 with (inject_Z 0). rewrite <- Zle_Qle. lia.
Qed.

(** The share of the home side is at least [c / d] exactly when
    [c * total <= d * hs]. *)
Lemma share_home_ge (c : Z) (d : positive) :
  inject_Z c / inject_Z (Z.pos d) <= x <-> (c * (hs + as_) <= Z.pos d * hs)%Z.
Proof.
  subst x.
  assert (E : inject_Z hs / inject_Z (hs + as_) == hs # Z.to_pos (hs + as_))
    by (rewrite Qmake_Qdiv, Z2Pos.id by lia; reflexivity).
  rewrite E, <- Qmake_Qdiv. unfold Qle. cbn [Qnum Qden].
  rewrite Z2Pos.id by lia. split; lia.
Qed.

End FootballScores.

(** What lines 96-107 compute, in closed form: the draw probability is
    the floor 20, each side gets its share of 100 less 20/3, and the
    label is decided between the two sides alone. *)
Lemma football_adjusted_scores (hs as_ : Z) :
  (0 <= hs)%Z -> (0 <= as_)%Z -> (0 < hs + as_)%Z ->
  let x := inject_Z hs / inject_Z (hs + as_) in
  let y := inject_Z as_ / inject_Z (hs + as_) in
  let l_draw := py_max 20 (100 - x * 100 - y * 100) in
  l_draw = 20
  /\ (Qgt_bool (x * 100 - 20 / 3) (y * 100 - 20 / 3) = true ->
      Qgt_bool (x * 100 - 20 / 3) 20 = true)
  /\ (Qgt_bool (x * 100 - 20 / 3) (y * 100 - 20 / 3) = false ->
      Qgt_bool 20 (y * 100 - 20 / 3) = false).
Proof.
  intros Hh Ha Ht x y l_draw.
  pose proof (shares_sum hs as_ Ht) as Hsum. cbv zeta in Hsum.
  fold x y in Hsum.
  split; [|split].
  - subst l_draw. apply py_max_l. lra.
  - intro H. apply Qgt_bool_true in H. apply Qgt_bool_true. qconst. lra.
  - intro H. apply Qgt_bool_false in H. apply Qgt_bool_false. qconst. lra.
Qed.

Lemma football_estimate_spec (hs as_ : Z) :
  (0 <= hs)%Z -> (0 <= as_)%Z -> (0 < hs + as_)%Z ->
  exists l,
    Football.estimate hs as_ = Ok l
    /\ Football.home_score l = hs
    /\ Football.away_score l = as_
    /\ Football.home_prob l
       = inject_Z hs / inject_Z (hs + as_) * 100 - 20 / 3
    /\ Football.draw_prob l = 20
    /\ Football.away_prob l
       = inject_Z as_ / inject_Z (hs + as_) * 100 - 20 / 3
    /\ Football.prediction l
       = (if Qgt_bool (Football.home_prob l) (Football.away_prob l)
          then Football.Home1 else Football.Away2)
    /\ Football.confidence l
       = py_max3 (Football.home_prob l) 20 (Football.away_prob l).
Proof.
  intros H1 H2 H3. unfold Football.estimate.
  rewrite !pydiv_ok by (apply total_nonzero; exact H3).
  cbn [bind].
  destruct (football_adjusted_scores hs as_ H1 H2 H3) as (Hd & Hgt & Hle).
  cbv zeta in Hd, Hgt, Hle. rewrite Hd.
  eexists. split; [reflexivity|]. cbn.
  repeat (split; [reflexivity|]).
  split; [|reflexivity].
  destruct (Qgt_bool (inject_Z hs / inject_Z (hs + as_) * 100 - 20 / 3)
              (inject_Z as_ / inject_Z (hs + as_) * 100 - 20 / 3)) eqn:E.
  - now rewrite (Hgt eq_refl).
  - rewrite (Hle eq_refl). now rewrite andb_false_r.
Qed.

Lemma football_substitute_spec (hs0 as0 : Z) :
  (0 <= hs0)%Z -> (0 <= as0)%Z ->
  (0 <= fst (Football.substitute hs0 as0))%Z
  /\ (0 <= snd (Football.substitute hs0 as0))%Z
  /\ (0 < fst (Football.substitute hs0 as0)
          + snd (Football.substitute hs0 as0))%Z.
Proof.
  intros H1 H2. unfold Football.substitute.
  destruct (hs0 + as0 =? 0)%Z eqn:E; cbn [fst snd].
  - lia.
  - apply Z.eqb_neq in E. lia.
Qed.

Lemma football_scores_spec (hs0 as0 : Z) :
  (0 <= hs0)%Z -> (0 <= as0)%Z ->
  exists l,
    Football.analyze_scores hs0 as0 = Ok l
    /\ (Football.home_score l, Football.away_score l)
       = Football.substitute hs0 as0
    /\ (0 <= Football.home_score l)%Z
    /\ (0 <= Football.away_score l)%Z
    /\ (0 < Football.home_score l + Football.away_score l)%Z
    /\ Football.home_prob l
       = inject_Z (Football.home_score l)
         / inject_Z (Football.home_score l + Football.away_score l) * 100
         - 20 / 3
    /\ Football.draw_prob l = 20
    /\ Football.away_prob l
       = inject_Z (Football.away_score l)
         / inject_Z (Football.home_score l + Football.away_score l) * 100
         - 20 / 3
    /\ Football.prediction l
       = (if Qgt_bool (Football.home_prob l) (Football.away_prob l)
          then Football.Home1 else Football.Away2)
    /\ Football.confidence l
       = py_max3 (Football.home_prob l) 20 (Football.away_prob l).
Proof.
  intros H1 H2. unfold Football.analyze_scores.
  destruct (football_substitute_spec hs0 as0 H1 H2) as (Ha & Hb & Hc).
  destruct (Football.substitute hs0 as0) as [hs as_]. cbn [fst snd] in *.
  destruct (football_estimate_spec hs as_ Ha Hb Hc)
    as (l & El & Ehs & Eas & Ehp & Edp & Eap & Epr & Ecf).
  exists l. rewrite Ehs, Eas. repeat split; assumption.
Qed.

(** The locals of the football estimator for two names, with the two
    shares [x] and [y] of the score total made explicit. *)
Lemma football_locals_spec (home_name away_name : string) :
  exists l x y,
    Football.analyze_locals home_name away_name = Ok l
    /\ (Football.home_score l, Football.away_score l)
       = Football.substitute (name_score home_name) (name_score away_name)
    /\ (0 <= Football.home_score l)%Z
    /\ (0 <= Football.away_score l)%Z
    /\ (0 < Football.home_score l + Football.away_score l)%Z
    /\ x = inject_Z (Football.home_score l)
           / inject_Z (Football.home_score l + Football.away_score l)
    /\ y = inject_Z (Football.away_score l)
           / inject_Z (Football.home_score l + Football.away_score l)
    /\ x + y == 1 /\ 0 <= x /\ 0 <= y
    /\ Football.home_prob l = x * 100 - 20 / 3
    /\ Football.draw_prob l = 20
    /\ Football.away_prob l = y * 100 - 20 / 3
    /\ Football.prediction l
       = (if Qgt_bool (Football.home_prob l) (Football.away_prob l)
          then Football.Home1 else Football.Away2)
    /\ Football.confidence l
       = py_max3 (Football.home_prob l) 20 (Football.away_prob l).
Proof.
  unfold Football.analyze_locals.
  destruct (name_score_range home_name) as [Hh _].
  destruct (name_score_range away_name) as [Ha _].
  destruct (football_scores_spec _ _ Hh Ha)
    as (l & El & Esc & H1 & H2 & H3 & Ehp & Edp & Eap & Epr & Ecf).
  exists l. eexists. eexists.
  split; [exact El|]. split; [exact Esc|].
  split; [exact H1|]. split; [exact H2|]. split; [exact H3|].
  split; [reflexivity|]. split; [reflexivity|].
  split; [apply shares_sum; exact H3|].
  split; [apply share_home_nonneg; assumption|].
  split; [apply share_away_nonneg; assumption|].
  repeat split; assumption.
Qed.

(** The probability the label selects is positive, so the odds of the
    value bet are defined. *)
Lemma football_selected_positive (l : Football.locals) (x y : Q) :
  x + y == 1 ->
  Football.home_prob l = x * 100 - 20 / 3 ->
  Football.away_prob l = y * 100 - 20 / 3 ->
  Football.prediction l
  = (if Qgt_bool (Football.home_prob l) (Football.away_prob l)
     then Football.Home1 else Football.Away2) ->
  130 # 3 <= Football.selected_prob l.
Proof.
  intros Hsum Ehp Eap Epr. unfold Football.selected_prob. rewrite Epr.
  destruct (Qgt_bool (Football.home_prob l) (Football.away_prob l)) eqn:E.
  - apply Qgt_bool_true in E. rewrite Ehp, Eap in *. qconst. lra.
  - apply Qgt_bool_false in E. rewrite Ehp, Eap in *. qconst. lra.
Qed.

Lemma football_report_spec (l : Football.locals) (u : Q) :
  0 < Football.selected_prob l ->
  exists r,
    Football.report l u = Ok r
    /\ Football.probs r
       = {| Football.home := round1 (Football.home_prob l);
            Football.draw := round1 (Football.draw_prob l);
            Football.away := round1 (Football.away_prob l) |}
    /\ Football.predicted r = Football.label (Football.prediction l)
    /\ Football.reported_confidence r = round1 (Football.confidence l).
Proof.
  intro Hpos. unfold Football.report.
  rewrite pydiv_ok by (qconst; lra).
  cbn [bind]. eexists. split; [reflexivity|]. cbn. repeat split.
Qed.

Lemma football_match_spec (home_name away_name : string) (u : Q) :
  exists l r,
    Football.analyze_locals home_name away_name = Ok l
    /\ Football.analyze_match home_name away_name u = Ok r
    /\ Football.probs r
       = {| Football.home := round1 (Football.home_prob l);
            Football.draw := round1 (Football.draw_prob l);
            Football.away := round1 (Football.away_prob l) |}
    /\ Football.predicted r = Football.label (Football.prediction l)
    /\ Football.reported_confidence r = round1 (Football.confidence l).
Proof.
  destruct (football_locals_spec home_name away_name)
    as (l & x & y & El & _ & _ & _ & _ & _ & _ & Hsum & _ & _
        & Ehp & _ & Eap & Epr & _).
  pose proof (football_selected_positive l x y Hsum Ehp Eap Epr) as Hsel.
  destruct (football_report_spec l u) as (r & Er & Hr); [lra|].
  exists l, r. split; [exact El|]. split; [|exact Hr].
  unfold Football.analyze_match. rewrite El. exact Er.
Qed.

(** ** The football estimator against the documented formula *)

Lemma py_max_Qmax (a b : Q) : py_max a b == Qmax a b.
Proof.
  destruct (py_max_cases a b) as [[H ->]|[H ->]].
  - symmetry. apply Q.max_l. exact H.
  - symmetry. apply Q.max_r. lra.
Qed.

#[export] Instance Qgt_bool_comp : Proper (Qeq ==> Qeq ==> eq) Qgt_bool.
Proof.
  intros a a' Ha b b' Hb. unfold Qgt_bool.
  now rewrite (Qleb_comp _ _ Ha _ _ Hb).
Qed.

Lemma formula_scores (a b : string) :
  Formula.scores a b = Football.substitute (name_score a) (name_score b).
Proof.
  unfold Formula.scores, Football.substitute, Formula.raw.
  fold (name_score a). fold (name_score b).
  pose proof (name_score_range a). pose proof (name_score_range b).
  destruct (name_score a =? 0)%Z eqn:Ea; destruct (name_score b =? 0)%Z eqn:Eb;
    destruct (name_score a + name_score b =? 0)%Z eqn:Es;
    cbn [andb]; try reflexivity;
    rewrite ?Z.eqb_eq, ?Z.eqb_neq in *; lia.
Qed.

(** The values of the formula are the locals of the code, up to
    equality of rationals. *)
Lemma formula_locals (a b : string) (l : Football.locals) :
  Football.analyze_locals a b = Ok l ->
  Formula.probA a b == Football.home_prob l
  /\ Formula.drawProb a b == Football.draw_prob l
  /\ Formula.probB a b == Football.away_prob l
  /\ Formula.outcome_label a b = Football.label (Football.prediction l)
  /\ Formula.confidence a b == Football.confidence l.
Proof.
  intro El.
  destruct (football_locals_spec a b)
    as (l' & x & y & El' & Esc & _ & _ & _ & Ex & Ey & Hsum & Hx & Hy
        & Ehp & Edp & Eap & Epr & Ecf).
  rewrite El in El'. injection El' as <-.
  assert (EnA : Formula.normA a b = x * 100).
  { unfold Formula.normA. rewrite formula_scores, <- Esc, Ex. reflexivity. }
  assert (EnB : Formula.normB a b = y * 100).
  { unfold Formula.normB. rewrite formula_scores, <- Esc, Ey. reflexivity. }
  assert (Ed : Formula.drawProb a b == 20).
  { unfold Formula.drawProb. rewrite EnA, EnB. apply Q.max_l. lra. }
  assert (EA : Formula.probA a b == Football.home_prob l).
  { unfold Formula.probA. rewrite Ed, EnA, Ehp. reflexivity. }
  assert (EB : Formula.probB a b == Football.away_prob l).
  { unfold Formula.probB. rewrite Ed, EnB, Eap. reflexivity. }
  split; [exact EA|]. split; [now rewrite Edp|]. split; [exact EB|]. split.
  - unfold Formula.outcome_label. rewrite EA, EB, Ed, Epr.
    destruct (Qgt_bool (Football.home_prob l) (Football.away_prob l)) eqn:E.
    + assert (G : Qgt_bool (Football.home_prob l) 20 = true).
      { apply Qgt_bool_true. apply Qgt_bool_true in E.
        rewrite Ehp, Eap in *. qconst. lra. }
      now rewrite G.
    + assert (G : Qgt_bool 20 (Football.away_prob l) = false).
      { apply Qgt_bool_false. apply Qgt_bool_false in E.
        rewrite Ehp, Eap in *. qconst. lra. }
      cbn [andb]. rewrite EB, Ed, G. now rewrite andb_false_r.
  - unfold Formula.confidence. rewrite Ecf. unfold py_max3.
    rewrite EA, EB, Ed, !py_max_Qmax. reflexivity.
Qed.



(** ** Sign and sum of the football probabilities *)



(** ** The draw floor of the football estimator *)

(** C10 (as stated, refuted): on ("Inter", "Milan") the three returned
    probabilities are 54.7, 20.0 and 32.0; their sum is 106.7, not
    320/3. *)
Lemma football_returned_sum_not_320_3 :
  ~ (exists r,
       Football.analyze_match "Inter" "Milan" 5 = Ok r
       /\ Football.home (Football.probs r) + Football.draw (Football.probs r)
          + Football.away (Football.probs r) == 320 # 3).
Proof.
  intros (r & Er & Es).
  destruct (football_match_spec "Inter" "Milan" 5)
    as (l & r' & El & Er' & Ep & _).
  rewrite Er in Er'. injection Er' as <-.
  assert (E : Football.analyze_locals "Inter" "Milan"
              = Ok {| Football.home_score := 46; Football.away_score := 29;
                      Football.home_prob := 46 / 75 * 100 - 20 / 3;
                      Football.draw_prob := 20;
                      Football.away_prob := 29 / 75 * 100 - 20 / 3;
                      Football.prediction := Football.Home1;
                      Football.confidence := 46 / 75 * 100 - 20 / 3 |})
    by (vm_compute; reflexivity).
  rewrite E in El. injection El as <-.
  rewrite Ep in Es. vm_compute in Es. discriminate Es.
Qed.

(** C10 (amended): for every pair of names the two normalized
    probabilities add up to exactly 100 before the adjustment, so the
    draw probability is exactly 20 (also as returned); the larger
    adjusted side probability is at least 50 - 20/3 > 20, so the label
    is never "X"; the three probabilities add up to 320/3 before the
    return statement rounds each of them to one decimal place, and the
    three returned values add up to within 0.1 of 320/3. *)
Theorem football_draw_floor_never_X :
  forall (home_name away_name : string) (u : Q),
  exists l r,
    Football.analyze_locals home_name away_name = Ok l
    /\ Football.analyze_match home_name away_name u = Ok r
    /\ (Football.home_prob l + Football.draw_prob l / 3)
       + (Football.away_prob l + Football.draw_prob l / 3) == 100
    /\ Football.draw_prob l == 20
    /\ Football.draw (Football.probs r) == 20
    /\ (50 - (20 # 3) <= Football.home_prob l
        \/ 50 - (20 # 3) <= Football.away_prob l)
    /\ Football.prediction l <> Football.DrawX
    /\ Football.predicted r <> "X"%string
    /\ Football.home_prob l + Football.draw_prob l + Football.away_prob l
       == 320 # 3
    /\ (320 # 3) - (1 # 10)
       <= Football.home (Football.probs r) + Football.draw (Football.probs r)
          + Football.away (Football.probs r)
    /\ Football.home (Football.probs r) + Football.draw (Football.probs r)
       + Football.away (Football.probs r)
       <= (320 # 3) + (1 # 10).
Proof.
  intros home_name away_name u.
  destruct (football_match_spec home_name away_name u)
    as (l & r & El & Er & Ep & Elab & _).
  destruct (football_locals_spec home_name away_name)
    as (l' & x & y & El' & _ & _ & _ & _ & _ & _ & Hsum & Hx & Hy
        & Ehp & Edp & Eap & Epr & _).
  rewrite El in El'. injection El' as <-.
  exists l, r. split; [exact El|]. split; [exact Er|].
  assert (Hpred : Football.prediction l <> Football.DrawX).
  { rewrite Epr. destruct (Qgt_bool _ _); discriminate. }
  assert (Hd : Football.draw (Football.probs r) = 200 # 10).
  { rewrite Ep. cbn. rewrite Edp. reflexivity. }
  pose proof (round1_near (Football.home_prob l)) as [Hh1 Hh2].
  pose proof (round1_near (Football.away_prob l)) as [Ha1 Ha2].
  assert (Eh : Football.home (Football.probs r) = round1 (Football.home_prob l))
    by (rewrite Ep; reflexivity).
  assert (Ea : Football.away (Football.probs r) = round1 (Football.away_prob l))
    by (rewrite Ep; reflexivity).
  rewrite Hd, Eh, Ea. rewrite Ehp, Edp, Eap in *. qconst.
  split; [lra|]. split; [reflexivity|]. split; [reflexivity|].
  split; [destruct (Qlt_le_dec x y); [right|left]; lra|].
  split; [exact Hpred|]. split.
  - rewrite Elab. destruct (Football.prediction l); cbn; congruence.
  - split; [lra|]. split; lra.
Qed.

(** ** Tennis estimator *)

Lemma tennis_substitute_spec (s1 s2 : Z) :
  (0 <= s1)%Z -> (0 <= s2)%Z ->
  (0 <= fst (Tennis.substitute s1 s2))%Z
  /\ (0 <= snd (Tennis.substitute s1 s2))%Z
  /\ (0 < fst (Tennis.substitute s1 s2) + snd (Tennis.substitute s1 s2))%Z.
Proof.
  intros H1 H2. unfold Tennis.substitute.
  destruct (s1 + s2 =? 0)%Z eqn:E; cbn [fst snd].
  - lia.
  - apply Z.eqb_neq in E. lia.
Qed.

(** Lines 112-128 succeed whenever the score total is positive, and the
    renormalized pair adds up to 100 whatever the perturbation. *)
Lemma tennis_estimate_spec (player1 player2 : string) (s1 s2 : Z) (adj : Q) :
  (0 < s1 + s2)%Z ->
  exists l,
    Tennis.estimate player1 player2 s1 s2 adj = Ok l
    /\ Tennis.p1_score l = s1
    /\ Tennis.p2_score l = s2
    /\ Tennis.player1_prob l
       == inject_Z s1 / inject_Z (s1 + s2) * 100 + adj
    /\ Tennis.player2_prob l
       == inject_Z s2 / inject_Z (s1 + s2) * 100 - adj
    /\ Tennis.predicted_winner l
       = (if Qgt_bool (Tennis.player1_prob l) (Tennis.player2_prob l)
          then player1 else player2)
    /\ Tennis.confidence l
       = py_max (Tennis.player1_prob l) (Tennis.player2_prob l).
Proof.
  intro Ht. unfold Tennis.estimate. cbv zeta.
  rewrite !(pydiv_ok _ (inject_Z (s1 + s2))) by (apply total_nonzero; exact Ht).
  cbn [bind].
  pose proof (shares_sum s1 s2 Ht) as Hsum. cbv zeta in Hsum.
  set (x := inject_Z s1 / inject_Z (s1 + s2)) in *.
  set (y := inject_Z s2 / inject_Z (s1 + s2)) in *.
  assert (Htp : x * 100 + adj + (y * 100 - adj) == 100) by lra.
  rewrite !pydiv_ok by (rewrite Htp; discriminate).
  cbn [bind]. eexists. split; [reflexivity|]. cbn.
  split; [reflexivity|]. split; [reflexivity|].
  split; [rewrite Htp; field|]. split; [rewrite Htp; field|].
  split; reflexivity.
Qed.

Lemma tennis_match_spec (player1 player2 : string) (r : Tennis.draws) :
  exists l res,
    Tennis.analyze_locals player1 player2 (Tennis.adjustment r) = Ok l
    /\ Tennis.analyze_match player1 player2 r = Ok res
    /\ res = Tennis.report player1 player2 l r
    /\ (0 < Tennis.p1_score l + Tennis.p2_score l)%Z
    /\ Tennis.player1_prob l + Tennis.player2_prob l == 100.
Proof.
  unfold Tennis.analyze_match, Tennis.analyze_locals, Tennis.analyze_scores.
  destruct (name_score_range player1) as [H1 _].
  destruct (name_score_range player2) as [H2 _].
  destruct (tennis_substitute_spec _ _ H1 H2) as (_ & _ & Ht).
  destruct (Tennis.substitute (name_score player1) (name_score player2))
    as [s1 s2].
  cbn [fst snd] in Ht.
  destruct (tennis_estimate_spec player1 player2 s1 s2 (Tennis.adjustment r) Ht)
    as (l & El & E1 & E2 & Ep1 & Ep2 & _).
  exists l. eexists. rewrite El. cbn [bind].
  split; [reflexivity|]. split; [reflexivity|]. split; [reflexivity|].
  split; [rewrite E1, E2; exact Ht|].
  rewrite Ep1, Ep2.
  pose proof (shares_sum s1 s2 Ht) as Hsum. cbv zeta in Hsum. lra.
Qed.

(** ** Basketball estimator *)

Lemma basketball_scores_spec (home_team away_team : string) (h0 a0 : Z) :
  (0 <= h0)%Z -> (0 <= a0)%Z ->
  exists l,
    Basketball.analyze_scores home_team away_team h0 a0 = Ok l
    /\ Basketball.h_score l = (h0 + 10)%Z
    /\ Basketball.a_score l = a0
    /\ Basketball.home_prob l
       = inject_Z (h0 + 10) / inject_Z (h0 + 10 + a0) * 100
    /\ Basketball.away_prob l
       = inject_Z a0 / inject_Z (h0 + 10 + a0) * 100
    /\ Basketball.predicted_winner l
       = (if Qgt_bool (Basketball.home_prob l) (Basketball.away_prob l)
          then home_team else away_team)
    /\ Basketball.confidence l
       = py_max (Basketball.home_prob l) (Basketball.away_prob l).
Proof.
  intros Hh Ha. unfold Basketball.analyze_scores. cbv zeta.
  rewrite !pydiv_ok by (apply total_nonzero; lia).
  cbn [bind]. eexists. split; [reflexivity|]. cbn. repeat split.
Qed.

Lemma basketball_match_spec (home_team away_team : string)
    (r : Basketball.draws) :
  exists l res,
    Basketball.analyze_locals home_team away_team = Ok l
    /\ Basketball.analyze_match home_team away_team r = Ok res
    /\ res = Basketball.report home_team away_team l r
    /\ Basketball.h_score l = (name_score home_team + 10)%Z
    /\ Basketball.a_score l = name_score away_team
    /\ Basketball.home_prob l
       = inject_Z (Basketball.h_score l)
         / inject_Z (Basketball.h_score l + Basketball.a_score l) * 100
    /\ Basketball.away_prob l
       = inject_Z (Basketball.a_score l)
         / inject_Z (Basketball.h_score l + Basketball.a_score l) * 100.
Proof.
  unfold Basketball.analyze_match, Basketball.analyze_locals.
  destruct (name_score_range home_team) as [H1 _].
  destruct (name_score_range away_team) as [H2 _].
  destruct (basketball_scores_spec home_team away_team _ _ H1 H2)
    as (l & El & Eh & Ea & Ehp & Eap & _).
  exists l. eexists. rewrite El. cbn [bind].
  split; [reflexivity|]. split; [reflexivity|]. split; [reflexivity|].
  rewrite Eh, Ea. repeat split; assumption.
Qed.

(** ** Renormalization of the tennis pair *)


(** ** Home bonus of the basketball estimator *)

(** C4: in the basketball estimator the home side's score before
    normalization is its raw score plus 10 (the away side keeps its raw
    score); for two equal names the home win probability is strictly
    above 50, before rounding and as returned; and the probability pair,
    the winner and the confidence do not depend on the random draws,
    which only reach the spread and the total-points fields. *)
Theorem basketball_home_bonus :
  (forall (home_team away_team : string) (r : Basketball.draws),
     exists l res,
       Basketball.analyze_locals home_team away_team = Ok l
       /\ Basketball.analyze_match home_team away_team r = Ok res
       /\ Basketball.h_score l = (name_score home_team + 10)%Z
       /\ Basketball.a_score l = name_score away_team
       /\ Basketball.home_prob l
          = inject_Z (Basketball.h_score l)
            / inject_Z (Basketball.h_score l + Basketball.a_score l) * 100
       /\ Basketball.total_points res = Basketball.total_points_draw r)
  /\ (forall (team : string) (r : Basketball.draws),
        exists l res,
          Basketball.analyze_locals team team = Ok l
          /\ Basketball.analyze_match team team r = Ok res
          /\ 50 < Basketball.home_prob l
          /\ 50 < Basketball.home (Basketball.probs res))
  /\ (forall (home_team away_team : string) (r r' : Basketball.draws),
        exists res res',
          Basketball.analyze_match home_team away_team r = Ok res
          /\ Basketball.analyze_match home_team away_team r' = Ok res'
          /\ Basketball.probs res = Basketball.probs res'
          /\ Basketball.winner res = Basketball.winner res'
          /\ Basketball.reported_confidence res
             = Basketball.reported_confidence res').
Proof.
  split; [|split].
  - intros home_team away_team r.
    destruct (basketball_match_spec home_team away_team r)
      as (l & res & El & Eres & -> & Eh & Ea & Ehp & _).
    exists l. eexists. split; [exact El|]. split; [exact Eres|].
    split; [exact Eh|]. split; [exact Ea|]. split; [exact Ehp|]. reflexivity.
  - intros team r.
    destruct (basketball_match_spec team team r)
      as (l & res & El & Eres & -> & Eh & Ea & Ehp & _).
    exists l. eexists. split; [exact El|]. split; [exact Eres|].
    destruct (name_score_range team) as [Hlo Hhi].
    assert (Ht : (0 < Basketball.h_score l + Basketball.a_score l)%Z) by lia.
    pose proof (share_home_ge _ _ Ht 52 100) as Hge.
    change (inject_Z 52 / inject_Z 100) with (52 # 100) in Hge.
    assert (H52 : 52 # 100 <= inject_Z (Basketball.h_score l)
                             / inject_Z (Basketball.h_score l
                                         + Basketball.a_score l))
      by (apply Hge; lia).
    assert (Hhp : 52 <= Basketball.home_prob l) by (rewrite Ehp; lra).
    split; [lra|]. cbn.
    pose proof (round1_near (Basketball.home_prob l)) as [Hr _]. lra.
  - intros home_team away_team r r'.
    destruct (basketball_match_spec home_team away_team r)
      as (l & res & El & Eres & -> & _).
    destruct (basketball_match_spec home_team away_team r')
      as (l' & res' & El' & Eres' & -> & _).
    rewrite El in El'. injection El' as <-.
    do 2 eexists. split; [exact Eres|]. split; [exact Eres'|].
    repeat split.
Qed.

(** ** Totality of the three estimators *)

(** C9: for every pair of strings, the empty one included, each of the
    three estimators returns a result instead of raising.  The raw score
    of the empty name is 0; in football and tennis a zero score total is
    replaced by 50/50, so the total that divides is positive; in
    basketball, which has no substitution, the home bonus keeps the total
    at 10 or more. *)
Theorem estimators_never_raise :
  name_score "" = 0%Z
  /\ Football.substitute 0 0 = (50%Z, 50%Z)
  /\ Tennis.substitute 0 0 = (50%Z, 50%Z)
  /\ forall (a b : string) (u : Q) (rt : Tennis.draws) (rb : Basketball.draws),
       (exists l r,
          Football.analyze_locals a b = Ok l
          /\ (0 < Football.home_score l + Football.away_score l)%Z
          /\ Football.analyze_match a b u = Ok r)
       /\ (exists l r,
             Tennis.analyze_locals a b (Tennis.adjustment rt) = Ok l
             /\ (0 < Tennis.p1_score l + Tennis.p2_score l)%Z
             /\ Tennis.analyze_match a b rt = Ok r)
       /\ (exists l r,
             Basketball.analyze_locals a b = Ok l
             /\ (10 <= Basketball.h_score l + Basketball.a_score l)%Z
             /\ Basketball.analyze_match a b rb = Ok r).
Proof.
  split; [reflexivity|]. split; [reflexivity|]. split; [reflexivity|].
  intros a b u rt rb. split; [|split].
  - destruct (football_match_spec a b u) as (l & r & El & Er & _).
    destruct (football_locals_spec a b) as (l' & x & y & El' & _ & _ & _ & Ht & _).
    rewrite El in El'. injection El' as <-.
    exists l, r. repeat split; assumption.
  - destruct (tennis_match_spec a b rt) as (l & r & El & Er & _ & Ht & _).
    exists l, r. repeat split; assumption.
  - destruct (basketball_match_spec a b rb) as (l & r & El & Er & _ & Eh & Ea & _).
    exists l, r. split; [exact El|]. split; [|exact Er].
    pose proof (name_score_range a). pose proof (name_score_range b). lia.
Qed.

(** ** Data-source adapters *)

Section SkipLoop.

Context {A B : Type}.
Variable f : A -> result B.

(** The [try]/[except]/[continue] loop body, as an accumulator step. *)
Let step (acc : list B) (x : A) : list B :=
  match f x with
  | Ok d => acc ++ [d]
  | Raise _ => acc
  end.

(** What one record contributes to the output. *)
Let kept (x : A) : list B :=
  match f x with
  | Ok d => [d]
  | Raise _ => []
  end.

Lemma skip_loop_flat_map (l : list A) (acc : list B) :
  fold_left step l acc = acc ++ flat_map kept l.
Proof.
  revert acc. induction l as [|x l IH]; intro acc; cbn [fold_left flat_map].
  - now rewrite app_nil_r.
  - rewrite IH. subst step kept. cbv beta.
    destruct (f x); [now rewrite <- app_assoc | reflexivity].
Qed.

Lemma skip_loop_length (l : list A) :
  (List.length (fold_left step l []) <= List.length l)%nat.
Proof.
  rewrite skip_loop_flat_map. cbn [app].
  induction l as [|x l IH]; cbn [flat_map List.length]; [lia|].
  rewrite length_app. subst kept. cbv beta.
  destruct (f x); cbn [List.length]; lia.
Qed.

Lemma skip_loop_capped (n : nat) (l : list A) :
  (List.length (fold_left step (firstn n l) []) <= n)%nat.
Proof.
  pose proof (skip_loop_length (firstn n l)) as H.
  pose proof (firstn_le_length n l). lia.
Qed.

(** A record whose mapping raises contributes nothing, and the records
    around it are mapped as if it were not there. *)
Lemma skip_loop_bad_record (l1 l2 : list A) (bad : A) (e : exn) :
  f bad = Raise e ->
  fold_left step (l1 ++ bad :: l2) []
  = fold_left step l1 [] ++ fold_left step l2 [].
Proof.
  intro Hbad. rewrite !skip_loop_flat_map. cbn [app].
  rewrite flat_map_app. cbn [flat_map]. subst kept. cbv beta.
  now rewrite Hbad.
Qed.

End SkipLoop.

Lemma map_fixtures_length (fs : list json) :
  forall acc ms,
    Football.map_fixtures fs acc = Ok ms ->
    (List.length ms <= List.length acc + List.length fs)%nat.
Proof.
  induction fs as [|fx fs IH]; intros acc ms H; cbn in H.
  - injection H as <-. lia.
  - destruct (Football.map_fixture fx) as [[m|]|e]; cbn [bind] in H.
    + apply IH in H. rewrite length_app in H. cbn [List.length] in *. lia.
    + apply IH in H. cbn [List.length]. lia.
    + discriminate H.
Qed.

Lemma map_sample_fixture :
  Football.map_fixture sample_fixture = Ok (Some sample_match).
Proof. vm_compute. reflexivity. Qed.

Lemma map_fixtures_samples (n : nat) :
  forall acc,
    Football.map_fixtures (repeat sample_fixture n) acc
    = Ok (acc ++ repeat sample_match n).
Proof.
  induction n as [|n IH]; intro acc; cbn [repeat Football.map_fixtures].
  - now rewrite app_nil_r.
  - rewrite map_sample_fixture. cbn [bind]. rewrite IH.
    now rewrite <- app_assoc.
Qed.

Lemma football_samples_returned (api_key : string) (n : nat) :
  truthy api_key = true ->
  Football.get_todays_matches api_key (Some (repeat sample_fixture (S n)))
  = repeat sample_match (S n).
Proof.
  intro Hk. unfold Football.get_todays_matches, Football.try_todays_matches.
  rewrite Hk. cbn [negb].
  pose proof (map_fixtures_samples (S n) []) as E.
  cbn [repeat app] in *. rewrite E. reflexivity.
Qed.




(** ** Per-record failures *)

(** In the tennis and basketball mappings a record whose mapping raises
    is skipped, and the records before and after it (within the cap) are
    mapped as if it were not there. *)
Lemma tennis_bad_record_skipped (l1 l2 : list json) (bad : json) (e : exn) :
  Tennis.format_match bad = Raise e ->
  (List.length (l1 ++ bad :: l2) <= 10)%nat ->
  Tennis._format_api_matches (l1 ++ bad :: l2)
  = Tennis._format_api_matches l1 ++ Tennis._format_api_matches l2.
Proof.
  intros Hbad Hlen. unfold Tennis._format_api_matches.
  rewrite length_app in Hlen. cbn [List.length] in Hlen.
  rewrite !firstn_all2 by (rewrite ?length_app; cbn [List.length]; lia).
  apply (skip_loop_bad_record Tennis.format_match l1 l2 bad e Hbad).
Qed.

Lemma tennis_bad_ranking_skipped (l1 l2 : list json) (bad : json) (e : exn)
    (tour_ : string) :
  Tennis.format_ranking bad = Raise e ->
  (List.length (l1 ++ bad :: l2) <= 20)%nat ->
  Tennis.rankings (Tennis._format_api_rankings (l1 ++ bad :: l2) tour_)
  = Tennis.rankings (Tennis._format_api_rankings l1 tour_)
    ++ Tennis.rankings (Tennis._format_api_rankings l2 tour_).
Proof.
  intros Hbad Hlen. unfold Tennis._format_api_rankings. cbn [Tennis.rankings].
  rewrite length_app in Hlen. cbn [List.length] in Hlen.
  rewrite !firstn_all2 by (rewrite ?length_app; cbn [List.length]; lia).
  apply (skip_loop_bad_record Tennis.format_ranking l1 l2 bad e Hbad).
Qed.

Lemma basketball_bad_record_skipped (l1 l2 : list json) (bad : json) (e : exn) :
  Basketball.format_game bad = Raise e ->
  (List.length (l1 ++ bad :: l2) <= 15)%nat ->
  Basketball._format_api_games (l1 ++ bad :: l2)
  = Basketball._format_api_games l1 ++ Basketball._format_api_games l2.
Proof.
  intros Hbad Hlen. unfold Basketball._format_api_games.
  rewrite length_app in Hlen. cbn [List.length] in Hlen.
  rewrite !firstn_all2 by (rewrite ?length_app; cbn [List.length]; lia).
  apply (skip_loop_bad_record Basketball.format_game l1 l2 bad e Hbad).
Qed.

(** C6: in the football mapping the exception of one record is not
    caught for that record alone.  The response made of a well-formed
    Serie A fixture followed by a Serie A fixture without a date maps
    its first record, raises [AttributeError] on the second, and the
    whole batch is replaced by the five simulated matches; without the
    second record the first one is returned. *)
Theorem football_bad_record_discards_batch :
  Football.map_fixture sample_fixture = Ok (Some sample_match)
  /\ Football.map_fixture undated_fixture = Raise AttributeError
  /\ Football.get_todays_matches "key" (Some [sample_fixture])
     = [sample_match]
  /\ Football.get_todays_matches "key" (Some [sample_fixture; undated_fixture])
     = Football._get_simulated_matches
  /\ ~ In sample_match
         (Football.get_todays_matches "key"
            (Some [sample_fixture; undated_fixture])).
Proof.
  split; [vm_compute; reflexivity|].
  split; [vm_compute; reflexivity|].
  split; [vm_compute; reflexivity|].
  assert (E : Football.get_todays_matches "key"
                (Some [sample_fixture; undated_fixture])
              = Football._get_simulated_matches)
    by (vm_compute; reflexivity).
  split; [exact E|].
  rewrite E. unfold Football._get_simulated_matches, sample_match.
  cbn [In]. intros [H|[H|[H|[H|[H|[]]]]]]; discriminate H.
Qed.

(** ** Users *)

Section Users.

Import Database.

Lemma NoDup_map_eq {A B : Type} (g : A -> B) (l : list A) (a b : A) :
  NoDup (map g l) -> In a l -> In b l -> g a = g b -> a = b.
Proof.
  induction l as [|x l IH]; intros Hnd Ha Hb E; [contradiction|].
  cbn [map] in Hnd. inversion Hnd as [|? ? Hx Hnd']; subst.
  destruct Ha as [->|Ha], Hb as [->|Hb].
  - reflexivity.
  - exfalso. apply Hx. rewrite E. now apply in_map.
  - exfalso. apply Hx. rewrite <- E. now apply in_map.
  - now apply IH.
Qed.

Lemma find_none_app {A : Type} (p : A -> bool) (l1 l2 : list A) :
  find p (l1 ++ l2)
  = match find p l1 with
    | Some a => Some a
    | None => find p l2
    end.
Proof.
  induction l1 as [|x l IH]; cbn [app find]; [reflexivity|].
  destruct (p x); [reflexivity | exact IH].
Qed.

Lemma find_user_some (s : store) (tid : Z) (u : User) :
  find_user s tid = Some u -> In u (users s) /\ telegram_id u = tid.
Proof.
  unfold find_user. intro H. apply find_some in H as [Hin Hp].
  split; [exact Hin | now apply Z.eqb_eq].
Qed.

Lemma find_user_none (s : store) (tid : Z) :
  find_user s tid = None -> ~ In tid (map telegram_id (users s)).
Proof.
  unfold find_user. intros H Hin.
  apply in_map_iff in Hin as (u & Eu & Hu).
  pose proof (find_none _ _ H u Hu) as Hp. cbv beta in Hp.
  apply Z.eqb_neq in Hp. contradiction.
Qed.

Lemma rows_of_absent (s : store) (tid : Z) :
  find_user s tid = None -> rows_of s tid = [].
Proof.
  unfold find_user, rows_of.
  induction (users s) as [|x l IH]; intro H; cbn [find filter] in *;
    [reflexivity|].
  destruct (telegram_id x =? tid)%Z; [discriminate H | now apply IH].
Qed.

Lemma rows_of_present (s : store) (tid : Z) (u : User) :
  NoDup (map telegram_id (users s)) ->
  find_user s tid = Some u -> rows_of s tid = [u].
Proof.
  unfold find_user, rows_of.
  induction (users s) as [|x l IH]; intros Hnd H; cbn [find filter map] in *;
    [discriminate H|].
  inversion Hnd as [|? ? Hx Hnd']; subst.
  destruct (telegram_id x =? tid)%Z eqn:E.
  - injection H as <-. f_equal. apply Z.eqb_eq in E.
    destruct (filter (fun u => (telegram_id u =? tid)%Z) l) as [|y l'] eqn:F;
      [reflexivity|].
    exfalso. assert (Hy : In y (filter (fun u => (telegram_id u =? tid)%Z) l))
      by (rewrite F; now left).
    apply filter_In in Hy as [Hy Ey]. apply Z.eqb_eq in Ey.
    apply Hx. rewrite E, <- Ey. now apply in_map.
  - now apply IH.
Qed.

Lemma find_after_update (p : User -> bool) (us : list User) (u0 u' : User) :
  find p us = Some u0 -> p u' = true -> id u' = id u0 ->
  find p (update_user us u') = Some u'.
Proof.
  intros H Hp Eid. unfold update_user.
  induction us as [|x l IH]; cbn [find map] in *; [discriminate H|].
  destruct (p x) eqn:Ex.
  - injection H as ->. rewrite Eid, Z.eqb_refl, Hp. reflexivity.
  - destruct (id x =? id u')%Z.
    + now rewrite Hp.
    + rewrite Ex. now apply IH.
Qed.

(** Replacing a row by one with the same key and the same value of a
    column leaves that column as it was. *)
Lemma update_keeps_column {B : Type} (g : User -> B) (us : list User)
    (u0 u' : User) :
  NoDup (map id us) -> In u0 us -> id u' = id u0 -> g u' = g u0 ->
  map g (update_user us u') = map g us.
Proof.
  intros Hnd Hin Eid Eg. unfold update_user. rewrite map_map.
  apply map_ext_in. intros u Hu.
  destruct (id u =? id u')%Z eqn:E; [|reflexivity].
  apply Z.eqb_eq in E. rewrite Eid in E.
  now rewrite (NoDup_map_eq id us u u0 Hnd Hu Hin E).
Qed.

(** One call on a store that satisfies the schema constraints. *)
Lemma get_or_create_user_spec (s : store) (tid : Z)
    (uname fname lname : option string) (now : Z) :
  users_ok s ->
  let s1 := fst (get_or_create_user s tid uname fname lname now) in
  let u1 := snd (get_or_create_user s tid uname fname lname now) in
  users_ok s1
  /\ find_user s1 tid = Some u1
  /\ telegram_id u1 = tid
  /\ last_seen u1 = now
  /\ (find_user s tid = None ->
      users s1 = users s ++ [u1]
      /\ id u1 = next_user_id s
      /\ created_at u1 = now
      /\ username u1 = uname /\ first_name u1 = fname /\ last_name u1 = lname)
  /\ (forall u0, find_user s tid = Some u0 ->
      List.length (users s1) = List.length (users s)
      /\ map id (users s1) = map id (users s)
      /\ u1 = touch u0 uname fname lname now).
Proof.
  intros (Hid & Htid & Hseq). unfold get_or_create_user.
  destruct (find_user s tid) as [u0|] eqn:F; cbn [fst snd].
  - destruct (find_user_some _ _ _ F) as [Hin Et].
    set (u' := touch u0 uname fname lname now).
    assert (Eid : map id (update_user (users s) u') = map id (users s))
      by (apply (update_keeps_column id _ u0); auto).
    assert (Etid : map telegram_id (update_user (users s) u')
                   = map telegram_id (users s))
      by (apply (update_keeps_column telegram_id _ u0); auto).
    split; [|split; [|split; [|split; [|split]]]].
    + unfold users_ok, set_users. cbn [users next_user_id].
      rewrite Eid, Etid. split; [exact Hid|]. split; [exact Htid|].
      apply Forall_forall. intros u Hu. unfold update_user in Hu.
      apply in_map_iff in Hu as (v & Ev & Hv).
      rewrite Forall_forall in Hseq.
      destruct (id v =? id u')%Z; subst u.
      * apply (Hseq u0 Hin).
      * apply (Hseq v Hv).
    + unfold find_user, set_users. cbn [users].
      apply (find_after_update _ _ u0); [exact F | | reflexivity].
      cbn. rewrite Et. apply Z.eqb_refl.
    + exact Et.
    + reflexivity.
    + discriminate.
    + intros ? [= <-]. unfold set_users. cbn [users].
      split; [unfold update_user; apply length_map|]. split; [exact Eid|].
      reflexivity.
  - pose proof (find_user_none _ _ F) as Hnew.
    split; [|split; [|split; [|split; [|split]]]].
    + unfold users_ok, set_users. cbn [users next_user_id].
      rewrite !map_app. cbn [map id telegram_id].
      rewrite Forall_forall in Hseq.
      split; [|split].
      * apply NoDup_app; [exact Hid | repeat constructor; auto |].
        intros a Ha [<-|[]]. apply in_map_iff in Ha as (v & Ev & Hv).
        specialize (Hseq v Hv). lia.
      * apply NoDup_app; [exact Htid | repeat constructor; auto |].
        intros a Ha [<-|[]]. contradiction.
      * apply Forall_forall. intros u Hu. apply in_app_iff in Hu as [Hu|[<-|[]]].
        -- specialize (Hseq u Hu). lia.
        -- cbn [id]. lia.
    + unfold find_user, set_users in *. cbn [users].
      rewrite find_none_app, F. cbn [find telegram_id]. now rewrite Z.eqb_refl.
    + reflexivity.
    + reflexivity.
    + intros _. unfold set_users. cbn. repeat split.
    + discriminate.
Qed.

End Users.


Lemma sample_store_ok : Database.users_ok Database.sample_store.
Proof.
  unfold Database.users_ok, Database.sample_store. cbn.
  split; [|split].
  - constructor; [intros [] | constructor].
  - constructor; [intros [] | constructor].
  - constructor; [reflexivity | constructor].
Defined.


(** ** Statistics *)

Section Stats.

Import Database.

Context {A : Type} `{PredictionRow A}.

(** Newest first. *)
Let newer_first (a b : A) : Prop := (row_created_at b <= row_created_at a)%Z.

Lemma insert_desc_perm (x : A) (l : list A) :
  Permutation (insert_desc x l) (x :: l).
Proof.
  induction l as [|y l IH]; cbn [insert_desc]; [reflexivity|].
  destruct (row_created_at y <? row_created_at x)%Z; [reflexivity|].
  rewrite IH. apply perm_swap.
Qed.

Lemma order_by_desc_perm (l : list A) :
  Permutation (order_by_desc_created_at l) l.
Proof.
  induction l as [|x l IH]; cbn [order_by_desc_created_at]; [reflexivity|].
  rewrite insert_desc_perm. now constructor.
Qed.

Lemma insert_desc_sorted (x : A) (l : list A) :
  StronglySorted newer_first l -> StronglySorted newer_first (insert_desc x l).
Proof.
  induction 1 as [|y l Hs IH Hy]; cbn [insert_desc].
  - repeat constructor.
  - destruct (row_created_at y <? row_created_at x)%Z eqn:E.
    + apply Z.ltb_lt in E. constructor; [now constructor|].
      constructor; [unfold newer_first; lia|].
      eapply Forall_impl; [|exact Hy]. unfold newer_first. intros; lia.
    + apply Z.ltb_ge in E. constructor; [exact IH|].
      apply (Permutation_Forall (Permutation_sym (insert_desc_perm x l))).
      constructor; [exact E | exact Hy].
Qed.

Lemma order_by_desc_sorted (l : list A) :
  StronglySorted newer_first (order_by_desc_created_at l).
Proof.
  induction l as [|x l IH]; cbn [order_by_desc_created_at].
  - constructor.
  - now apply insert_desc_sorted.
Qed.

(** The three queries and the accuracy computation never raise. *)
Lemma query_stats_spec (table : list A) (u : User) :
  let mine := filter (fun r => (row_user_id r =? id u)%Z) table in
  let total := Z.of_nat (List.length mine) in
  let correct :=
    Z.of_nat (List.length (filter (fun r => is_true (row_is_correct r)) mine)) in
  query_stats table u
  = Ok {| total_predictions := total;
          correct_predictions := correct;
          accuracy :=
            round1 (if (0 <? total)%Z
                    then inject_Z correct / inject_Z total * 100 else 0);
          recent_predictions := firstn 5 (order_by_desc_created_at mine);
          user := Some u |}.
Proof.
  intros mine total correct. unfold query_stats. fold mine total correct.
  destruct (0 <? total)%Z eqn:E; [|reflexivity].
  apply Z.ltb_lt in E.
  rewrite pydiv_ok; [reflexivity|].
  intro Hz. unfold Qeq in Hz. cbn in Hz. lia.
Qed.

End Stats.

Lemma query_stats_documented {A : Type} `{Database.PredictionRow A}
    (table : list A) (u : Database.User) :
  exists st,
    Database.query_stats table u = Ok st /\ stats_documented table u st.
Proof.
  eexists. split; [apply query_stats_spec|].
  unfold stats_documented.
  cbn [Database.total_predictions Database.correct_predictions
       Database.accuracy Database.recent_predictions Database.user].
  split; [reflexivity|]. split; [reflexivity|]. split; [reflexivity|].
  split; [|split; [|split]].
  - intro E. rewrite E. cbn. repeat split; reflexivity.
  - eexists. split; [apply order_by_desc_perm|].
    split; [apply order_by_desc_sorted | reflexivity].
  - apply firstn_le_length.
  - reflexivity.
Qed.

Lemma get_or_create_user_tables (s : Database.store) (tid : Z)
    (uname fname lname : option string) (now : Z) :
  let s' := fst (Database.get_or_create_user s tid uname fname lname now) in
  Database.predictions s' = Database.predictions s
  /\ Database.tennis_predictions s' = Database.tennis_predictions s
  /\ Database.basketball_predictions s' = Database.basketball_predictions s.
Proof.
  unfold Database.get_or_create_user.
  destruct (Database.find_user s tid); cbn; repeat split.
Qed.



(** * Further properties of the estimators *)

(** ** Rounding is monotone *)

Lemma round_half_even_mono (x y : Q) :
  x <= y -> (round_half_even x <= round_half_even y)%Z.
Proof.
  intro Hxy.
  destruct (Z_le_gt_dec (round_half_even x) (round_half_even y)) as [H|H];
    [exact H|].
  exfalso.
  destruct (round_half_even_near x) as [_ Hx].
  destruct (round_half_even_near y) as [Hy _].
  assert (Hz : inject_Z (round_half_even y) + 1 <= inject_Z (round_half_even x)).
  { change 1 with (inject_Z 1). rewrite <- inject_Z_plus, <- Zle_Qle. lia. }
  assert (E : x == y) by (apply Qle_antisym; lra).
  rewrite (round_half_even_comp _ _ E) in H. lia.
Qed.

Lemma round_to_mono (scale : positive) (x y : Q) :
  x <= y -> round_to scale x <= round_to scale y.
Proof.
  intro Hxy. unfold round_to, Qle. cbn [Qnum Qden].
  apply Z.mul_le_mono_nonneg_r; [lia|].
  apply round_half_even_mono.
  apply Qmult_le_compat_r; [exact Hxy | discriminate].
Qed.

Lemma round1_py_max (a b : Q) :
  round1 (py_max a b) == py_max (round1 a) (round1 b).
Proof.
  destruct (py_max_cases a b) as [[H ->]|[H ->]].
  - rewrite py_max_l; [reflexivity|]. now apply round_to_mono.
  - assert (Hr : round1 a <= round1 b) by (apply round_to_mono; lra).
    destruct (py_max_cases (round1 a) (round1 b)) as [[H' ->]|[H' ->]].
    + now apply Qle_antisym.
    + reflexivity.
Qed.

#[export] Instance py_max_comp : Proper (Qeq ==> Qeq ==> Qeq) py_max.
Proof.
  intros a a' Ha b b' Hb. rewrite !py_max_Qmax. now rewrite Ha, Hb.
Qed.

Lemma round1_py_max3 (a b c : Q) :
  round1 (py_max3 a b c) == py_max3 (round1 a) (round1 b) (round1 c).
Proof.
  unfold py_max3. rewrite round1_py_max.
  apply py_max_comp; [apply round1_py_max | reflexivity].
Qed.

(** ** Football: what is returned beside the probabilities *)

Lemma football_report_full (l : Football.locals) (u : Q) :
  0 < Football.selected_prob l ->
  Football.report l u
  = Ok {| Football.probs :=
            {| Football.home := round1 (Football.home_prob l);
               Football.draw := round1 (Football.draw_prob l);
               Football.away := round1 (Football.away_prob l) |};
          Football.predicted := Football.label (Football.prediction l);
          Football.reported_confidence := round1 (Football.confidence l);
          Football.goals :=
            {| Football.goals_home :=
                 Z.max 0 (round_half_even
                            (inject_Z (Football.home_score l) / 100 * 3));
               Football.goals_away :=
                 Z.max 0 (round_half_even
                            (inject_Z (Football.away_score l) / 100 * 2)) |};
          Football.value_bet :=
            {| Football.market := "Match Result";
               Football.selection := Football.label (Football.prediction l);
               Football.odds := round2 (1 / (Football.selected_prob l / 100));
               Football.edge := round1 u |} |}.
Proof.
  intro Hpos. unfold Football.report.
  rewrite pydiv_ok by (qconst; lra). reflexivity.
Qed.

Lemma football_match_full (home_name away_name : string) (u : Q) :
  exists l x y,
    Football.analyze_locals home_name away_name = Ok l
    /\ Football.report l u = Football.analyze_match home_name away_name u
    /\ (0 <= Football.home_score l < 100)%Z
    /\ (0 <= Football.away_score l < 100)%Z
    /\ x + y == 1 /\ 0 <= x /\ 0 <= y
    /\ Football.home_prob l = x * 100 - 20 / 3
    /\ Football.draw_prob l = 20
    /\ Football.away_prob l = y * 100 - 20 / 3
    /\ Football.prediction l
       = (if Qgt_bool (Football.home_prob l) (Football.away_prob l)
          then Football.Home1 else Football.Away2)
    /\ Football.confidence l
       = py_max3 (Football.home_prob l) 20 (Football.away_prob l)
    /\ 130 # 3 <= Football.selected_prob l.
Proof.
  destruct (football_locals_spec home_name away_name)
    as (l & x & y & El & Esc & H1 & H2 & H3 & Ex & Ey & Hsum & Hx & Hy
        & Ehp & Edp & Eap & Epr & Ecf).
  exists l, x, y. split; [exact El|].
  split; [unfold Football.analyze_match; now rewrite El|].
  assert (Hb : (Football.home_score l < 100 /\ Football.away_score l < 100)%Z).
  { pose proof (name_score_range home_name).
    pose proof (name_score_range away_name).
    unfold Football.substitute in Esc.
    destruct (name_score home_name + name_score away_name =? 0)%Z;
      injection Esc as -> ->; lia. }
  split; [lia|]. split; [lia|].
  repeat (split; [assumption|]).
  now apply (football_selected_positive l x y).
Qed.

(** X1: the confidence the football estimator reports is the returned
    probability of the side its label names, that side's returned
    probability is the largest of the three returned ones, and the
    label is "1" or "2". *)
Theorem football_confidence_of_predicted_side :
  forall (home_name away_name : string) (u : Q),
  exists r,
    Football.analyze_match home_name away_name u = Ok r
    /\ Football.reported_confidence r
       == py_max3 (Football.home (Football.probs r))
            (Football.draw (Football.probs r))
            (Football.away (Football.probs r))
    /\ ((Football.predicted r = "1"%string
         /\ Football.reported_confidence r = Football.home (Football.probs r)
         /\ Football.away (Football.probs r) <= Football.home (Football.probs r)
         /\ Football.draw (Football.probs r) < Football.home (Football.probs r))
        \/ (Football.predicted r = "2"%string
            /\ Football.reported_confidence r
               = Football.away (Football.probs r)
            /\ Football.home (Football.probs r)
               <= Football.away (Football.probs r)
            /\ Football.draw (Football.probs r)
               < Football.away (Football.probs r))).
Proof.
  intros home_name away_name u.
  destruct (football_match_full home_name away_name u)
    as (l & x & y & El & Er & _ & _ & Hsum & Hx & Hy & Ehp & Edp & Eap
        & Epr & Ecf & Hsel).
  rewrite football_report_full in Er by lra.
  eexists. split; [symmetry; exact Er|].
  cbn [Football.probs Football.home Football.draw Football.away
       Football.predicted Football.reported_confidence].
  split; [rewrite Ecf, Edp; apply round1_py_max3|].
  assert (Hd : round1 (Football.draw_prob l) == 20)
    by (rewrite Edp; reflexivity).
  rewrite Epr, Ecf. unfold py_max3.
  destruct (Qgt_bool (Football.home_prob l) (Football.away_prob l)) eqn:E.
  - left. apply Qgt_bool_true in E.
    assert (H43 : 130 # 3 <= Football.home_prob l)
      by (rewrite Ehp, Eap in *; qconst; lra).
    split; [reflexivity|].
    rewrite (py_max_l (Football.home_prob l) 20) by lra.
    rewrite py_max_l by lra.
    split; [reflexivity|]. split; [apply round_to_mono; lra|].
    rewrite Hd. destruct (round1_near (Football.home_prob l)). lra.
  - right. apply Qgt_bool_false in E.
    assert (H43 : 130 # 3 <= Football.away_prob l)
      by (rewrite Ehp, Eap in *; qconst; lra).
    split; [reflexivity|].
    split; [|split; [apply round_to_mono; exact E|]].
    + apply round1_eq.
      destruct (py_max_cases (Football.home_prob l) 20) as [[G ->]|[G ->]].
      * destruct (py_max_cases (Football.home_prob l) (Football.away_prob l))
          as [[G' ->]|[G' ->]]; [now apply Qle_antisym | reflexivity].
      * rewrite py_max_r by lra. reflexivity.
    + rewrite Hd. destruct (round1_near (Football.away_prob l)). lra.
Qed.

(** X2: a football match of a name against itself is always called for
    the away side: the label is "2", home and away are both returned as
    43.3, the draw as 20.0 and the confidence as 43.3. *)
Theorem football_equal_names_away :
  forall (name : string) (u : Q),
  exists r,
    Football.analyze_match name name u = Ok r
    /\ Football.predicted r = "2"%string
    /\ Football.probs r
       = {| Football.home := 433 # 10;
            Football.draw := 200 # 10;
            Football.away := 433 # 10 |}
    /\ Football.reported_confidence r = 433 # 10.
Proof.
  intros name u.
  destruct (football_locals_spec name name)
    as (l & x & y & El & Esc & H1 & H2 & H3 & Ex & Ey & Hsum & Hx & Hy
        & Ehp & Edp & Eap & Epr & Ecf).
  assert (Exy : x = y).
  { rewrite Ex, Ey. unfold Football.substitute in Esc.
    destruct (name_score name + name_score name =? 0)%Z;
      injection Esc as -> ->; reflexivity. }
  rewrite <- Exy in Hsum, Eap. clear Ey Exy Hy.
  assert (Ehalf : x == 1 # 2) by lra.
  assert (E43 : Football.home_prob l == 130 # 3)
    by (rewrite Ehp, Ehalf; reflexivity).
  assert (Eha : Football.away_prob l = Football.home_prob l)
    by (rewrite Ehp, Eap; reflexivity).
  assert (Epr' : Football.prediction l = Football.Away2).
  { rewrite Epr, Eha.
    assert (G : Qgt_bool (Football.home_prob l) (Football.home_prob l) = false)
      by (apply Qgt_bool_false; lra).
    now rewrite G. }
  assert (Ecf' : Football.confidence l == 130 # 3).
  { rewrite Ecf, Eha. unfold py_max3.
    rewrite (py_max_l (Football.home_prob l) 20) by (rewrite E43; discriminate).
    rewrite py_max_l by lra. exact E43. }
  assert (Hsel : 0 < Football.selected_prob l).
  { unfold Football.selected_prob. rewrite Epr', Eha, E43. reflexivity. }
  unfold Football.analyze_match. rewrite El. cbn [bind].
  rewrite football_report_full by exact Hsel.
  eexists. split; [reflexivity|].
  cbn [Football.probs Football.predicted Football.reported_confidence].
  rewrite Epr', Eha, Edp, (round1_eq _ _ E43), (round1_eq _ _ Ecf').
  repeat split.
Qed.

(** X3: the expected goals of the football estimator are between 0 and
    3 for the home side and between 0 and 2 for the away side; the
    [max(0, ...)] clamp never changes the rounded value. *)
Theorem football_goals_bounds :
  forall (home_name away_name : string) (u : Q),
  exists l r,
    Football.analyze_locals home_name away_name = Ok l
    /\ Football.analyze_match home_name away_name u = Ok r
    /\ (0 <= Football.goals_home (Football.goals r) <= 3)%Z
    /\ (0 <= Football.goals_away (Football.goals r) <= 2)%Z
    /\ Football.goals_home (Football.goals r)
       = round_half_even (inject_Z (Football.home_score l) / 100 * 3)
    /\ Football.goals_away (Football.goals r)
       = round_half_even (inject_Z (Football.away_score l) / 100 * 2).
Proof.
  intros home_name away_name u.
  destruct (football_match_full home_name away_name u)
    as (l & x & y & El & Er & Hh & Ha & _ & _ & _ & _ & _ & _ & _ & _ & Hsel).
  rewrite football_report_full in Er by lra.
  exists l. eexists. split; [exact El|]. split; [symmetry; exact Er|].
  cbn [Football.goals Football.goals_home Football.goals_away].
  assert (Hq : forall s : Z, (0 <= s < 100)%Z ->
                 0 <= inject_Z s /\ inject_Z s <= 99).
  { intros s Hs. split.
    - change 0 with (inject_Z 0). rewrite <- Zle_Qle. lia.
    - change 99 with (inject_Z 99). rewrite <- Zle_Qle. lia. }
  destruct (Hq _ Hh) as [Hh0 Hh9]. destruct (Hq _ Ha) as [Ha0 Ha9].
  assert (G1 : (0 <= round_half_even
                       (inject_Z (Football.home_score l) / 100 * 3) <= 3)%Z).
  { split.
    - apply (Z.le_trans _ (round_half_even 0)); [now vm_compute|].
      apply round_half_even_mono. qconst. lra.
    - apply (Z.le_trans _ (round_half_even (297 # 100))); [|now vm_compute].
      apply round_half_even_mono. qconst. lra. }
  assert (G2 : (0 <= round_half_even
                       (inject_Z (Football.away_score l) / 100 * 2) <= 2)%Z).
  { split.
    - apply (Z.le_trans _ (round_half_even 0)); [now vm_compute|].
      apply round_half_even_mono. qconst. lra.
    - apply (Z.le_trans _ (round_half_even (198 # 100))); [|now vm_compute].
      apply round_half_even_mono. qconst. lra. }
  rewrite !Z.max_r by lia. repeat split; lia.
Qed.


(** ** Tennis: range, winner and score *)

Lemma tennis_locals_full (player1 player2 : string) (adj : Q) :
  exists l x y,
    Tennis.analyze_locals player1 player2 adj = Ok l
    /\ x + y == 1 /\ 0 <= x /\ 0 <= y
    /\ Tennis.player1_prob l == x * 100 + adj
    /\ Tennis.player2_prob l == y * 100 - adj
    /\ Tennis.predicted_winner l
       = (if Qgt_bool (Tennis.player1_prob l) (Tennis.player2_prob l)
          then player1 else player2)
    /\ Tennis.confidence l
       = py_max (Tennis.player1_prob l) (Tennis.player2_prob l).
Proof.
  unfold Tennis.analyze_locals, Tennis.analyze_scores.
  destruct (name_score_range player1) as [H1 _].
  destruct (name_score_range player2) as [H2 _].
  destruct (tennis_substitute_spec _ _ H1 H2) as (Ha & Hb & Ht).
  destruct (Tennis.substitute (name_score player1) (name_score player2))
    as [s1 s2].
  cbn [fst snd] in Ha, Hb, Ht.
  destruct (tennis_estimate_spec player1 player2 s1 s2 adj Ht)
    as (l & El & _ & _ & Ep1 & Ep2 & Ew & Ec).
  exists l. eexists. eexists. split; [exact El|].
  split; [apply (shares_sum s1 s2 Ht)|].
  split; [now apply share_home_nonneg|].
  split; [now apply share_away_nonneg|].
  repeat split; assumption.
Qed.


(** Both ends of the range are reached: "d" (raw score 0) against "a"
    with the perturbation at -5 is returned as -5.0 against 105.0. *)
Lemma tennis_probability_extremes :
  exists res,
    Tennis.analyze_match "d" "a"
      {| Tennis.adjustment := - (5); Tennis.sets_pick := 0;
         Tennis.surface_pick := 0; Tennis.specialist_pick := 0;
         Tennis.aces_pick := 0; Tennis.break_won := 3;
         Tennis.break_total := 10; Tennis.first_serve_pct := 60 |}
    = Ok res
    /\ Tennis.player1 (Tennis.probs res) == - (5)
    /\ Tennis.player2 (Tennis.probs res) == 105.
Proof.
  eexists. split; [vm_compute; reflexivity|]. split; vm_compute; reflexivity.
Qed.




(** ** Basketball: sum, range, winner and spread *)

Lemma basketball_locals_full (home_team away_team : string) :
  exists l x y,
    Basketball.analyze_locals home_team away_team = Ok l
    /\ x + y == 1 /\ 10 # 109 <= x /\ 0 <= y
    /\ Basketball.home_prob l = x * 100
    /\ Basketball.away_prob l = y * 100
    /\ Qgt_bool (Basketball.home_prob l) (Basketball.away_prob l)
       = (name_score away_team <? name_score home_team + 10)%Z
    /\ Basketball.predicted_winner l
       = (if (name_score away_team <? name_score home_team + 10)%Z
          then home_team else away_team)
    /\ Basketball.confidence l
       = py_max (Basketball.home_prob l) (Basketball.away_prob l).
Proof.
  unfold Basketball.analyze_locals.
  destruct (name_score_range home_team) as [H1 H1'].
  destruct (name_score_range away_team) as [H2 H2'].
  destruct (basketball_scores_spec home_team away_team _ _ H1 H2)
    as (l & El & _ & _ & Ehp & Eap & Ew & Ec).
  set (h := (name_score home_team + 10)%Z) in *.
  set (a := name_score away_team) in *.
  assert (Ht : (0 < h + a)%Z) by lia.
  exists l. eexists. eexists. split; [exact El|].
  split; [apply (shares_sum h a Ht)|].
  split; [apply (share_home_ge h a Ht 10 109); lia|].
  split; [apply share_away_nonneg; lia|].
  split; [exact Ehp|]. split; [exact Eap|].
  assert (Hcmp : Qgt_bool (Basketball.home_prob l) (Basketball.away_prob l)
                 = (a <? h)%Z).
  { rewrite Ehp, Eap.
    assert (Hpos : 0 < / inject_Z (h + a)).
    { apply Qinv_lt_0_compat. change 0 with (inject_Z 0).
      rewrite <- Zlt_Qlt. exact Ht. }
    destruct (a <? h)%Z eqn:E.
    - apply Z.ltb_lt in E. apply Qgt_bool_true.
      apply Qmult_lt_compat_r; [reflexivity|]. unfold Qdiv.
      apply Qmult_lt_compat_r; [exact Hpos|]. now rewrite <- Zlt_Qlt.
    - apply Z.ltb_ge in E. apply Qgt_bool_false.
      apply Qmult_le_compat_r; [|discriminate]. unfold Qdiv.
      apply Qmult_le_compat_r; [|lra]. now rewrite <- Zle_Qle. }
  split; [exact Hcmp|]. split; [|exact Ec].
  rewrite Ew, Hcmp. reflexivity.
Qed.


(** X8: the spread of the basketball result is the drawn number with a
    sign: "-" when the home side is predicted and the two names differ,
    "+" when the away side is predicted, and also "+" whenever the two
    names are equal, since the sign is chosen by comparing the predicted
    winner's name with the away name. *)
Theorem basketball_spread_sign :
  forall (home_team away_team : string) (r : Basketball.draws),
  exists res,
    Basketball.analyze_match home_team away_team r = Ok res
    /\ Basketball.total_points res = Basketball.total_points_draw r
    /\ Basketball.spread res
       = ((if String.eqb home_team away_team then "+"
           else if (name_score away_team <? name_score home_team + 10)%Z
                then "-" else "+")
            ++ str_of_int (Basketball.spread_draw r))%string.
Proof.
  intros home_team away_team r.
  destruct (basketball_locals_full home_team away_team)
    as (l & x & y & El & _ & _ & _ & _ & _ & _ & Ew & _).
  eexists.
  split; [unfold Basketball.analyze_match; rewrite El; reflexivity|].
  cbn [Basketball.report Basketball.total_points Basketball.spread].
  split; [reflexivity|]. rewrite Ew. f_equal.
  destruct (String.eqb home_team away_team) eqn:Eq.
  - apply String.eqb_eq in Eq. subst away_team.
    destruct (_ <? _)%Z; now rewrite String.eqb_refl.
  - destruct (_ <? _)%Z; [now rewrite Eq | now rewrite String.eqb_refl].
Qed.

(** * Further properties of the persistence gateway *)

Section Writes.

Import Database DatabaseWrites.

Lemma get_or_create_user_id (s : store) (tid : Z)
    (a b c a' b' c' : option string) (now now' : Z) :
  id (snd (get_or_create_user s tid a b c now))
  = id (snd (get_or_create_user s tid a' b' c' now')).
Proof.
  unfold get_or_create_user. destruct (find_user s tid); reflexivity.
Qed.

Lemma py_or_none (x : option string) : py_or None x = x.
Proof. reflexivity. Qed.

Lemma find_after_update_other (p : User -> bool) (us : list User)
    (u0 u' : User) :
  (forall x, In x us -> id x = id u0 -> x = u0) ->
  id u' = id u0 -> p u0 = false -> p u' = false ->
  find p (update_user us u') = find p us.
Proof.
  intros Huniq Eid H0 H'. unfold update_user.
  induction us as [|x l IH]; cbn [map find]; [reflexivity|].
  assert (IH' : find p (map (fun u => if (id u =? id u')%Z then u' else u) l)
                = find p l)
    by (apply IH; intros y Hy; apply Huniq; now right).
  destruct (id x =? id u')%Z eqn:E.
  - apply Z.eqb_eq in E. rewrite Eid in E.
    rewrite (Huniq x (or_introl eq_refl) E), H', H0. exact IH'.
  - destruct (p x); [reflexivity | exact IH'].
Qed.

(** A call for one platform id does not change what is found for
    another one. *)
Lemma get_or_create_user_frame (s : store) (tid tid' : Z)
    (a b c : option string) (now : Z) :
  users_ok s -> tid' <> tid ->
  find_user (fst (get_or_create_user s tid a b c now)) tid' = find_user s tid'.
Proof.
  intros (Hid & _ & _) Hne. unfold get_or_create_user.
  destruct (find_user s tid) as [u0|] eqn:F; cbn [fst].
  - destruct (find_user_some _ _ _ F) as [Hin Et].
    unfold find_user, set_users. cbn [users].
    apply (find_after_update_other _ _ u0).
    + intros x Hx Ex. now apply (NoDup_map_eq id (users s)).
    + reflexivity.
    + apply Z.eqb_neq. lia.
    + cbn. apply Z.eqb_neq. lia.
  - unfold find_user, set_users. cbn [users].
    rewrite find_none_app. destruct (find _ (users s)); [reflexivity|].
    cbn. assert (E : (tid =? tid')%Z = false) by (apply Z.eqb_neq; lia).
    now rewrite E.
Qed.

Lemma get_or_create_user_ids (s : store) (tid : Z)
    (a b c : option string) (now : Z) :
  users_ok s ->
  incl (map id (users s))
       (map id (users (fst (get_or_create_user s tid a b c now))))
  /\ In (id (snd (get_or_create_user s tid a b c now)))
        (map id (users (fst (get_or_create_user s tid a b c now)))).
Proof.
  intro Hok.
  destruct (get_or_create_user_spec s tid a b c now Hok)
    as (_ & F1 & _ & _ & Hnew & Hold).
  cbv zeta in *. split.
  - destruct (find_user s tid) as [u0|] eqn:F.
    + destruct (Hold u0 eq_refl) as (_ & E & _). rewrite E. apply incl_refl.
    + destruct (Hnew eq_refl) as (E & _). rewrite E, map_app.
      apply incl_appl, incl_refl.
  - apply in_map. now apply (find_user_some _ tid).
Qed.

Lemma fk_ok_incl {A : Type} `{PredictionRow A} (us us' : list User)
    (table : list A) :
  incl (map id us) (map id us') -> fk_ok us table -> fk_ok us' table.
Proof.
  intros Hincl Hfk. unfold fk_ok in *.
  eapply Forall_impl; [|exact Hfk]. intros r Hr. now apply Hincl.
Qed.

Lemma fk_ok_app {A : Type} `{PredictionRow A} (us : list User)
    (table : list A) (r : A) :
  fk_ok us table -> In (row_user_id r) (map id us) -> fk_ok us (table ++ [r]).
Proof.
  intros Hfk Hr. unfold fk_ok in *. apply Forall_app. split; [exact Hfk|].
  now constructor.
Qed.


End Writes.

Section StatsAfterWrites.

Import Database DatabaseWrites.

(** What [get_user_stats] returns, in closed form. *)
Lemma get_user_stats_value (s : store) (tid now : Z) :
  let u := snd (get_or_create_user s tid None None None now) in
  let mine := filter (fun r => (user_id r =? id u)%Z) (predictions s) in
  snd (get_user_stats s tid now)
  = {| total_predictions := Z.of_nat (List.length mine);
       correct_predictions :=
         Z.of_nat (List.length (filter (fun r => is_true (is_correct r)) mine));
       accuracy :=
         round1 (if (0 <? Z.of_nat (List.length mine))%Z
                 then inject_Z
                        (Z.of_nat
                           (List.length
                              (filter (fun r => is_true (is_correct r)) mine)))
                      / inject_Z (Z.of_nat (List.length mine)) * 100
                 else 0);
       recent_predictions := firstn 5 (order_by_desc_created_at mine);
       user := Some u |}.
Proof.
  cbv zeta. unfold get_user_stats.
  destruct (get_or_create_user_tables s tid None None None now) as (Ep & _).
  destruct (get_or_create_user s tid None None None now) as [s1 u].
  cbn [fst snd] in *. rewrite Ep.
  pose proof (query_stats_spec (predictions s) u) as E. cbv zeta in E.
  cbn [row_user_id row_is_correct Prediction_row] in E.
  rewrite E. reflexivity.
Qed.

Lemma get_or_create_user_set_predictions (s : store) (ps : list Prediction)
    (tid : Z) (a b c : option string) (now : Z) :
  snd (get_or_create_user (set_predictions s ps) tid a b c now)
  = snd (get_or_create_user s tid a b c now)
  /\ predictions (set_predictions s ps) = ps.
Proof.
  split; [|reflexivity]. unfold get_or_create_user, find_user, set_predictions.
  cbn [users next_user_id]. destruct (find _ (users s)); reflexivity.
Qed.

(** The user row the statistics are computed for, after a save for the
    same platform id. *)
Lemma user_after_save (s : store) (tid : Z) (n1 n2 n3 n4 : string)
    (q1 q2 q3 q4 : Q) (now pid now' : Z) :
  users_ok s ->
  let s' := fst (save_prediction s tid n1 n2 n3 n4 q1 q2 q3 q4 now pid) in
  let p := snd (save_prediction s tid n1 n2 n3 n4 q1 q2 q3 q4 now pid) in
  predictions s' = predictions s ++ [p]
  /\ user_id p = id (snd (get_or_create_user s tid None None None now))
  /\ prediction_created_at p = now
  /\ is_correct p = None
  /\ id (snd (get_or_create_user s' tid None None None now')) = user_id p.
Proof.
  intros Hok.
  destruct (get_or_create_user_spec s tid None None None now Hok)
    as (Hok1 & F1 & _).
  destruct (get_or_create_user_tables s tid None None None now) as (Ep & _).
  unfold save_prediction.
  destruct (get_or_create_user s tid None None None now) as [s1 u].
  cbn [fst snd] in *.
  rewrite Ep. split; [reflexivity|]. split; [reflexivity|].
  split; [reflexivity|]. split; [reflexivity|].
  rewrite (proj1 (get_or_create_user_set_predictions s1 _ tid None None None now')).
  unfold get_or_create_user. rewrite F1. reflexivity.
Qed.


Lemma sorted_head_newest {A : Type} `{PredictionRow A} (p : A) (l : list A) :
  (forall r, In r l -> (row_created_at r < row_created_at p)%Z) ->
  exists rest, order_by_desc_created_at (l ++ [p]) = p :: rest.
Proof.
  intro Hnew.
  pose proof (order_by_desc_perm (l ++ [p])) as Hperm.
  pose proof (order_by_desc_sorted (l ++ [p])) as Hsort.
  destruct (order_by_desc_created_at (l ++ [p])) as [|h rest].
  - apply Permutation_nil in Hperm. destruct l; discriminate Hperm.
  - assert (Hh : In h (l ++ [p]))
      by (apply (Permutation_in _ Hperm); now left).
    apply in_app_iff in Hh as [Hh|[<-|[]]]; [|now exists rest].
    exfalso. specialize (Hnew h Hh).
    assert (Hp : In p (h :: rest)).
    { apply (Permutation_in _ (Permutation_sym Hperm)).
      apply in_app_iff. right. now left. }
    destruct Hp as [->|Hp]; [lia|].
    apply StronglySorted_inv in Hsort as [_ Hall].
    rewrite Forall_forall in Hall. specialize (Hall p Hp). cbv beta in Hall. lia.
Qed.


(** X12: saving a prediction for one platform id leaves the statistics
    of every other registered platform id exactly as they were. *)
Theorem save_leaves_other_stats :
  forall (s : store) (tid tid' : Z) (n1 n2 n3 n4 : string) (q1 q2 q3 q4 : Q)
         (now pid now' : Z) (u' : User),
  users_ok s ->
  tid' <> tid ->
  find_user s tid' = Some u' ->
  let s' := fst (save_prediction s tid n1 n2 n3 n4 q1 q2 q3 q4 now pid) in
  snd (get_user_stats s' tid' now') = snd (get_user_stats s tid' now').
Proof.
  intros s tid tid' n1 n2 n3 n4 q1 q2 q3 q4 now pid now' u' Hok Hne F' s'.
  destruct (user_after_save s tid n1 n2 n3 n4 q1 q2 q3 q4 now pid now' Hok)
    as (Ep & Eu & _ & _ & _).
  fold s' in Ep.
  pose proof (get_or_create_user_frame s tid tid' None None None now Hok Hne)
    as Hframe.
  destruct (get_or_create_user_spec s tid None None None now Hok)
    as (Hok1 & F1 & _).
  assert (Eusr : snd (get_or_create_user s' tid' None None None now')
                 = snd (get_or_create_user s tid' None None None now')).
  { subst s'. unfold save_prediction.
    destruct (get_or_create_user s tid None None None now) as [s1 u].
    cbn [fst snd] in *.
    rewrite (proj1 (get_or_create_user_set_predictions s1 _ tid' _ _ _ now')).
    unfold get_or_create_user. rewrite Hframe, F'. reflexivity. }
  rewrite !get_user_stats_value. rewrite Eusr, Ep.
  assert (Eid : id (snd (get_or_create_user s tid' None None None now'))
                = id u')
    by (unfold get_or_create_user; rewrite F'; reflexivity).
  rewrite filter_app. cbn [filter].
  assert (Hdiff : (user_id
                     (snd (save_prediction s tid n1 n2 n3 n4 q1 q2 q3 q4 now pid))
                   =? id (snd (get_or_create_user s tid' None None None now')))%Z
                  = false).
  { apply Z.eqb_neq. rewrite Eu, Eid. intro E.
    destruct (find_user_some _ _ _ F') as [Hin' Et'].
    destruct Hok1 as (Hid1 & _).
    rewrite <- Hframe in F'.
    destruct (find_user_some _ _ _ F') as [Hin1' _].
    destruct (find_user_some _ _ _ F1) as [Hin1 Et1].
    pose proof (NoDup_map_eq id _ _ _ Hid1 Hin1 Hin1' E) as Esame.
    rewrite Esame in Et1. lia. }
  rewrite Hdiff, app_nil_r. reflexivity.
Qed.

End StatsAfterWrites.

Section StatsRange.

Import Database DatabaseWrites.

Lemma query_stats_range {A : Type} `{PredictionRow A} (table : list A)
    (u : User) :
  exists st,
    query_stats table u = Ok st
    /\ (0 <= correct_predictions st <= total_predictions st)%Z
    /\ 0 <= accuracy st /\ accuracy st <= 100
    /\ (List.length (recent_predictions st) <= 5)%nat
    /\ (Z.of_nat (List.length (recent_predictions st))
        = Z.min 5 (total_predictions st))%Z.
Proof.
  eexists. split; [apply query_stats_spec|].
  cbn [total_predictions correct_predictions accuracy recent_predictions].
  set (mine := filter (fun r => (row_user_id r =? id u)%Z) table).
  set (good := filter (fun r => is_true (row_is_correct r)) mine).
  assert (Hle : (List.length good <= List.length mine)%nat)
    by apply filter_length_le.
  split; [lia|].
  assert (Hacc : 0 <= (if (0 <? Z.of_nat (List.length mine))%Z
                       then inject_Z (Z.of_nat (List.length good))
                            / inject_Z (Z.of_nat (List.length mine)) * 100
                       else 0)
                 /\ (if (0 <? Z.of_nat (List.length mine))%Z
                     then inject_Z (Z.of_nat (List.length good))
                          / inject_Z (Z.of_nat (List.length mine)) * 100
                     else 0) <= 100).
  { destruct (0 <? Z.of_nat (List.length mine))%Z eqn:E; [|split; discriminate].
    apply Z.ltb_lt in E.
    assert (Ht : 0 < inject_Z (Z.of_nat (List.length mine)))
      by (change 0 with (inject_Z 0); now rewrite <- Zlt_Qlt).
    assert (H0 : 0 <= inject_Z (Z.of_nat (List.length good))
                      / inject_Z (Z.of_nat (List.length mine))).
    { apply Qle_shift_div_l; [exact Ht|]. rewrite Qmult_0_l.
      change 0 with (inject_Z 0). rewrite <- Zle_Qle. lia. }
    assert (H1 : inject_Z (Z.of_nat (List.length good))
                 / inject_Z (Z.of_nat (List.length mine)) <= 1).
    { apply Qle_shift_div_r; [exact Ht|]. rewrite Qmult_1_l.
      rewrite <- Zle_Qle. lia. }
    split; lra. }
  destruct Hacc as [Hlo Hhi].
  split; [apply (Qle_trans _ (round1 0)); [now vm_compute|];
          now apply round_to_mono|].
  split; [apply (Qle_trans _ (round1 100)); [|now vm_compute];
          now apply round_to_mono|].
  split; [apply firstn_le_length|].
  rewrite length_firstn.
  rewrite (Permutation_length (order_by_desc_perm mine)). lia.
Qed.

(** X13: whatever the store, the platform id and the prediction
    variant, the statistics returned have [0 <= correct <= total], an
    accuracy between 0 and 100, and exactly [min(5, total)] recent
    predictions. *)
Theorem stats_ranges :
  forall (s : store) (tid now : Z),
  ((0 <= correct_predictions (snd (get_user_stats s tid now))
      <= total_predictions (snd (get_user_stats s tid now)))%Z
   /\ 0 <= accuracy (snd (get_user_stats s tid now))
   /\ accuracy (snd (get_user_stats s tid now)) <= 100
   /\ (Z.of_nat (List.length
                   (recent_predictions (snd (get_user_stats s tid now))))
       = Z.min 5 (total_predictions (snd (get_user_stats s tid now))))%Z)
  /\ ((0 <= correct_predictions (snd (get_tennis_stats s tid now))
         <= total_predictions (snd (get_tennis_stats s tid now)))%Z
      /\ 0 <= accuracy (snd (get_tennis_stats s tid now))
      /\ accuracy (snd (get_tennis_stats s tid now)) <= 100
      /\ (Z.of_nat (List.length
                      (recent_predictions (snd (get_tennis_stats s tid now))))
          = Z.min 5 (total_predictions (snd (get_tennis_stats s tid now))))%Z)
  /\ ((0 <= correct_predictions (snd (get_basketball_stats s tid now))
         <= total_predictions (snd (get_basketball_stats s tid now)))%Z
      /\ 0 <= accuracy (snd (get_basketball_stats s tid now))
      /\ accuracy (snd (get_basketball_stats s tid now)) <= 100
      /\ (Z.of_nat
            (List.length
               (recent_predictions (snd (get_basketball_stats s tid now))))
          = Z.min 5
              (total_predictions (snd (get_basketball_stats s tid now))))%Z).
Proof.
  intros s tid now.
  unfold get_user_stats, get_tennis_stats, get_basketball_stats.
  destruct (get_or_create_user s tid None None None now) as [s1 u].
  cbn [snd].
  destruct (query_stats_range (predictions s1) u)
    as (st1 & -> & H1 & H2 & H3 & _ & H4).
  destruct (query_stats_range (tennis_predictions s1) u)
    as (st2 & -> & G1 & G2 & G3 & _ & G4).
  destruct (query_stats_range (basketball_predictions s1) u)
    as (st3 & -> & K1 & K2 & K3 & _ & K4).
  cbn [stats_or_default]. repeat split; assumption || lia.
Qed.


End StatsRange.

Section ValueBets.

Import Database DatabaseWrites.

(** Larger edge first. *)
Let by_edge (a b : ValueBet) : Prop := bet_edge b <= bet_edge a.

Lemma insert_by_edge_perm (b : ValueBet) (l : list ValueBet) :
  Permutation (insert_by_edge b l) (b :: l).
Proof.
  induction l as [|c l IH]; cbn [insert_by_edge]; [reflexivity|].
  destruct (Qgt_bool (bet_edge b) (bet_edge c)); [reflexivity|].
  rewrite IH. apply perm_swap.
Qed.

Lemma order_by_desc_edge_perm (l : list ValueBet) :
  Permutation (order_by_desc_edge l) l.
Proof.
  induction l as [|b l IH]; cbn [order_by_desc_edge]; [reflexivity|].
  rewrite insert_by_edge_perm. now constructor.
Qed.

Lemma insert_by_edge_sorted (b : ValueBet) (l : list ValueBet) :
  StronglySorted by_edge l -> StronglySorted by_edge (insert_by_edge b l).
Proof.
  induction 1 as [|c l Hs IH Hc]; cbn [insert_by_edge].
  - repeat constructor.
  - destruct (Qgt_bool (bet_edge b) (bet_edge c)) eqn:E.
    + apply Qgt_bool_true in E. constructor; [now constructor|].
      constructor; [unfold by_edge; lra|].
      eapply Forall_impl; [|exact Hc]. unfold by_edge. intros; lra.
    + apply Qgt_bool_false in E. constructor; [exact IH|].
      apply (Permutation_Forall (Permutation_sym (insert_by_edge_perm b l))).
      constructor; [exact E | exact Hc].
Qed.

Lemma order_by_desc_edge_sorted (l : list ValueBet) :
  StronglySorted by_edge (order_by_desc_edge l).
Proof.
  induction l as [|b l IH]; cbn [order_by_desc_edge].
  - constructor.
  - now apply insert_by_edge_sorted.
Qed.

Lemma sorted_app_cross {A : Type} (R : A -> A -> Prop) (l1 l2 : list A) :
  StronglySorted R (l1 ++ l2) ->
  forall a b, In a l1 -> In b l2 -> R a b.
Proof.
  induction l1 as [|x l1 IH]; intros Hs a b Ha Hb; [contradiction|].
  cbn [app] in Hs. apply StronglySorted_inv in Hs as [Hs Hx].
  destruct Ha as [<-|Ha].
  - rewrite Forall_forall in Hx. apply Hx, in_app_iff. now right.
  - now apply IH.
Qed.

Lemma sorted_firstn {A : Type} (R : A -> A -> Prop) (n : nat) (l : list A) :
  StronglySorted R l -> StronglySorted R (firstn n l).
Proof.
  intro Hs. revert n. induction Hs as [|x l Hs IH Hx]; intro n.
  - rewrite firstn_nil. constructor.
  - destruct n; cbn [firstn]; constructor; [apply IH|].
    rewrite Forall_forall in *. intros y Hy. apply Hx.
    rewrite <- (firstn_skipn n l). apply in_app_iff. now left.
Qed.

(** X15: [get_todays_value_bets] returns at most 10 bets, all of them
    rows of the table that are active and expire strictly after the
    current instant and strictly less than one day later, in order of
    descending edge; a bet of the table that qualifies and is left out
    has an edge no larger than any returned one, and nothing is left
    out when at most 10 bets qualify. *)
Theorem value_bets_selection :
  forall (table : list ValueBet) (today : Z),
  let bets := get_todays_value_bets table today in
  (List.length bets <= 10)%nat
  /\ (forall b, In b bets ->
        In b table
        /\ bet_is_active b = Some true
        /\ exists e, expires_at b = Some e
                     /\ (today < e < today + one_day)%Z)
  /\ StronglySorted (fun a b => bet_edge b <= bet_edge a) bets
  /\ (forall b c, In b table -> bet_is_current today b = true ->
        ~ In b bets -> In c bets -> bet_edge b <= bet_edge c)
  /\ ((List.length (filter (bet_is_current today) table) <= 10)%nat ->
      Permutation bets (filter (bet_is_current today) table)).
Proof.
  intros table today bets. subst bets. unfold get_todays_value_bets.
  set (cur := filter (bet_is_current today) table).
  pose proof (order_by_desc_edge_perm cur) as Hperm.
  pose proof (order_by_desc_edge_sorted cur) as Hsort.
  split; [apply firstn_le_length|].
  split; [|split; [|split]].
  - intros b Hb.
    assert (Hc : In b cur).
    { apply (Permutation_in _ Hperm).
      rewrite <- (firstn_skipn 10 (order_by_desc_edge cur)).
      apply in_app_iff. now left. }
    apply filter_In in Hc as [Hin Hc]. split; [exact Hin|].
    unfold bet_is_current in Hc. apply andb_true_iff in Hc as [Ha He].
    split.
    + destruct (bet_is_active b) as [[|]|]; [reflexivity | discriminate Ha
                                            | discriminate Ha].
    + destruct (expires_at b) as [e|]; [|discriminate He].
      exists e. split; [reflexivity|].
      apply andb_true_iff in He as [H1 H2].
      apply Z.ltb_lt in H1. apply Z.ltb_lt in H2. lia.
  - now apply sorted_firstn.
  - intros b c Hin Hcur Hout Hc.
    assert (Hb : In b (order_by_desc_edge cur)).
    { apply (Permutation_in _ (Permutation_sym Hperm)).
      apply filter_In. now split. }
    rewrite <- (firstn_skipn 10 (order_by_desc_edge cur)) in Hb, Hsort.
    apply in_app_iff in Hb as [Hb|Hb]; [contradiction|].
    apply (sorted_app_cross _ _ _ Hsort c b Hc Hb).
  - intro Hlen. rewrite firstn_all2; [exact Hperm|].
    rewrite (Permutation_length Hperm). exact Hlen.
Qed.

End ValueBets.

(** ** The theorems on the sample store *)

Lemma sample_store_constraints : DatabaseWrites.store_ok Database.sample_store.
Proof.
  split; [exact sample_store_ok|].
  unfold DatabaseWrites.fk_ok, Database.sample_store. cbn.
  split; [|split; constructor].
  repeat (constructor; [now left|]). constructor.
Defined.



Lemma sample_store_older :
  forall r, In r (Database.predictions Database.sample_store) ->
    Database.user_id r
    = Database.id
        (snd (Database.get_or_create_user Database.sample_store 77
                None None None 200)) ->
    (Database.prediction_created_at r < 200)%Z.
Proof.
  intros r [<-|[<-|[<-|[]]]] _; reflexivity.
Defined.


Lemma save_leaves_other_stats_witness :
  Database.users_ok Database.sample_store
  /\ 77%Z <> 88%Z
  /\ snd (Database.get_user_stats
            (fst (DatabaseWrites.save_prediction Database.sample_store 88
                    "Roma" "Lazio" "Quick Prediction" "1"
                    (547 # 10) 20 32 (547 # 10) 200 4))
            77 300)
     = snd (Database.get_user_stats Database.sample_store 77 300).
Proof.
  assert (Hne : 77%Z <> 88%Z) by discriminate.
  split; [exact sample_store_ok|]. split; [exact Hne|].
  exact (save_leaves_other_stats Database.sample_store 88 77
           "Roma" "Lazio" "Quick Prediction" "1"
           (547 # 10) 20 32 (547 # 10) 200 4 300 _
           sample_store_ok Hne eq_refl).
Defined.

(** * Properties of the bot *)

Section Gate.

Import Bot.

Lemma mem_set_add (x y : Z) (s : list Z) :
  mem y (set_add x s) = (Z.eqb y x || mem y s)%bool.
Proof.
  unfold set_add. destruct (mem x s) eqn:E; [|reflexivity].
  destruct (Z.eqb y x) eqn:Exy; [|reflexivity].
  apply Z.eqb_eq in Exy. subst y. now rewrite E.
Qed.

(** X16: [add_user] reports whether the user is new, makes the user a
    member, keeps every other membership as it was, and a second call
    for the same user changes nothing and reports [False]. *)
Theorem add_user_idempotent :
  forall (st : SimpleUserStorage) (user_id : Z),
  let st1 := fst (add_user st user_id) in
  snd (add_user st user_id) = negb (mem user_id (allowed_users st))
  /\ mem user_id (allowed_users st1) = true
  /\ (forall v, v <> user_id ->
        mem v (allowed_users st1) = mem v (allowed_users st))
  /\ (forall v, mem v (allowed_users st) = true ->
        mem v (allowed_users st1) = true)
  /\ add_user st1 user_id = (st1, false).
Proof.
  intros st user_id st1. subst st1. unfold add_user.
  destruct (mem user_id (allowed_users st)) eqn:E; cbn [negb fst snd].
  - split; [reflexivity|]. split; [exact E|]. split; [reflexivity|].
    split; [tauto|]. now rewrite E.
  - cbn [allowed_users].
    assert (Hin : mem user_id (set_add user_id (allowed_users st)) = true)
      by (rewrite mem_set_add, Z.eqb_refl; reflexivity).
    split; [reflexivity|]. split; [exact Hin|].
    split; [|split].
    + intros v Hv. rewrite mem_set_add.
      assert (Ev : Z.eqb v user_id = false) by now apply Z.eqb_neq.
      now rewrite Ev.
    + intros v Hv. rewrite mem_set_add, Hv. apply orb_true_r.
    + rewrite Hin. reflexivity.
Qed.

(** X17: what the access gate does with an update.  The handler is
    called exactly when the sender is allowed, and then the storage is
    untouched; a refusal leaves the storage untouched too; the storage
    changes only when the invite code is redeemed, and then only by
    gaining the sender; no user ever loses access; the gate raises
    exactly when a sender who is not allowed sends an update without a
    message (and no invite code can then be read).  With invite-only
    mode off every update reaches its handler. *)
Theorem access_gate_cases :
  forall (invite_only : bool) (st : SimpleUserStorage) (u : update_t),
  match access_control invite_only st u with
  | Ok (st', HandlerCalled) =>
      is_user_allowed invite_only st (effective_user_id u) = true /\ st' = st
  | Ok (st', AccessRestricted) =>
      is_user_allowed invite_only st (effective_user_id u) = false
      /\ redeems_invite u = false /\ message u <> None /\ st' = st
  | Ok (st', InvitationAccepted) =>
      is_user_allowed invite_only st (effective_user_id u) = false
      /\ redeems_invite u = true
      /\ is_user_allowed invite_only st' (effective_user_id u) = true
      /\ (forall v, v <> effective_user_id u ->
            mem v (allowed_users st') = mem v (allowed_users st))
  | Raise e =>
      e = AttributeError
      /\ is_user_allowed invite_only st (effective_user_id u) = false
      /\ message u = None
  end
  /\ access_control false st u = Ok (st, HandlerCalled).
Proof.
  intros invite_only st u. split; [|reflexivity].
  unfold access_control.
  destruct (is_user_allowed invite_only st (effective_user_id u)) eqn:A;
    cbn [negb]; [split; reflexivity|].
  destruct (redeems_invite u) eqn:R.
  - destruct (add_user_idempotent st (effective_user_id u))
      as (_ & Hin & Hother & _).
    cbv zeta in Hin, Hother.
    split; [reflexivity|]. split; [reflexivity|]. split; [|exact Hother].
    unfold is_user_allowed in *. destruct (negb invite_only); [reflexivity|].
    exact Hin.
  - destruct (message u) eqn:M.
    + repeat split; discriminate.
    + repeat split.
Qed.

(** X18: redeeming the invite code works as a two-step flow.  When a
    sender who is not allowed sends a text that starts with "/start" and
    whose second word is "invite123", the gate answers with the welcome
    without calling the handler, and from then on every update of that
    sender reaches its handler, with the storage left as it is. *)
Theorem invite_then_access :
  forall (st : SimpleUserStorage) (uid : Z) (text : string) (first : string)
         (more : list string),
  is_user_allowed true st uid = false ->
  String.prefix "/start" text = true ->
  split text = first :: "invite123"%string :: more ->
  exists st',
    access_control true st
      {| effective_user_id := uid; message := Some (Some text) |}
    = Ok (st', InvitationAccepted)
    /\ (forall m,
          access_control true st' {| effective_user_id := uid; message := m |}
          = Ok (st', HandlerCalled)).
Proof.
  intros st uid text first more Hno Hpre Hsplit.
  assert (Ht : truthy text = true)
    by (destruct text; [discriminate Hpre | reflexivity]).
  assert (R : redeems_invite
                {| effective_user_id := uid; message := Some (Some text) |}
              = true).
  { unfold redeems_invite. cbn [message]. rewrite Ht, Hpre, Hsplit.
    reflexivity. }
  exists (fst (add_user st uid)). unfold access_control.
  cbn [effective_user_id]. rewrite Hno, R. cbn [negb].
  split; [reflexivity|]. intro m.
  destruct (add_user_idempotent st uid) as (_ & Hin & _).
  cbv zeta in Hin. unfold is_user_allowed. cbn [negb]. rewrite Hin.
  reflexivity.
Qed.

Lemma invite_then_access_witness :
  is_user_allowed true {| allowed_users := [1%Z]; subscribers := [] |} 42 = false
  /\ String.prefix "/start" "/start invite123" = true
  /\ split "/start invite123" = ["/start"; "invite123"]%string
  /\ exists st',
       access_control true {| allowed_users := [1%Z]; subscribers := [] |}
         {| effective_user_id := 42;
            message := Some (Some "/start invite123"%string) |}
       = Ok (st', InvitationAccepted)
       /\ (forall m,
             access_control true st'
               {| effective_user_id := 42; message := m |}
             = Ok (st', HandlerCalled)).
Proof.
  split; [reflexivity|]. split; [reflexivity|]. split; [reflexivity|].
  exact (invite_then_access {| allowed_users := [1%Z]; subscribers := [] |} 42
           "/start invite123" "/start" [] eq_refl eq_refl eq_refl).
Defined.

End Gate.

Section BotStandings.

Import Bot.

Lemma standing_row_raises (i : Z) (t : string) (d : team_draws) :
  draws_in_range d ->
  draw_won d = (draw_played d - 5)%Z ->
  standing_row i t d = Raise ValueError.
Proof.
  intros (Hp & Hw & _) Hbad. unfold standing_row, randint.
  assert (E1 : (20 <=? 30)%Z = true) by reflexivity.
  assert (E2 : (draw_played d / 2 <=? draw_played d - 5)%Z = true)
    by (apply Z.leb_le; lia).
  assert (E3 : (3 <=? draw_played d - draw_won d - 3)%Z = false)
    by (apply Z.leb_gt; lia).
  rewrite E1. cbn [bind]. rewrite E2. cbn [bind]. rewrite E3. reflexivity.
Qed.

Lemma standing_row_returns (i : Z) (t : string) (d : team_draws) :
  draws_in_range d ->
  (draw_won d <= draw_played d - 6)%Z ->
  exists r,
    standing_row i t d = Ok r
    /\ position r = i /\ team r = t /\ row_consistent r.
Proof.
  intros (Hp & Hw & Hd & Hgf & Hga) Hgood. unfold standing_row, randint.
  assert (E1 : (20 <=? 30)%Z = true) by reflexivity.
  assert (E2 : (draw_played d / 2 <=? draw_played d - 5)%Z = true)
    by (apply Z.leb_le; lia).
  assert (E3 : (3 <=? draw_played d - draw_won d - 3)%Z = true)
    by (apply Z.leb_le; lia).
  assert (E4 : (30 <=? 70)%Z = true) by reflexivity.
  assert (E5 : (15 <=? 50)%Z = true) by reflexivity.
  rewrite E1. cbn [bind]. rewrite E2. cbn [bind]. rewrite E3. cbn [bind].
  rewrite E4. cbn [bind]. rewrite E5. cbn [bind].
  eexists. split; [reflexivity|]. split; [reflexivity|].
  split; [reflexivity|]. unfold row_consistent.
  cbn [played won draw lost gf ga gd points]. lia.
Qed.

Lemma standing_rows_raise (teams : list string) (draws : nat -> team_draws) :
  forall k : nat,
  (forall j, (j < List.length teams)%nat -> draws_in_range (draws (k + j)%nat)) ->
  (exists j, (j < List.length teams)%nat
             /\ draw_won (draws (k + j)%nat)
                = (draw_played (draws (k + j)%nat) - 5)%Z) ->
  standing_rows teams k draws = Raise ValueError.
Proof.
  induction teams as [|t rest IH]; intros k Hr (j & Hj & Hbad);
    cbn [List.length] in *; [lia|].
  cbn [standing_rows].
  assert (Hr0 : draws_in_range (draws k)).
  { specialize (Hr 0%nat). rewrite Nat.add_0_r in Hr. apply Hr. lia. }
  destruct (Z.eq_dec (draw_won (draws k)) (draw_played (draws k) - 5))
    as [E|E].
  - now rewrite standing_row_raises.
  - destruct (standing_row_returns (Z.of_nat (S k)) t (draws k) Hr0)
      as (r & -> & _); [destruct Hr0 as (_ & Hw & _); lia|].
    cbn [bind]. rewrite IH; [reflexivity | |].
    + intros j' Hj'. replace (S k + j')%nat with (k + S j')%nat by lia.
      apply Hr. lia.
    + destruct j as [|j'].
      * rewrite Nat.add_0_r in Hbad. contradiction.
      * exists j'. split; [lia|].
        replace (S k + j')%nat with (k + S j')%nat by lia. exact Hbad.
Qed.

Lemma standing_rows_return (all_teams : list string)
    (draws : nat -> team_draws) :
  forall (teams : list string) (k : nat),
  (forall j, (j < List.length teams)%nat ->
             draws_in_range (draws (k + j)%nat)
             /\ (draw_won (draws (k + j)%nat)
                 <= draw_played (draws (k + j)%nat) - 6)%Z) ->
  (forall j, nth_error teams j = nth_error all_teams (k + j)) ->
  exists rows,
    standing_rows teams k draws = Ok rows
    /\ map team rows = teams
    /\ Forall row_consistent rows
    /\ Forall (fun r => exists j,
                 position r = Z.of_nat (S j)
                 /\ nth_error all_teams j = Some (team r)) rows.
Proof.
  induction teams as [|t rest IH]; intros k Hr Hnth; cbn [standing_rows].
  - exists []. repeat split; constructor.
  - destruct (Hr 0%nat) as [Hr0 Hg0]; [cbn; lia|].
    rewrite Nat.add_0_r in Hr0, Hg0.
    destruct (standing_row_returns (Z.of_nat (S k)) t (draws k) Hr0 Hg0)
      as (r & -> & Epos & Eteam & Hrow).
    cbn [bind].
    destruct (IH (S k)) as (rows & -> & Emap & Hrows & Hpos).
    + intros j Hj. replace (S k + j)%nat with (k + S j)%nat by lia.
      apply Hr. cbn. lia.
    + intros j. replace (S k + j)%nat with (k + S j)%nat by lia.
      apply (Hnth (S j)).
    + cbn [bind]. exists (r :: rows).
      split; [reflexivity|]. cbn [map]. rewrite Eteam, Emap.
      split; [reflexivity|]. split; [now constructor|].
      constructor; [|exact Hpos].
      exists k. split; [exact Epos|].
      rewrite Eteam. specialize (Hnth 0%nat). rewrite Nat.add_0_r in Hnth.
      now rewrite <- Hnth.
Qed.

Lemma insert_by_points_perm (x : standing) (l : list standing) :
  Permutation (insert_by_points x l) (x :: l).
Proof.
  induction l as [|y l IH]; cbn [insert_by_points]; [reflexivity|].
  destruct (points y <=? points x)%Z; [reflexivity|].
  rewrite IH. apply perm_swap.
Qed.

Lemma sort_by_points_perm (l : list standing) :
  Permutation (sort_by_points l) l.
Proof.
  induction l as [|x l IH]; cbn [sort_by_points]; [reflexivity|].
  rewrite insert_by_points_perm. now constructor.
Qed.

Lemma insert_by_points_sorted (x : standing) (l : list standing) :
  StronglySorted (fun a b => (points b <= points a)%Z) l ->
  StronglySorted (fun a b => (points b <= points a)%Z) (insert_by_points x l).
Proof.
  induction 1 as [|y l Hs IH Hy]; cbn [insert_by_points].
  - repeat constructor.
  - destruct (points y <=? points x)%Z eqn:E.
    + apply Z.leb_le in E. constructor; [now constructor|].
      constructor; [exact E|].
      eapply Forall_impl; [|exact Hy]. cbv beta. intros; lia.
    + apply Z.leb_gt in E. constructor; [exact IH|].
      apply (Permutation_Forall (Permutation_sym (insert_by_points_perm x l))).
      constructor; [lia | exact Hy].
Qed.

Lemma sort_by_points_sorted (l : list standing) :
  StronglySorted (fun a b => (points b <= points a)%Z) (sort_by_points l).
Proof.
  induction l as [|x l IH]; cbn [sort_by_points].
  - constructor.
  - now apply insert_by_points_sorted.
Qed.

(** X19: the simulated standings of the bot raise [ValueError] as soon
    as, for one team of the league, the number drawn for the games won
    is the largest the draw allows ([played - 5]): the next draw, for
    the games drawn, is then asked from the empty range [3, 2]. *)
Theorem bot_standings_raise :
  forall (league_code name : string) (teams : list string)
         (draws : nat -> team_draws),
  assoc league_code leagues = Some name ->
  assoc league_code teams_map = Some teams ->
  (forall k, (k < List.length teams)%nat -> draws_in_range (draws k)) ->
  (exists k, (k < List.length teams)%nat
             /\ draw_won (draws k) = (draw_played (draws k) - 5)%Z) ->
  get_standings league_code draws = Raise ValueError.
Proof.
  intros league_code name teams draws Hl Ht Hr Hbad.
  unfold get_standings. rewrite Hl, Ht.
  rewrite (standing_rows_raise teams draws 0); [reflexivity | exact Hr | exact Hbad].
Qed.

(** X20: when no team draws [played - 5] games won, the simulated
    standings of the bot hold one row per team of the league, in order
    of descending points; in every row the games played are the sum of
    won, drawn and lost with at least 3 drawn and 3 lost, the points are
    [3 * won + draw] and the goal difference is [gf - ga]; the
    [position] of a row is the number of its team in the league's list,
    given before the sort, not its rank in the table. *)
Theorem bot_standings_rows :
  forall (league_code name : string) (teams : list string)
         (draws : nat -> team_draws),
  assoc league_code leagues = Some name ->
  assoc league_code teams_map = Some teams ->
  (forall k, (k < List.length teams)%nat ->
             draws_in_range (draws k)
             /\ (draw_won (draws k) <= draw_played (draws k) - 6)%Z) ->
  exists r,
    get_standings league_code draws = Ok r
    /\ league_name r = name
    /\ Permutation (map team (standings r)) teams
    /\ StronglySorted (fun a b => (points b <= points a)%Z) (standings r)
    /\ Forall row_consistent (standings r)
    /\ Forall (fun row => exists j,
                 position row = Z.of_nat (S j)
                 /\ nth_error teams j = Some (team row)) (standings r).
Proof.
  intros league_code name teams draws Hl Ht Hr.
  unfold get_standings. rewrite Hl, Ht.
  destruct (standing_rows_return teams draws teams 0 Hr (fun j => eq_refl))
    as (rows & -> & Emap & Hrows & Hpos).
  cbn [bind]. eexists. split; [reflexivity|].
  cbn [league_name standings].
  pose proof (sort_by_points_perm rows) as Hperm.
  split; [reflexivity|].
  split; [rewrite <- Emap; now apply Permutation_map|].
  split; [apply sort_by_points_sorted|].
  split; apply (Permutation_Forall (Permutation_sym Hperm)); assumption.
Qed.

End BotStandings.

Lemma unlucky_draws_in_range :
  Bot.draws_in_range
    {| Bot.draw_played := 25; Bot.draw_won := 20; Bot.draw_draw := 3;
       Bot.draw_gf := 40; Bot.draw_ga := 20 |}.
Proof.
  unfold Bot.draws_in_range. cbn [Bot.draw_played Bot.draw_won Bot.draw_draw
                                  Bot.draw_gf Bot.draw_ga].
  change (25 / 2)%Z with 12%Z. lia.
Defined.

Lemma bot_standings_raise_witness :
  Bot.assoc "SA" Bot.leagues = Some "Serie A"%string
  /\ Bot.draw_won
       {| Bot.draw_played := 25; Bot.draw_won := 20; Bot.draw_draw := 3;
          Bot.draw_gf := 40; Bot.draw_ga := 20 |}
     = (25 - 5)%Z
  /\ Bot.get_standings "SA"
       (fun _ => {| Bot.draw_played := 25; Bot.draw_won := 20;
                    Bot.draw_draw := 3; Bot.draw_gf := 40;
                    Bot.draw_ga := 20 |})
     = Raise ValueError.
Proof.
  split; [reflexivity|]. split; [reflexivity|].
  apply (bot_standings_raise "SA" "Serie A"
           ["Inter"; "Milan"; "Juventus"; "Napoli"; "Roma"; "Lazio";
            "Atalanta"; "Fiorentina"]%string
           (fun _ => {| Bot.draw_played := 25; Bot.draw_won := 20;
                        Bot.draw_draw := 3; Bot.draw_gf := 40;
                        Bot.draw_ga := 20 |})
           eq_refl eq_refl).
  - intros k _. exact unlucky_draws_in_range.
  - exists 0%nat. split; [apply Nat.lt_0_succ | reflexivity].
Defined.

Lemma fair_draws_in_range :
  Bot.draws_in_range
    {| Bot.draw_played := 25; Bot.draw_won := 15; Bot.draw_draw := 4;
       Bot.draw_gf := 40; Bot.draw_ga := 20 |}
  /\ (15 <= 25 - 6)%Z.
Proof.
  unfold Bot.draws_in_range. cbn [Bot.draw_played Bot.draw_won Bot.draw_draw
                                  Bot.draw_gf Bot.draw_ga].
  change (25 / 2)%Z with 12%Z. lia.
Defined.

Lemma bot_standings_rows_witness :
  Bot.assoc "SA" Bot.leagues = Some "Serie A"%string
  /\ exists r,
       Bot.get_standings "SA"
         (fun _ => {| Bot.draw_played := 25; Bot.draw_won := 15;
                      Bot.draw_draw := 4; Bot.draw_gf := 40;
                      Bot.draw_ga := 20 |})
       = Ok r
       /\ Bot.league_name r = "Serie A"%string.
Proof.
  split; [reflexivity|].
  destruct (bot_standings_rows "SA" "Serie A"
              ["Inter"; "Milan"; "Juventus"; "Napoli"; "Roma"; "Lazio";
               "Atalanta"; "Fiorentina"]%string
              (fun _ => {| Bot.draw_played := 25; Bot.draw_won := 15;
                           Bot.draw_draw := 4; Bot.draw_gf := 40;
                           Bot.draw_ga := 20 |})
              eq_refl eq_refl (fun k _ => fair_draws_in_range))
    as (r & Er & En & _).
  exists r. split; assumption.
Defined.

(** * Properties of the API client and of the fallback *)

Section Fallback.

Import ApiClient Fetch.

Lemma make_request_no_data (o : http_outcome) :
  no_data o ->
  _make_request o = Ok None
  \/ exists r, _make_request o = Ok (Some r) /\ json_truthy r = false.
Proof.
  destruct o as [|status body]; intro H; [now left|].
  unfold _make_request.
  destruct ((400 <=? status) && (status <? 600))%Z eqn:E; [now left|].
  destruct H as [H|(kv & -> & H)].
  - exfalso. assert (E' : ((400 <=? status) && (status <? 600))%Z = true).
    { apply andb_true_iff. split; [apply Z.leb_le | apply Z.ltb_lt]; lia. }
    congruence.
  - cbn [get bind]. destruct H as [H|H].
    + rewrite H. now left.
    + destruct (json_truthy
                  match lookup kv "errors" with Some e => e | None => JNull end);
        [now left|].
      right. eexists. split; [reflexivity | exact H].
Qed.

Lemma respond_no_data {B : Type} (fmt : list json -> B) (sim : B) (r : json) :
  json_truthy r = false -> respond fmt sim (Some r) = Ok sim.
Proof. intro H. unfold respond. now rewrite H. Qed.

(** X21: whenever a request carries no data (it failed, the status is
    4xx or 5xx, the payload has a non-empty [errors] field, or its
    [response] is missing or empty), every manager returns its
    simulation and none raises: today's tennis matches, the tennis
    rankings, today's basketball games and today's football fixtures. *)
Theorem no_data_falls_back :
  forall (api_key tour_ : string) (o : http_outcome)
         (sim_t : list Tennis.match_t) (sim_r : Tennis.rankings_t)
         (sim_b : list Basketball.game_t),
  no_data o ->
  tennis_todays_matches api_key o sim_t = Ok sim_t
  /\ tennis_rankings api_key tour_ o sim_r = Ok sim_r
  /\ basketball_todays_matches api_key o sim_b = Ok sim_b
  /\ football_todays_matches api_key o = Football._get_simulated_matches.
Proof.
  intros api_key tour_ o sim_t sim_r sim_b H.
  unfold tennis_todays_matches, tennis_rankings, basketball_todays_matches,
    football_todays_matches.
  destruct (truthy api_key) eqn:Hk; cbn [negb]; [|repeat split].
  destruct (make_request_no_data o H) as [->|(r & -> & Hr)]; cbn [bind].
  - repeat split.
  - rewrite !respond_no_data by exact Hr.
    split; [reflexivity|]. split; [reflexivity|]. split; [reflexivity|].
    destruct r as [| | | |l|]; try reflexivity.
    destruct l; [|discriminate Hr].
    unfold Football.get_todays_matches. now rewrite Hk.
Qed.

Lemma no_data_falls_back_witness :
  no_data (Response 200
             (JDict [("errors", JList [JStr "rate limit"]);
                     ("response", JList [sample_fixture])]%string))
  /\ football_todays_matches "key"
       (Response 200
          (JDict [("errors", JList [JStr "rate limit"]);
                  ("response", JList [sample_fixture])]%string))
     = Football._get_simulated_matches.
Proof.
  assert (H : no_data (Response 200
                (JDict [("errors", JList [JStr "rate limit"]);
                        ("response", JList [sample_fixture])]%string))).
  { right. eexists. split; [reflexivity|]. left. reflexivity. }
  split; [exact H|].
  exact (proj2 (proj2 (proj2
           (no_data_falls_back "key" "atp" _ [] 
              {| Tennis.tour := "ATP"; Tennis.rankings := [] |} [] H)))).
Defined.

(** X22: a successful answer whose body is not a JSON object makes
    [_make_request] raise [AttributeError], which only the football
    manager catches: it returns its simulation, while the tennis and the
    basketball managers let the exception through. *)
Theorem non_object_body :
  forall (api_key tour_ : string) (status : Z) (body : json)
         (sim_t : list Tennis.match_t) (sim_r : Tennis.rankings_t)
         (sim_b : list Basketball.game_t),
  truthy api_key = true ->
  ~ (400 <= status < 600)%Z ->
  (forall kv, body <> JDict kv) ->
  _make_request (Response status body) = Raise AttributeError
  /\ tennis_todays_matches api_key (Response status body) sim_t
     = Raise AttributeError
  /\ tennis_rankings api_key tour_ (Response status body) sim_r
     = Raise AttributeError
  /\ basketball_todays_matches api_key (Response status body) sim_b
     = Raise AttributeError
  /\ football_todays_matches api_key (Response status body)
     = Football._get_simulated_matches.
Proof.
  intros api_key tour_ status body sim_t sim_r sim_b Hk Hs Hb.
  assert (E : _make_request (Response status body) = Raise AttributeError).
  { unfold _make_request.
    assert (E' : ((400 <=? status) && (status <? 600))%Z = false).
    { apply andb_false_iff.
      destruct (Z_lt_ge_dec status 400);
        [left; apply Z.leb_gt | right; apply Z.ltb_ge]; lia. }
    rewrite E'. destruct body; try reflexivity. now elim (Hb kv). }
  unfold tennis_todays_matches, tennis_rankings, basketball_todays_matches,
    football_todays_matches.
  rewrite Hk, E. repeat split.
Qed.

Lemma empty_list_not_object : forall kv, JList [] <> JDict kv.
Proof. intros kv E. discriminate E. Defined.

Lemma non_object_body_witness :
  truthy "key" = true
  /\ ~ (400 <= 200 < 600)%Z
  /\ tennis_todays_matches "key" (Response 200 (JList [])) []
     = Raise AttributeError.
Proof.
  assert (H1 : ~ (400 <= 200 < 600)%Z) by (intros [H _]; now apply H).
  split; [reflexivity|]. split; [exact H1|].
  exact (proj1 (proj2
           (non_object_body "key" "atp" 200 (JList []) []
              {| Tennis.tour := "ATP"; Tennis.rankings := [] |} []
              eq_refl H1 empty_list_not_object))).
Defined.

(** X23: with a key, a 2xx answer without errors whose [response] is a
    non-empty list is what the managers format: the tennis and the
    basketball managers return the formatted slice of the list, and the
    football manager returns what it maps from the list itself. *)
Theorem list_response_is_formatted :
  forall (api_key tour_ : string) (status : Z) (kv : list (string * json))
         (x : json) (l : list json)
         (sim_t : list Tennis.match_t) (sim_r : Tennis.rankings_t)
         (sim_b : list Basketball.game_t),
  truthy api_key = true ->
  ~ (400 <= status < 600)%Z ->
  json_truthy (match lookup kv "errors" with Some e => e | None => JNull end)
  = false ->
  lookup kv "response" = Some (JList (x :: l)) ->
  tennis_todays_matches api_key (Response status (JDict kv)) sim_t
  = Ok (Tennis.get_todays_matches api_key (Some (x :: l)) sim_t)
  /\ tennis_rankings api_key tour_ (Response status (JDict kv)) sim_r
     = Ok (Tennis.get_rankings api_key tour_ (Some (x :: l)) sim_r)
  /\ basketball_todays_matches api_key (Response status (JDict kv)) sim_b
     = Ok (Basketball.get_todays_matches api_key (Some (x :: l)) sim_b)
  /\ football_todays_matches api_key (Response status (JDict kv))
     = Football.get_todays_matches api_key (Some (x :: l)).
Proof.
  intros api_key tour_ status kv x l sim_t sim_r sim_b Hk Hs He Hr.
  assert (E : _make_request (Response status (JDict kv))
              = Ok (Some (JList (x :: l)))).
  { unfold _make_request.
    assert (E' : ((400 <=? status) && (status <? 600))%Z = false).
    { apply andb_false_iff.
      destruct (Z_lt_ge_dec status 400);
        [left; apply Z.leb_gt | right; apply Z.ltb_ge]; lia. }
    rewrite E'. cbn [get bind]. rewrite He, Hr. reflexivity. }
  unfold tennis_todays_matches, tennis_rankings, basketball_todays_matches,
    football_todays_matches, Tennis.get_todays_matches, Tennis.get_rankings,
    Basketball.get_todays_matches.
  rewrite Hk, E. cbn [negb bind]. repeat split.
Qed.

Lemma list_response_is_formatted_witness :
  truthy "key" = true
  /\ ~ (400 <= 200 < 600)%Z
  /\ football_todays_matches "key"
       (Response 200
          (JDict [("errors", JList []);
                  ("response", JList [sample_fixture])]%string))
     = Football.get_todays_matches "key" (Some [sample_fixture]).
Proof.
  assert (H1 : ~ (400 <= 200 < 600)%Z) by (intros [H _]; now apply H).
  split; [reflexivity|]. split; [exact H1|].
  exact (proj2 (proj2 (proj2
           (list_response_is_formatted "key" "atp" 200
              [("errors", JList []); ("response", JList [sample_fixture])]%string
              sample_fixture [] []
              {| Tennis.tour := "ATP"; Tennis.rankings := [] |} []
              eq_refl H1 eq_refl eq_refl)))).
Defined.

End Fallback.

(** * Properties of the football standings *)

Section FootballTable.

Import ApiClient FootballStandings.

Lemma api_table_payload (name : string) (ranks : list json) :
  api_table name (standings_payload ranks)
  = and_then (map_ranks ranks)
      (fun rows => Some {| league_name := name; standings := rows |}).
Proof. reflexivity. Qed.

Lemma map_ranks_all (ranks : list json) :
  (forall r, In r ranks -> exists row, map_rank r = Ok row) ->
  exists rows,
    map_ranks ranks = Some rows
    /\ Forall2 (fun r row => map_rank r = Ok row) ranks rows.
Proof.
  induction ranks as [|r rest IH]; intro H; cbn [map_ranks].
  - exists []. split; [reflexivity | constructor].
  - destruct (H r (or_introl eq_refl)) as (row & Er).
    destruct IH as (rows & Erows & Hall); [intros; apply H; now right|].
    rewrite Er, Erows. cbn. exists (row :: rows).
    split; [reflexivity | now constructor].
Qed.

Lemma map_ranks_bad (ranks : list json) (bad : json) (e : exn) :
  In bad ranks -> map_rank bad = Raise e -> map_ranks ranks = None.
Proof.
  induction ranks as [|r rest IH]; intros Hin Hbad; [contradiction|].
  cbn [map_ranks]. destruct Hin as [->|Hin].
  - now rewrite Hbad.
  - destruct (map_rank r); [|reflexivity]. cbn.
    now rewrite (IH Hin Hbad).
Qed.

(** X24: for a supported league and with a key, a standings answer
    whose rows all map is returned in full and in order, one row per
    row of the answer, however many there are, under the league's
    configured name. *)
Theorem football_standings_uncapped :
  forall (league_code api_key name : string) (league_id : Z)
         (ranks : list json),
  Bot.assoc league_code Football.leagues = Some (league_id, name) ->
  truthy api_key = true ->
  (forall r, In r ranks -> exists row, map_rank r = Ok row) ->
  exists rows,
    get_standings league_code api_key (standings_payload ranks)
    = {| league_name := name; standings := rows |}
    /\ List.length rows = List.length ranks
    /\ Forall2 (fun r row => map_rank r = Ok row) ranks rows.
Proof.
  intros league_code api_key name league_id ranks Hl Hk Hall.
  destruct (map_ranks_all ranks Hall) as (rows & Erows & HF).
  exists rows. unfold get_standings.
  rewrite Hl, Hk, api_table_payload, Erows. cbn.
  split; [reflexivity|]. split; [|exact HF].
  symmetry. apply (Forall2_length HF).
Qed.

Lemma football_standings_uncapped_witness :
  Bot.assoc "SA" Football.leagues = Some (135%Z, "Serie A"%string)
  /\ truthy "key" = true
  /\ exists rows,
       get_standings "SA" "key" (standings_payload (repeat sample_rank 25))
       = {| league_name := "Serie A"; standings := rows |}
       /\ List.length rows = 25%nat.
Proof.
  split; [reflexivity|]. split; [reflexivity|].
  destruct (football_standings_uncapped "SA" "key" "Serie A" 135
              (repeat sample_rank 25) eq_refl eq_refl)
    as (rows & E & Hlen & _).
  - intros r Hr. apply repeat_spec in Hr. subst r.
    eexists. vm_compute. reflexivity.
  - exists rows. split; [exact E|]. rewrite Hlen. apply repeat_length.
Defined.

(** X25: one row of the standings answer that does not map (as a row
    that is not an object does not) discards the whole answer: the five placeholder rows are
    returned in its place. *)
Theorem football_standings_bad_row :
  forall (league_code api_key name : string) (league_id : Z)
         (ranks : list json) (bad : json) (e : exn),
  Bot.assoc league_code Football.leagues = Some (league_id, name) ->
  In bad ranks ->
  map_rank bad = Raise e ->
  get_standings league_code api_key (standings_payload ranks)
  = _get_simulated_standings league_code
  /\ List.length
       (standings (get_standings league_code api_key (standings_payload ranks)))
     = 5%nat.
Proof.
  intros league_code api_key name league_id ranks bad e Hl Hin Hbad.
  assert (E : get_standings league_code api_key (standings_payload ranks)
              = _get_simulated_standings league_code).
  { unfold get_standings. rewrite Hl.
    destruct (truthy api_key); cbn [negb]; [|reflexivity].
    now rewrite api_table_payload, (map_ranks_bad ranks bad e Hin Hbad). }
  split; [exact E|]. rewrite E. reflexivity.
Qed.

Lemma football_standings_bad_row_witness :
  Bot.assoc "SA" Football.leagues = Some (135%Z, "Serie A"%string)
  /\ In JNull [sample_rank; JNull]
  /\ map_rank JNull = Raise AttributeError
  /\ get_standings "SA" "key" (standings_payload [sample_rank; JNull])
     = _get_simulated_standings "SA".
Proof.
  assert (Hin : In JNull [sample_rank; JNull]) by (right; left; reflexivity).
  split; [reflexivity|]. split; [exact Hin|]. split; [reflexivity|].
  exact (proj1 (football_standings_bad_row "SA" "key" "Serie A" 135
                  [sample_rank; JNull] JNull AttributeError
                  eq_refl Hin eq_refl)).
Defined.

(** X26: whatever the request does, the football standings carry the
    configured name of a supported league and "Unknown League" for any
    other code; without a key, for an unsupported code, or when the
    request carries no data, they are the five placeholder rows. *)
Theorem football_standings_name_and_fallback :
  forall (league_code api_key : string) (o : http_outcome),
  league_name (get_standings league_code api_key o)
  = match Bot.assoc league_code Football.leagues with
    | Some (_, name) => name
    | None => "Unknown League"%string
    end
  /\ (Bot.assoc league_code Football.leagues = None
      \/ truthy api_key = false
      \/ Fetch.no_data o ->
      get_standings league_code api_key o
      = _get_simulated_standings league_code).
Proof.
  intros league_code api_key o. unfold get_standings.
  destruct (Bot.assoc league_code Football.leagues) as [[lid name]|] eqn:Hl.
  - destruct (truthy api_key) eqn:Hk; cbn [negb].
    + split.
      * destruct (api_table name o) as [t|] eqn:E.
        -- unfold api_table in E.
           repeat match type of E with
             | and_then ?x _ = Some _ =>
                 destruct x; cbn [and_then] in E; [|discriminate E]
             | match ?x with _ => _ end = Some _ =>
                 destruct x; [|discriminate E]
             | (if ?c then _ else _) = Some _ =>
                 destruct c; [|discriminate E]
             end.
           injection E as <-. reflexivity.
        -- unfold _get_simulated_standings. cbn [league_name]. now rewrite Hl.
      * intros [H|[H|H]]; [discriminate H | discriminate H|].
        unfold api_table.
        destruct (make_request_no_data o H) as [->|(r & -> & Hr)];
          cbn [caught and_then]; [reflexivity|].
        now rewrite Hr.
    + split; [|reflexivity].
      unfold _get_simulated_standings. cbn [league_name]. now rewrite Hl.
  - split; [|reflexivity].
    unfold _get_simulated_standings. cbn [league_name]. now rewrite Hl.
Qed.

End FootballTable.

(** * Properties of the simulated fixtures *)

Section PairUp.

Import Sampling.

Lemma remove_at_length {A : Type} (l : list A) (i : nat) :
  (i < List.length l)%nat ->
  S (List.length (remove_at i l)) = List.length l.
Proof.
  revert i. induction l as [|h t IH]; intros i Hi; cbn in *; [lia|].
  destruct i as [|i]; cbn; [reflexivity|].
  rewrite IH; [reflexivity | lia].
Qed.

Lemma remove_at_in {A : Type} (l : list A) (i : nat) (x : A) :
  In x (remove_at i l) -> In x l.
Proof.
  revert i. induction l as [|h t IH]; intros i Hx;
    [now destruct i|].
  destruct i as [|i]; cbn in *; [now right|].
  destruct Hx as [->|Hx]; [now left | right; eauto].
Qed.

Lemma remove_at_nodup {A : Type} (l : list A) (i : nat) (a : A) :
  NoDup l -> nth_error l i = Some a -> ~ In a (remove_at i l).
Proof.
  revert i. induction l as [|h t IH]; intros i Hnd Hi.
  - destruct i; discriminate Hi.
  - inversion Hnd as [|? ? Hh Ht]; subst. destruct i as [|i]; cbn in *.
    + injection Hi as ->. exact Hh.
    + intros [->|Hin].
      * apply Hh. eapply nth_error_In; eauto.
      * exact (IH i Ht Hi Hin).
Qed.

(** Two names drawn from at least two different ones are different
    members of the population. *)
Lemma sample2_spec {A : Type} (l : list A) (i j : nat) :
  NoDup l -> (2 <= List.length l)%nat ->
  exists a b, sample2 l i j = Ok (a, b) /\ In a l /\ In b l /\ a <> b.
Proof.
  intros Hnd Hlen. unfold sample2.
  set (n := List.length l) in *.
  assert (Hi : (i mod n < n)%nat) by (apply Nat.mod_upper_bound; lia).
  destruct (nth_error l (i mod n)) as [a|] eqn:Ea;
    [|apply nth_error_None in Ea; fold n in Ea; lia].
  assert (Hr : S (List.length (remove_at (i mod n) l)) = n)
    by (now apply remove_at_length).
  assert (Hj : (j mod (n - 1) < n - 1)%nat)
    by (apply Nat.mod_upper_bound; lia).
  destruct (nth_error (remove_at (i mod n) l) (j mod (n - 1))) as [b|] eqn:Eb;
    [|apply nth_error_None in Eb; lia].
  exists a, b. split; [reflexivity|].
  assert (Hb : In b (remove_at (i mod n) l)) by (eapply nth_error_In; eauto).
  split; [eapply nth_error_In; eauto|].
  split; [eapply remove_at_in; eauto|].
  intros ->. exact (remove_at_nodup l _ b Hnd Ea Hb).
Qed.

Lemma sample2_short {A : Type} (l : list A) (i j : nat) :
  (List.length l < 2)%nat -> sample2 l i j = Raise ValueError.
Proof.
  destruct l as [|a [|b t]]; cbn [List.length]; intro H; [| |lia].
  - unfold sample2. now destruct (i mod _)%nat.
  - unfold sample2. cbn [List.length]. rewrite Nat.mod_1_r. cbn.
    now destruct j.
Qed.

Lemma in_set_spec (x : string) (s : list string) :
  in_set x s = true <-> In x s.
Proof.
  unfold in_set. rewrite existsb_exists. split.
  - intros (y & Hy & E). apply String.eqb_eq in E. now subst.
  - intro H. exists x. split; [exact H | apply String.eqb_refl].
Qed.

Lemma in_set_add (x a : string) (s : list string) :
  in_set x (set_add a s) = (String.eqb x a || in_set x s)%bool.
Proof.
  unfold set_add. destruct (in_set a s) eqn:E; [|reflexivity].
  destruct (String.eqb x a) eqn:Ex; [|reflexivity].
  apply String.eqb_eq in Ex. now subst.
Qed.

Lemma unused_nil (names : list string) : unused names [] = names.
Proof.
  unfold unused. induction names as [|h t IH]; [reflexivity|].
  cbn. f_equal. exact IH.
Qed.

Lemma unused_in (names used : list string) (x : string) :
  In x (unused names used) <-> In x names /\ ~ In x used.
Proof.
  unfold unused. rewrite filter_In, negb_true_iff.
  rewrite <- (in_set_spec x used).
  destruct (in_set x used); split; intros (H1 & H2); split;
    try assumption; try discriminate; congruence.
Qed.

Lemma unused_add_in (names used : list string) (a x : string) :
  In x (unused names (set_add a used))
  <-> In x (unused names used) /\ x <> a.
Proof.
  rewrite !unused_in, <- !in_set_spec, in_set_add.
  destruct (String.eqb_spec x a) as [->|Hne]; cbn [orb].
  - intuition congruence.
  - intuition.
Qed.

Lemma unused_add_length (names used : list string) (a : string) :
  NoDup names -> In a (unused names used) ->
  S (List.length (unused names (set_add a used)))
  = List.length (unused names used).
Proof.
  intros Hnd Ha. apply unused_in in Ha. destruct Ha as (Ha & Hu).
  assert (Eu : in_set a used = false).
  { destruct (in_set a used) eqn:E; [|reflexivity].
    apply in_set_spec in E. contradiction. }
  unfold unused. clear Hu.
  induction names as [|h t IH]; [contradiction|].
  inversion Hnd as [|? ? Hh Ht]; subst. cbn [filter].
  rewrite in_set_add. destruct Ha as [->|Ha].
  - rewrite String.eqb_refl, Eu. cbn [orb negb List.length]. do 2 f_equal.
    apply filter_ext_in. intros x Hx. rewrite in_set_add.
    destruct (String.eqb_spec x a) as [->|_]; [contradiction | reflexivity].
  - destruct (String.eqb_spec h a) as [->|_]; [contradiction|].
    cbn [orb]. destruct (in_set h used); cbn [negb List.length].
    + now apply IH.
    + now rewrite IH.
Qed.

Context {D G : Type}.
Variable names : list string.
Variable picks : D -> nat * nat.
Variable build : string -> string -> D -> G.
Variable m : nat.
Hypothesis names_nodup : NoDup names.
Hypothesis names_pairs : List.length names = (2 * S m)%nat.

(** With [2 * k] names left, the loop returns, one entry per pass; each
    entry pairs two different names of the list, and the first [k]
    entries share no name. *)
Lemma pair_up_spec (ds : list D) :
  forall (used : list string) (k : nat),
  List.length (unused names used) = (2 * k)%nat ->
  exists ts : list (string * string * D),
    pair_up names picks build used ds = Ok (map (built build) ts)
    /\ map snd ts = ds
    /\ Forall (fun t => fst (fst t) <> snd (fst t)
                        /\ In (fst (fst t)) names
                        /\ In (snd (fst t)) names) ts
    /\ NoDup (flat_map pair_names (firstn k ts))
    /\ (forall x, In x (flat_map pair_names (firstn k ts)) ->
                  In x (unused names used)).
Proof.
  induction ds as [|d rest IH]; intros used k Hk.
  - exists []. cbn. rewrite firstn_nil. cbn.
    repeat split; try constructor. intros x [].
  - assert (body : forall used1 k1,
      List.length (unused names used1) = (2 * S k1)%nat ->
      exists ts : list (string * string * D),
        (' (a, b) <- sample2 (unused names used1)
                       (fst (picks d)) (snd (picks d)) ;;
         rest' <- pair_up names picks build
                    (set_add b (set_add a used1)) rest ;;
         Ok (build a b d :: rest')) = Ok (map (built build) ts)
        /\ map snd ts = d :: rest
        /\ Forall (fun t => fst (fst t) <> snd (fst t)
                            /\ In (fst (fst t)) names
                            /\ In (snd (fst t)) names) ts
        /\ NoDup (flat_map pair_names (firstn (S k1) ts))
        /\ (forall x, In x (flat_map pair_names (firstn (S k1) ts)) ->
                      In x (unused names used1))).
    { intros used1 k1 Hlen.
      assert (Hnd : NoDup (unused names used1))
        by (unfold unused; now apply NoDup_filter).
      destruct (sample2_spec (unused names used1)
                  (fst (picks d)) (snd (picks d)) Hnd)
        as (a & b & Es & Ha & Hb & Hab); [lia|].
      rewrite Es. cbn [bind].
      assert (Hb' : In b (unused names (set_add a used1))).
      { apply unused_add_in. split; [exact Hb | congruence]. }
      pose proof (unused_add_length names used1 a names_nodup Ha) as L1.
      pose proof (unused_add_length names (set_add a used1) b
                    names_nodup Hb') as L2.
      destruct (IH (set_add b (set_add a used1)) k1) as
        (ts & Ets & Hds & Hall & Hno & Hin); [lia|].
      rewrite Ets. cbn [bind].
      exists ((a, b, d) :: ts). cbn [map firstn flat_map pair_names fst snd app].
      split; [reflexivity|]. split; [now rewrite Hds|].
      assert (Han : In a names) by (apply unused_in in Ha; tauto).
      assert (Hbn : In b names) by (apply unused_in in Hb; tauto).
      split; [constructor; [cbn; tauto | exact Hall]|].
      assert (Hrest : forall x,
                In x (flat_map pair_names (firstn k1 ts)) ->
                In x (unused names used1) /\ x <> a /\ x <> b).
      { intros x Hx. apply Hin in Hx.
        apply unused_add_in in Hx. destruct Hx as (Hx & Hxb).
        apply unused_add_in in Hx. tauto. }
      split.
      - constructor.
        + intros [E|Hx]; [congruence|]. apply Hrest in Hx. tauto.
        + constructor; [|exact Hno].
          intro Hx. apply Hrest in Hx. tauto.
      - intros x [<-|[<-|Hx]]; [exact Ha | exact Hb|].
        apply Hrest in Hx. tauto. }
    cbn [pair_up]. cbv zeta.
    destruct k as [|k].
    + assert (E : (List.length (unused names used) <? 2)%nat = true)
        by (apply Nat.ltb_lt; lia).
      rewrite E.
      destruct (body [] m) as (ts & Ets & Hds & Hall & _).
      { now rewrite unused_nil. }
      rewrite unused_nil in Ets.
      exists ts. cbn [firstn flat_map].
      repeat split; try assumption; [constructor | intros x []].
    + assert (E : (List.length (unused names used) <? 2)%nat = false)
        by (apply Nat.ltb_ge; lia).
      rewrite E. exact (body used k Hk).
Qed.

End PairUp.

Section SimulatedFixtures.

Import Sampling.

Lemma NoDup_map_JStr (l : list string) : NoDup l -> NoDup (map JStr l).
Proof.
  induction 1 as [|x l Hx Hl IH]; cbn; constructor; [|exact IH].
  rewrite in_map_iff. intros (y & E & Hy). injection E as ->. contradiction.
Qed.

Lemma players_nodup : NoDup TennisSimulation.players.
Proof.
  assert (E : nodup string_dec TennisSimulation.players
              = TennisSimulation.players) by (vm_compute; reflexivity).
  rewrite <- E. apply NoDup_nodup.
Qed.

Lemma nba_teams_nodup : NoDup BasketballSimulation.nba_teams.
Proof.
  assert (E : nodup string_dec BasketballSimulation.nba_teams
              = BasketballSimulation.nba_teams) by (vm_compute; reflexivity).
  rewrite <- E. apply NoDup_nodup.
Qed.

Lemma pair_names_length {D : Type} (ts : list (string * string * D)) :
  List.length (flat_map pair_names ts) = (2 * List.length ts)%nat.
Proof. induction ts as [|t ts IH]; cbn in *; lia. Qed.

Lemma pair_names_incl {D : Type} (names : list string)
    (ts : list (string * string * D)) :
  Forall (fun t => fst (fst t) <> snd (fst t)
                   /\ In (fst (fst t)) names
                   /\ In (snd (fst t)) names) ts ->
  incl (flat_map pair_names ts) names.
Proof.
  induction 1 as [|t ts (_ & Ha & Hb) _ IH]; intros x Hx; [destruct Hx|].
  cbn in Hx. destruct Hx as [<-|[<-|Hx]]; auto.
Qed.

Lemma match_players_built (ts : list (string * string * TennisSimulation.match_draws)) :
  flat_map (fun m => [Tennis.match_player1 m; Tennis.match_player2 m])
    (map (built TennisSimulation.build_match) ts)
  = map JStr (flat_map pair_names ts).
Proof. induction ts as [|t ts IH]; cbn; [reflexivity | now rewrite <- IH]. Qed.

Lemma game_teams_built (ts : list (string * string * BasketballSimulation.game_draws)) :
  flat_map (fun g => [Basketball.game_home_team g;
                      Basketball.game_away_team g])
    (map (built BasketballSimulation.build_game) ts)
  = map JStr (flat_map pair_names ts).
Proof. induction ts as [|t ts IH]; cbn; [reflexivity | now rewrite <- IH]. Qed.

(** X27: for every number of matches [random.randint(4, 8)] can draw
    and whatever the other draws are, the tennis generator returns that
    many matches, all players are taken from its list of twenty, and no
    player appears twice in the day, neither within a match nor in two
    matches. *)
Theorem tennis_simulated_players_distinct :
  forall (num_matches : Z) (ds : nat -> TennisSimulation.match_draws),
  (4 <= num_matches <= 8)%Z ->
  exists ms,
    TennisSimulation._get_simulated_matches num_matches ds = Ok ms
    /\ List.length ms = Z.to_nat num_matches
    /\ NoDup (flat_map
                (fun m => [Tennis.match_player1 m; Tennis.match_player2 m]) ms)
    /\ incl (flat_map
               (fun m => [Tennis.match_player1 m; Tennis.match_player2 m]) ms)
            (map JStr TennisSimulation.players).
Proof.
  intros num_matches ds Hnum.
  unfold TennisSimulation._get_simulated_matches.
  destruct (pair_up_spec TennisSimulation.players
              (fun d => (TennisSimulation.player1_pick d,
                         TennisSimulation.player2_pick d))
              TennisSimulation.build_match 9 players_nodup eq_refl
              (map ds (seq 0 (Z.to_nat num_matches))) [] 10)
    as (ts & E & Hds & Hall & Hno & _); [reflexivity|].
  assert (Hlen : List.length ts = Z.to_nat num_matches).
  { rewrite <- (length_map snd ts), Hds, length_map. apply length_seq. }
  rewrite firstn_all2 in Hno by lia.
  exists (map (built TennisSimulation.build_match) ts).
  split; [exact E|]. split; [now rewrite length_map|].
  rewrite match_players_built. split.
  - now apply NoDup_map_JStr.
  - apply incl_map. exact (pair_names_incl _ ts Hall).
Qed.

Lemma tennis_simulated_players_distinct_witness :
  (4 <= 8 <= 8)%Z
  /\ exists ms,
       TennisSimulation._get_simulated_matches 8
         (fun k => {| TennisSimulation.player1_pick := 7 * k;
                      TennisSimulation.player2_pick := 3;
                      TennisSimulation.tournament_pick := 0;
                      TennisSimulation.surface_pick := 1;
                      TennisSimulation.hour_draw := 14;
                      TennisSimulation.minute_pick := 1;
                      TennisSimulation.round_pick := 2 |}) = Ok ms
       /\ List.length ms = 8%nat.
Proof.
  assert (H : (4 <= 8 <= 8)%Z) by lia.
  split; [exact H|].
  destruct (tennis_simulated_players_distinct 8
              (fun k => {| TennisSimulation.player1_pick := 7 * k;
                           TennisSimulation.player2_pick := 3;
                           TennisSimulation.tournament_pick := 0;
                           TennisSimulation.surface_pick := 1;
                           TennisSimulation.hour_draw := 14;
                           TennisSimulation.minute_pick := 1;
                           TennisSimulation.round_pick := 2 |}) H)
    as (ms & E & Hlen & _).
  exists ms. split; [exact E | exact Hlen].
Defined.

(** X28: whatever the draws are, the basketball generator returns as
    many games as the number drawn (sampling never meets fewer than two
    teams, because teams leave the pool two at a time and the pool of
    twelve is refilled when it is empty); every game opposes two
    different teams of its list, and the first six games share no
    team. *)
Theorem basketball_simulated_games_pairs :
  forall (num_games : Z) (ds : nat -> BasketballSimulation.game_draws),
  exists gs,
    BasketballSimulation._get_simulated_games num_games ds = Ok gs
    /\ List.length gs = Z.to_nat num_games
    /\ Forall (fun g =>
                 Basketball.game_home_team g <> Basketball.game_away_team g
                 /\ In (Basketball.game_home_team g)
                       (map JStr BasketballSimulation.nba_teams)
                 /\ In (Basketball.game_away_team g)
                       (map JStr BasketballSimulation.nba_teams)) gs
    /\ NoDup (flat_map
                (fun g => [Basketball.game_home_team g;
                           Basketball.game_away_team g])
                (firstn 6 gs)).
Proof.
  intros num_games ds.
  unfold BasketballSimulation._get_simulated_games.
  destruct (pair_up_spec BasketballSimulation.nba_teams
              (fun d => (BasketballSimulation.home_pick d,
                         BasketballSimulation.away_pick d))
              BasketballSimulation.build_game 5 nba_teams_nodup eq_refl
              (map ds (seq 0 (Z.to_nat num_games))) [] 6)
    as (ts & E & Hds & Hall & Hno & _); [reflexivity|].
  assert (Hlen : List.length ts = Z.to_nat num_games).
  { rewrite <- (length_map snd ts), Hds, length_map. apply length_seq. }
  exists (map (built BasketballSimulation.build_game) ts).
  split; [exact E|]. split; [now rewrite length_map|]. split.
  - apply Forall_map. eapply Forall_impl; [|exact Hall].
    intros [[a b] d] (Hab & Ha & Hb). cbn [fst snd] in Hab, Ha, Hb.
    unfold built, BasketballSimulation.build_game.
    cbn [fst snd Basketball.game_home_team Basketball.game_away_team].
    split; [congruence|]. split; now apply in_map.
  - rewrite firstn_map, game_teams_built.
    now apply NoDup_map_JStr.
Qed.

(** X29: from seven games on, the basketball generator always shows
    some team twice in the evening: the pool of twelve teams is used up
    after six games and refilled. *)
Theorem basketball_seven_games_repeat :
  forall (num_games : Z) (ds : nat -> BasketballSimulation.game_draws),
  (7 <= num_games)%Z ->
  exists gs,
    BasketballSimulation._get_simulated_games num_games ds = Ok gs
    /\ ~ NoDup (flat_map
                  (fun g => [Basketball.game_home_team g;
                             Basketball.game_away_team g]) gs).
Proof.
  intros num_games ds Hnum.
  unfold BasketballSimulation._get_simulated_games.
  destruct (pair_up_spec BasketballSimulation.nba_teams
              (fun d => (BasketballSimulation.home_pick d,
                         BasketballSimulation.away_pick d))
              BasketballSimulation.build_game 5 nba_teams_nodup eq_refl
              (map ds (seq 0 (Z.to_nat num_games))) [] 6)
    as (ts & E & Hds & Hall & _); [reflexivity|].
  assert (Hlen : List.length ts = Z.to_nat num_games).
  { rewrite <- (length_map snd ts), Hds, length_map. apply length_seq. }
  exists (map (built BasketballSimulation.build_game) ts).
  split; [exact E|]. rewrite game_teams_built.
  intro Hnd. apply NoDup_map_inv in Hnd.
  pose proof (NoDup_incl_length Hnd
                (pair_names_incl BasketballSimulation.nba_teams ts Hall))
    as Hle.
  rewrite pair_names_length, Hlen in Hle.
  change (List.length BasketballSimulation.nba_teams) with 12%nat in Hle.
  lia.
Qed.

Lemma basketball_seven_games_repeat_witness :
  (7 <= 7)%Z
  /\ exists gs,
       BasketballSimulation._get_simulated_games 7
         (fun k => {| BasketballSimulation.home_pick := k;
                      BasketballSimulation.away_pick := 2 * k;
                      BasketballSimulation.hour_draw := 8 |}) = Ok gs
       /\ ~ NoDup (flat_map
                     (fun g => [Basketball.game_home_team g;
                                Basketball.game_away_team g]) gs).
Proof.
  assert (H : (7 <= 7)%Z) by lia.
  split; [exact H|].
  exact (basketball_seven_games_repeat 7
           (fun k => {| BasketballSimulation.home_pick := k;
                        BasketballSimulation.away_pick := 2 * k;
                        BasketballSimulation.hour_draw := 8 |}) H).
Defined.

End SimulatedFixtures.
